(** * panel-simple: command lists, 9-bit SPI packing and the field patcher

    A shallow embedding of the command-list machinery of
    [drivers/gpu/drm/panel/panel-simple.c]:

    - [spi_send], [store_9bit], [store_high], [extract_data]: the 9-bit
      framing used on the three-wire serial bus;
    - [simple_i2c_write], [simple_i2c_read]: the two-wire transport;
    - [send_cmd_list]: the bytecode interpreter, including the bit-field
      patcher of the staged buffer [cmd_buf];
    - [send_all_cmd_lists] and the panel functions that call it
      ([panel_simple_prepare], [panel_simple_enable],
      [panel_simple_disable], [panel_simple_unprepare], the power functions
      and [panel_simple_shutdown]), and [panel_simple_get_timings].

    Machine integers are [Z] with the wrap-around written out, byte buffers are
    lists of [Z] updated by index, and every call that leaves the driver
    (bus transfers, sleeps, [dev_err]) is recorded in a trace; what the
    hardware answers is given by an oracle that sees the trace so far. *)

From Stdlib Require Import ZArith Lia Bool String.
From stdpp Require Import base list.

Local Open Scope Z_scope.

(** ** Machine integers *)

Module Mach.

(** Conversion to [unsigned] (32 bits). *)
Definition u32 (x : Z) : Z := x mod 2 ^ 32.

(** Conversion to [int] (32 bits, two's complement). *)
Definition s32 (x : Z) : Z := (x + 2 ^ 31) mod 2 ^ 32 - 2 ^ 31.

(** Conversion to [u8], as done by a store through a [u8 *]. *)
Definition u8 (x : Z) : Z := x mod 2 ^ 8.

(** Conversion to [u64]. *)
Definition u64 (x : Z) : Z := x mod 2 ^ 64.

(** Conversion to [__u16], as done by a store into [msg.addr]. *)
Definition u16 (x : Z) : Z := x mod 2 ^ 16.

Definition EINVAL : Z := 22.
Definition EPROTO : Z := 71.

(** [sizeof(panel->tx_buf)], also [sizeof(panel->rx_buf)]. *)
Definition TX_BUF_SIZE : Z := 63.

End Mach.
Export Mach.

(** ** Buffers *)

(** [buf[i]]; an index outside the list reads 0 (the driver never does it on
    the paths studied below, in C it would read neighbouring memory). *)
Definition byte_at (buf : list Z) (i : nat) : Z := default 0 (buf !! i).

(** [n] bytes starting at [p]. *)
Definition bytes_at (p : list Z) (n : nat) : list Z :=
  map (byte_at p) (seq 0 n).

(** [memcpy(dst, src, n)] where [src] holds the [n] bytes. *)
Fixpoint memcpy_at (dst : list Z) (i : nat) (src : list Z) : list Z :=
  match src with
  | [] => dst
  | b :: src' => memcpy_at (<[i := b]> dst) (S i) src'
  end.

Definition memcpy (dst src : list Z) : list Z := memcpy_at dst 0 src.

(** Bit [j] of a buffer seen as a serial bit stream: byte [j / 8], most
    significant bit first (the order in which SPI shifts the bits out). *)
Definition stream_bit (buf : list Z) (j : Z) : bool :=
  Z.testbit (byte_at buf (Z.to_nat (j / 8))) (7 - j mod 8).

(** ** The outside world *)

Record i2c_msg := {
  msg_addr : Z;
  msg_read : bool;              (* flags & I2C_M_RD *)
  msg_len : Z;
  msg_buf : list Z              (* bytes sent, empty for a read segment *)
}.

Inductive event :=
| EvSpiSync (len : Z) (tx : list Z) (rx : bool)
| EvI2cTransfer (msgs : list i2c_msg)
| EvMsleep (ms : Z)
| EvGenericWrite (payload : list Z)
| EvDcsWriteBuffer (payload : list Z)
| EvGenericRead (params : list Z) (n : Z)
| EvDcsRead (cmd : Z) (n : Z)
| EvSetMaxReturn (v : Z)
| EvDevErr (msg : string).

(** The trace is kept newest first. *)
Definition trace := list event.

(** What the buses answer.  Each function sees the trace so far and the
    request, and gives the return value of the kernel call (and the bytes
    received, for the calls that read). *)
Record bus := {
  spi_sync : trace -> Z -> list Z -> Z * list Z;
  i2c_transfer : trace -> list i2c_msg -> Z * list Z;
  mipi_dsi_generic_write : trace -> list Z -> Z;
  mipi_dsi_dcs_write_buffer : trace -> list Z -> Z;
  mipi_dsi_generic_read : trace -> list Z -> Z -> Z * list Z;
  mipi_dsi_dcs_read : trace -> Z -> Z -> Z * list Z;
  mipi_dsi_set_maximum_return_packet_size : trace -> Z -> Z
}.

(** ** The panel *)

(** The fields of [struct drm_display_mode] read by the patcher. *)
Record drm_display_mode := {
  hdisplay : Z; hsync_start : Z; hsync_end : Z; htotal : Z;
  vdisplay : Z; vsync_start : Z; vsync_end : Z; vtotal : Z
}.

(** The fields of [struct panel_simple] (and, of the DSI device, [dsi->lanes]
    and the bit [MIPI_DSI_MODE_LPM] of [dsi->mode_flags]) used by the command
    lists, and the trace of what the driver did so far. *)
Record panel_simple := {
  spi : bool;                   (* panel->spi != NULL *)
  i2c_address : Z;
  spi_9bit : Z;
  spi_bits : Z;
  tx_buf : list Z;
  rx_buf : list Z;
  lanes : Z;                    (* dsi->lanes *)
  mode_lpm : bool;              (* dsi->mode_flags & MIPI_DSI_MODE_LPM *)
  dt_mode : drm_display_mode;
  log : trace
}.

Definition set_spi_bits (v : Z) (s : panel_simple) : panel_simple :=
  {| spi := spi s; i2c_address := i2c_address s; spi_9bit := spi_9bit s;
     spi_bits := v; tx_buf := tx_buf s; rx_buf := rx_buf s;
     lanes := lanes s; mode_lpm := mode_lpm s; dt_mode := dt_mode s; log := log s |}.

Definition set_tx_buf (b : list Z) (s : panel_simple) : panel_simple :=
  {| spi := spi s; i2c_address := i2c_address s; spi_9bit := spi_9bit s;
     spi_bits := spi_bits s; tx_buf := b; rx_buf := rx_buf s;
     lanes := lanes s; mode_lpm := mode_lpm s; dt_mode := dt_mode s; log := log s |}.

Definition set_rx_buf (b : list Z) (s : panel_simple) : panel_simple :=
  {| spi := spi s; i2c_address := i2c_address s; spi_9bit := spi_9bit s;
     spi_bits := spi_bits s; tx_buf := tx_buf s; rx_buf := b;
     lanes := lanes s; mode_lpm := mode_lpm s; dt_mode := dt_mode s; log := log s |}.

(** [dsi->mode_flags |= MIPI_DSI_MODE_LPM] for [v = true]. *)
Definition set_mode_lpm (v : bool) (s : panel_simple) : panel_simple :=
  {| spi := spi s; i2c_address := i2c_address s; spi_9bit := spi_9bit s;
     spi_bits := spi_bits s; tx_buf := tx_buf s; rx_buf := rx_buf s;
     lanes := lanes s; mode_lpm := v; dt_mode := dt_mode s; log := log s |}.

Definition emit (e : event) (s : panel_simple) : panel_simple :=
  {| spi := spi s; i2c_address := i2c_address s; spi_9bit := spi_9bit s;
     spi_bits := spi_bits s; tx_buf := tx_buf s; rx_buf := rx_buf s;
     lanes := lanes s; mode_lpm := mode_lpm s; dt_mode := dt_mode s; log := e :: log s |}.

(** ** The 9-bit packer *)

Section Packer.

Variable E : bus.

(** [t.len] and the bytes behind [t.tx_buf] of the transfer [spi_send] sets
    up. *)
Definition xfer_len (panel : panel_simple) : Z :=
  Z.shiftr (u32 (spi_bits panel + 7)) 3.

Definition xfer_tx (panel : panel_simple) : list Z :=
  take (Z.to_nat (xfer_len panel)) (tx_buf panel).

(** [spi_send]: nothing to do without a device or without pending bits;
    otherwise one transfer of [(spi_bits + 7) >> 3] bytes of [tx_buf], and
    the bit count goes back to 0.  With [rx] the bytes clocked in land in
    [rx_buf]. *)
Definition spi_send (panel : panel_simple) (rx : bool) : Z * panel_simple :=
  if negb (spi panel) || (spi_bits panel =? 0) then (0, panel)
  else
    let len := xfer_len panel in
    let tx := xfer_tx panel in
    let '(ret, rxd) := spi_sync E (log panel) len tx in
    let panel := set_spi_bits 0 panel in
    let panel := emit (EvSpiSync len tx rx) panel in
    let panel :=
      if rx then
        set_rx_buf (memcpy (rx_buf panel) (map u8 (take (Z.to_nat len) rxd)))
                   panel
      else panel in
    let panel := if ret =? 0 then panel else emit (EvDevErr "spi") panel in
    (ret, panel).

(** The [while (bits > 0)] loop of [store_9bit].  [p] is what is left of the
    source bytes ([l] is its length), [idx] the position of [buf] in
    [tx_buf]. *)
Fixpoint store_9bit_loop (fuel : nat) (buf : list Z) (idx : nat)
         (val bits v_bits : Z) (p : list Z) : list Z :=
  match fuel with
  | O => buf
  | S fuel' =>
      if 0 <? bits then
        let buf := <[idx := u8 (Z.shiftr val (v_bits - 8))]> buf in
        let bits := bits - 8 in
        let v_bits := v_bits - 8 in
        if v_bits <? 8 then
          let val := u32 (Z.shiftl val 9) in
          let v_bits := v_bits + 9 in
          match p with
          | b :: p' =>
              store_9bit_loop fuel' buf (S idx)
                              (Z.lor (Z.lor val 256) b) bits v_bits p'
          | [] => store_9bit_loop fuel' buf (S idx) val bits v_bits []
          end
        else store_9bit_loop fuel' buf (S idx) val bits v_bits p
      else buf
  end.

(** [store_9bit] from the line [panel->spi_bits = i + bits] on: [i] is the
    bit offset to store at, [ret] what the function will return. *)
Definition store_9bit_at (panel : panel_simple) (i bits : Z) (p : list Z)
           (ret : Z) : Z * panel_simple :=
  let panel := set_spi_bits (u32 (i + bits)) panel in
  let idx := Z.to_nat (Z.shiftr i 3) in
  let v_bits := Z.land i 7 in
  let '(bits, val) :=
    if v_bits =? 0 then (bits, 0)
    else (bits + v_bits,
          Z.shiftr (byte_at (tx_buf panel) idx) (8 - v_bits)) in
  let val := u32 (Z.shiftl val 9) in
  let v_bits := v_bits + 9 in
  let '(val, p) :=
    match p with
    | b :: p' => (Z.lor val b, p')
    | [] => (val, [])
    end in
  let buf := store_9bit_loop (Z.to_nat bits) (tx_buf panel) idx
                             val bits v_bits p in
  (ret, set_tx_buf buf panel).

(** [store_9bit(panel, p, l)]; the list [p] stands for the [l] bytes at
    [p]. *)
Definition store_9bit (panel : panel_simple) (p : list Z)
  : Z * panel_simple :=
  let l := u32 (Z.of_nat (length p)) in
  let bits := s32 (l * 9) in
  let i := s32 (spi_bits panel) in
  if TX_BUF_SIZE * 8 <? u32 (i + bits) then
    let '(ret, panel) := spi_send panel false in
    let i := 0 in
    if TX_BUF_SIZE * 8 <? u32 bits then
      (- EINVAL, emit (EvDevErr "too many bytes") panel)
    else store_9bit_at panel i bits p ret
  else store_9bit_at panel i bits p 0.

(** The loop of [store_high]. *)
Fixpoint store_high_loop (fuel : nat) (buf : list Z) (idx : nat)
         (val bits v_bits : Z) : list Z :=
  match fuel with
  | O => buf
  | S fuel' =>
      if 0 <? bits then
        let '(val, v_bits) :=
          if v_bits <? 8
          then (u32 (Z.lor (Z.shiftl val 24) 16777215), v_bits + 24)
          else (val, v_bits) in
        let buf := <[idx := u8 (Z.shiftr val (v_bits - 8))]> buf in
        store_high_loop fuel' buf (S idx) val (bits - 8) (v_bits - 8)
      else buf
  end.

(** [store_high(panel, bits)]: [bits] one-bits, no flush when they do not
    fit. *)
Definition store_high (panel : panel_simple) (bits : Z)
  : Z * panel_simple :=
  let i := s32 (spi_bits panel) in
  if TX_BUF_SIZE * 8 <? u32 (i + bits) then
    (- EINVAL, emit (EvDevErr "too many bits") panel)
  else
    let panel := set_spi_bits (u32 (i + bits)) panel in
    let idx := Z.to_nat (Z.shiftr i 3) in
    let v_bits := Z.land i 7 in
    let '(bits, val) :=
      if v_bits =? 0 then (bits, 0)
      else (bits + v_bits,
            Z.shiftr (byte_at (tx_buf panel) idx) (8 - v_bits)) in
    let buf := store_high_loop (Z.to_nat bits) (tx_buf panel) idx
                               val bits v_bits in
    (0, set_tx_buf buf panel).

(** The loop of [extract_data]; the result lists the bytes stored through
    [dst], in order. *)
Fixpoint extract_data_loop (bytes : nat) (buf : list Z) (idx : nat)
         (val v_bits : Z) : list Z :=
  match bytes with
  | O => []
  | S bytes' =>
      let '(val, v_bits, idx) :=
        if v_bits <? 8
        then (u32 (Z.lor (Z.shiftl val 8) (byte_at buf idx)),
              v_bits + 8, S idx)
        else (val, v_bits, idx) in
      u8 (Z.shiftr val (v_bits - 8))
         :: extract_data_loop bytes' buf idx val (v_bits - 8)
  end.

(** [extract_data(dst, bytes, buf, start_bit)]. *)
Definition extract_data (bytes : nat) (buf : list Z) (start_bit : Z)
  : list Z :=
  let idx := Z.to_nat (Z.shiftr start_bit 3) in
  let v_bits := Z.land start_bit 7 in
  let '(val, v_bits, idx) :=
    if v_bits =? 0 then (0, v_bits, idx)
    else (byte_at buf idx, 8 - v_bits, S idx) in
  extract_data_loop bytes buf idx val v_bits.

End Packer.

(** ** The two-wire transport *)

Section TwoWire.

Variable E : bus.

(** [tmp = buf[0]; buf[0] = buf[1]; buf[1] = tmp;] *)
Definition swap_first_two (buf : list Z) : list Z :=
  let tmp := byte_at buf 0 in
  let buf := <[0%nat := byte_at buf 1]> buf in
  <[1%nat := tmp]> buf.

(** [simple_i2c_write(panel, tx, tx_len)]; the list [tx] stands for the
    [tx_len] bytes at [tx]. *)
Definition simple_i2c_write (panel : panel_simple) (tx : list Z)
  : Z * panel_simple :=
  let tx_len := u32 (Z.of_nat (length tx)) in
  if TX_BUF_SIZE <? tx_len then (- EINVAL, panel)
  else
    let buf := memcpy (tx_buf panel) tx in
    let buf := if 2 <=? tx_len then swap_first_two buf else buf in
    let panel := set_tx_buf buf panel in
    let msg := {| msg_addr := u16 (i2c_address panel); msg_read := false;
                  msg_len := tx_len;
                  msg_buf := take (Z.to_nat tx_len) buf |} in
    let ret := fst (i2c_transfer E (log panel) [msg]) in
    let panel := emit (EvI2cTransfer [msg]) panel in
    let '(ret, panel) :=
      if ret <? 0 then
        let panel := emit (EvMsleep 10) panel in
        let ret := fst (i2c_transfer E (log panel) [msg]) in
        (ret, emit (EvI2cTransfer [msg]) panel)
      else (ret, panel) in
    (if ret <? 0 then ret else 0, panel).

(** [simple_i2c_read(panel, tx, tx_len, rx, rx_len)]; the second component
    of the result is the new content of [rx]. *)
Definition simple_i2c_read (panel : panel_simple) (tx : list Z)
           (rx : list Z) (rx_len : Z) : Z * list Z * panel_simple :=
  let tx_len := u32 (Z.of_nat (length tx)) in
  if TX_BUF_SIZE <? tx_len then (- EINVAL, rx, panel)
  else if TX_BUF_SIZE <? rx_len then (- EINVAL, rx, panel)
  else
    let buf := memcpy (tx_buf panel) tx in
    let buf := if 2 <=? tx_len then swap_first_two buf else buf in
    let panel := set_tx_buf buf panel in
    let msgs :=
      [ {| msg_addr := u16 (i2c_address panel); msg_read := false;
           msg_len := tx_len; msg_buf := take (Z.to_nat tx_len) buf |};
        {| msg_addr := u16 (i2c_address panel); msg_read := true;
           msg_len := rx_len; msg_buf := [] |} ] in
    let '(ret, rxd) := i2c_transfer E (log panel) msgs in
    let panel := emit (EvI2cTransfer msgs) panel in
    let rx := memcpy rx (map u8 (take (Z.to_nat rx_len) rxd)) in
    (if ret <? 0 then ret else 0, rx, panel).

End TwoWire.

(** ** The command-list interpreter *)

(** The opcodes of [dt-bindings/display/simple_panel_mipi_cmds.h].  The header
    is not part of the sources at hand, so the table is a parameter of the
    interpreter. *)
Record opcodes := {
  S_IF_1_LANE : Z; S_IF_4_LANES : Z;
  S_DELAY : Z; S_DCS_LENGTH : Z; S_DCS_BUF : Z; S_MRPS : Z;
  S_DCS_READ1 : Z; S_DCS_READ8 : Z;
  S_CONST : Z;
  S_HSYNC : Z; S_HBP : Z; S_HACTIVE : Z; S_HFP : Z;
  S_VSYNC : Z; S_VBP : Z; S_VACTIVE : Z; S_VFP : Z
}.

Definition TYPE_MIPI : Z := 0.
Definition TYPE_I2C : Z := 1.
Definition TYPE_SPI : Z := 2.

(** [struct cmds]: the array behind [cmds] (if the pointer is not null) and
    the [length] the interpreter may consume. *)
Record cmds := {
  cmds_ptr : option (list Z);
  cmds_length : Z
}.

(** The locals of [send_cmd_list] that live across loop iterations. *)
Record regs := {
  r_cmd : list Z;               (* the bytes from [cmd] on *)
  r_length : Z;
  r_cmd_buf : list Z;
  r_skip : bool;
  r_match : Z
}.

(** [cmd += n; length -= n;] *)
Definition advance (n : Z) (r : regs) : regs :=
  {| r_cmd := drop (Z.to_nat n) (r_cmd r);
     r_length := u32 (r_length r - n);
     r_cmd_buf := r_cmd_buf r; r_skip := r_skip r; r_match := r_match r |}.

Definition set_cmd_buf (b : list Z) (r : regs) : regs :=
  {| r_cmd := r_cmd r; r_length := r_length r;
     r_cmd_buf := b; r_skip := r_skip r; r_match := r_match r |}.

Definition set_skip (b : bool) (r : regs) : regs :=
  {| r_cmd := r_cmd r; r_length := r_length r;
     r_cmd_buf := r_cmd_buf r; r_skip := b; r_match := r_match r |}.

Definition set_match (m : Z) (r : regs) : regs :=
  {| r_cmd := r_cmd r; r_length := r_length r;
     r_cmd_buf := r_cmd_buf r; r_skip := r_skip r; r_match := m |}.

(** Where control goes after the part of the loop body that depends on the
    opcode. *)
Inductive flow :=
| Fall (r : regs) (len ret : Z) (s : panel_simple)  (* on to [if (ret < 0)] *)
| Break (r : regs) (s : panel_simple)
| Continue (r : regs) (s : panel_simple)
| Return (ret : Z) (s : panel_simple).

(** The [while (dest_len && dest_start < 256)] loop of the patcher. *)
Fixpoint patch_loop (fuel : nat) (cmd_buf : list Z)
         (dest_start dest_len val : Z) : list Z :=
  match fuel with
  | O => cmd_buf
  | S fuel' =>
      if negb (dest_len =? 0) && (dest_start <? 256) then
        let l := Z.land dest_start 7 in
        let mask := if dest_len <? 8 then Z.shiftl 1 dest_len - 1 else 255 in
        let i := Z.to_nat (Z.shiftr dest_start 3) in
        let cmd_buf :=
          <[i := u8 (Z.land (byte_at cmd_buf i)
                            (u32 (Z.lnot (Z.shiftl mask l))))]> cmd_buf in
        let cmd_buf :=
          <[i := u8 (Z.lor (byte_at cmd_buf i)
                           (u32 (Z.shiftl val l)))]> cmd_buf in
        let l := 8 - l in
        let dest_start := dest_start + l in
        let val := Z.shiftr val l in
        let dest_len := if l <=? dest_len then dest_len - l else 0 in
        patch_loop fuel' cmd_buf dest_start dest_len val
      else cmd_buf
  end.

(** The patcher from [val >>= src_start] on.  A shift by 32 or more, which C
    leaves undefined, gives 0 here. *)
Definition patch (cmd_buf : list Z) (dest_start dest_len src_start val : Z)
  : list Z :=
  let val := Z.shiftr val src_start in
  patch_loop (Z.to_nat dest_len) cmd_buf dest_start dest_len val.

(** The [for] loop that assembles [readval] (from [data]) or [matchval]
    (from [cmd + match_index]): byte [i] goes to bits [8 i .. 8 i + 7].  The
    terms are ORed together; the order in which this is done does not change
    the value. *)
Fixpoint le_value (i : Z) (n : nat) (bytes : list Z) : Z :=
  match n with
  | O => 0
  | S n' =>
      Z.lor (u64 (Z.shiftl (byte_at bytes (Z.to_nat i)) (Z.shiftl i 3)))
            (le_value (i + 1) n' bytes)
  end.

Section Interp.

Variable E : bus.
Variable C : opcodes.

(** The branch of the writes: plain, [S_DCS_LENGTH] and [S_DCS_BUF]. *)
Definition do_write (type generic len : Z) (r : regs) (s : panel_simple)
  : flow :=
  let '(r, len, p, l) :=
    if len =? S_DCS_LENGTH C then
      let len := byte_at (r_cmd r) 0 in
      let r := advance 1 r in
      (r, len, r_cmd r, len)
    else if len =? S_DCS_BUF C then
      let l := byte_at (r_cmd r) 0 in
      let r := advance 1 r in
      let l := if 32 <? l then 32 else l in
      (r, 0, r_cmd_buf r, l)
    else (r, len, r_cmd r, len) in
  if r_length r <? len then
    Break r (emit (EvDevErr "Unexpected end of data") s)
  else if r_skip r then Fall r len 0 s
  else
    let payload := bytes_at p (Z.to_nat l) in
    let '(ret, s) :=
      if type =? TYPE_I2C then simple_i2c_write E s payload
      else if type =? TYPE_SPI then
        if negb (spi_9bit s =? 0) then store_9bit E s payload
        else if l <? TX_BUF_SIZE then
          let s := set_tx_buf (memcpy (tx_buf s) payload) s in
          let s := set_spi_bits (u32 (l * 8)) s in
          spi_send E s false
        else (- EINVAL, s)
      else if negb (generic =? 0) then
        (mipi_dsi_generic_write E (log s) payload,
         emit (EvGenericWrite payload) s)
      else
        (mipi_dsi_dcs_write_buffer E (log s) payload,
         emit (EvDcsWriteBuffer payload) s) in
    Fall r len ret s.

(** The branch of [S_MRPS]. *)
Definition do_mrps (type : Z) (r : regs) (s : panel_simple) : flow :=
  let v := byte_at (r_cmd r) 0 in
  let '(ret, s) :=
    if type =? TYPE_MIPI then
      (mipi_dsi_set_maximum_return_packet_size E (log s) v,
       emit (EvSetMaxReturn v) s)
    else (0, s) in
  Fall r 1 ret s.

(** One [mipi_dsi_generic_read] or [mipi_dsi_dcs_read] into [data]. *)
Definition dsi_read (generic : bool) (cmd : list Z) (data : list Z)
           (len : Z) (s : panel_simple) : Z * list Z * panel_simple :=
  let '(ret, rxd, ev) :=
    if generic then
      let params := bytes_at cmd 2 in
      let '(ret, rxd) := mipi_dsi_generic_read E (log s) params len in
      (ret, rxd, EvGenericRead params len)
    else
      let c := byte_at cmd 0 in
      let '(ret, rxd) := mipi_dsi_dcs_read E (log s) c len in
      (ret, rxd, EvDcsRead c len) in
  (ret, memcpy data (map u8 (take (Z.to_nat len) rxd)), emit ev s).

(** The transport part of a read that is not skipped: the value of [ret],
    the content of [data] and the panel afterwards. *)
Definition fetch (type generic len match_index : Z) (cmd : list Z)
           (s : panel_simple) : Z * list Z * panel_simple :=
  let data := replicate 8 0 in
  if type =? TYPE_I2C then
    simple_i2c_read E s (bytes_at cmd (Z.to_nat match_index)) data len
  else if type =? TYPE_SPI then
    let s :=
      if negb (spi_9bit s =? 0) then
        let s := snd (spi_send E s false) in
        snd (store_9bit E s (bytes_at cmd (Z.to_nat match_index)))
      else
        let s := set_tx_buf
                   (memcpy (tx_buf s)
                           (bytes_at cmd (Z.to_nat match_index))) s in
        set_spi_bits (u32 (match_index * 8)) s in
    let l := spi_bits s in
    let s := snd (store_high s (s32 (len * 8))) in
    let '(ret, s) := spi_send E s true in
    (ret, memcpy data (extract_data (Z.to_nat len) (rx_buf s) l), s)
  else if negb (generic =? 0) then
    let '(ret, data, s) := dsi_read true cmd data len s in
    let '(ret, data, s) :=
      if ret =? - EPROTO then dsi_read true cmd data len s
      else (ret, data, s) in
    (0, data, s)
  else
    let '(ret, data, s) := dsi_read false cmd data len s in
    if ret =? - EPROTO then dsi_read false cmd data len s
    else (ret, data, s).

(** The branch of [S_DCS_READ1 .. S_DCS_READ8]. *)
Definition do_read (type generic len : Z) (r : regs) (s : panel_simple)
  : flow :=
  let len := u32 (len - S_DCS_READ1 C + 1) in
  let match_index := if negb (generic =? 0) then 2 else 1 in
  let '(ret, r, s) :=
    if r_skip r then (0, r, s)
    else
      let '(ret, data, s) := fetch type generic len match_index (r_cmd r) s in
      let readval := le_value 0 (Z.to_nat len) data in
      let matchval :=
        le_value 0 (Z.to_nat len) (drop (Z.to_nat match_index) (r_cmd r)) in
      let r := if readval =? matchval then r else set_match (- EINVAL) r in
      (ret, r, s) in
  Fall r (u32 (len + match_index)) ret s.

(** The branch of [S_DELAY]. *)
Definition do_delay (type : Z) (r : regs) (s : panel_simple) : flow :=
  let s :=
    if r_skip r then s
    else
      let s := if type =? TYPE_SPI then snd (spi_send E s false) else s in
      emit (EvMsleep (byte_at (r_cmd r) 0)) s in
  let len := 1 in
  if r_length r <=? len then Break r s
  else Fall (advance len r) 0 0 s.

(** The value a computed selector stands for, and whether the selector was
    one of the [case] labels. *)
Definition computed_field (scmd : Z) (dm : drm_display_mode) : Z * bool :=
  if scmd =? S_HSYNC C then (u32 (hsync_end dm - hsync_start dm), true)
  else if scmd =? S_HBP C then (u32 (htotal dm - hsync_end dm), true)
  else if scmd =? S_HACTIVE C then (u32 (hdisplay dm), true)
  else if scmd =? S_HFP C then (u32 (hsync_start dm - hdisplay dm), true)
  else if scmd =? S_VSYNC C then (u32 (vsync_end dm - vsync_start dm), true)
  else if scmd =? S_VBP C then (u32 (vtotal dm - vsync_end dm), true)
  else if scmd =? S_VACTIVE C then (u32 (vdisplay dm), true)
  else if scmd =? S_VFP C then (u32 (vsync_start dm - vdisplay dm), true)
  else (0, false).

(** The branch of [S_CONST .. S_VFP]. *)
Definition do_patch (scmd : Z) (r : regs) (s : panel_simple) : flow :=
  let cmd := r_cmd r in
  let dest_start := byte_at cmd 0 in
  let dest_len := byte_at cmd 1 in
  let '(val, len, src_start, s) :=
    if scmd =? S_CONST C then
      (u32 (Z.lor (Z.lor (Z.lor (byte_at cmd 2)
                                (Z.shiftl (byte_at cmd 3) 8))
                         (Z.shiftl (byte_at cmd 4) 16))
                  (Z.shiftl (byte_at cmd 5) 24)),
       6, 0, s)
    else
      let '(val, known) := computed_field scmd (dt_mode s) in
      (val, 3, byte_at cmd 2,
       if known then s else emit (EvDevErr "Unknown scmd") s) in
  let cmd_buf := patch (r_cmd_buf r) dest_start dest_len src_start val in
  Fall (set_cmd_buf cmd_buf r) len 0 s.

(** The tests on the opcode, as they are written in the loop. *)
Definition is_write (len : Z) : bool :=
  (len <? S_DELAY C) || (len =? S_DCS_LENGTH C) || (len =? S_DCS_BUF C).

Definition is_read (len : Z) : bool :=
  (S_DCS_READ1 C <=? len) && (len <=? S_DCS_READ8 C).

Definition is_patch (len : Z) : bool :=
  (S_CONST C <=? len) && (len <=? S_VFP C).

Definition is_lane_gate (len : Z) : bool :=
  (S_IF_1_LANE C <=? len) && (len <=? S_IF_4_LANES C).

(** The loop body from [generic = len & 0x80] up to [if (ret < 0)]. *)
Definition dispatch (type len : Z) (r : regs) (s : panel_simple) : flow :=
  let generic := Z.land len 128 in
  let len := Z.land len 127 in
  if is_write len then do_write type generic len r s
  else if len =? S_MRPS C then do_mrps type r s
  else if is_read len then do_read type generic len r s
  else if len =? S_DELAY C then do_delay type r s
  else if is_patch len then do_patch len r s
  else
    Break (set_match (- EINVAL) r) (emit (EvDevErr "Unknown DCS command") s).

(** The end of the loop body, from [if (ret < 0)] on. *)
Definition finish (r : regs) (len ret : Z) (s : panel_simple) : flow :=
  if ret <? 0 then Return ret (emit (EvDevErr "Failed to send") s)
  else if r_length r <? len then
    Break r (emit (EvDevErr "Unexpected end of data") s)
  else
    let r := advance len r in
    if r_length r =? 0 then Break r s
    else Continue (set_skip false r) s.

(** One pass through the body of [while (1)]; the result is never
    [Fall]. *)
Definition body (type : Z) (r : regs) (s : panel_simple) : flow :=
  let len := byte_at (r_cmd r) 0 in
  let r := advance 1 r in
  if r_length r =? 0 then Break r s
  else if is_lane_gate len then
    let lane_match := 1 + len - S_IF_1_LANE C in
    Continue (if lane_match =? lanes s then r else set_skip true r) s
  else
    match dispatch type len r s with
    | Fall r len ret s => finish r len ret s
    | f => f
    end.

(** How the loop is left: by [break] or by [return ret]. *)
Inductive loop_exit :=
| Broke (r : regs) (s : panel_simple)
| Returned (ret : Z) (s : panel_simple).

(** [while (1)]; [None] when [fuel] passes do not reach an exit. *)
Fixpoint loop (fuel : nat) (type : Z) (r : regs) (s : panel_simple)
  : option loop_exit :=
  match fuel with
  | O => None
  | S fuel' =>
      match body type r s with
      | Continue r s => loop fuel' type r s
      | Break r s => Some (Broke r s)
      | Return ret s => Some (Returned ret s)
      | Fall r _ _ s => Some (Broke r s)
      end
  end.

(** What follows the loop: the last flush of the serial transport and
    [return match]. *)
Definition epilogue (type : Z) (x : loop_exit) : Z * panel_simple :=
  match x with
  | Returned ret s => (ret, s)
  | Broke r s =>
      if (r_match r =? 0) && (type =? TYPE_SPI) then spi_send E s false
      else (r_match r, s)
  end.

(** The locals at the first pass; [cmd_buf] is not initialised by the
    code, so its content on entry is an argument. *)
Definition entry (cmd : list Z) (length : Z) (cmd_buf : list Z) : regs :=
  {| r_cmd := cmd; r_length := length; r_cmd_buf := cmd_buf;
     r_skip := false; r_match := 0 |}.

(** [send_cmd_list(panel, mc, type, id)], with [fuel] passes allowed. *)
Definition send_cmd_list_fuel (fuel : nat) (panel : panel_simple)
           (mc : cmds) (type : Z) (cmd_buf : list Z)
  : option (Z * panel_simple) :=
  match cmds_ptr mc with
  | None => Some (0, panel)
  | Some cmd =>
      if cmds_length mc =? 0 then Some (0, panel)
      else
        let panel := set_spi_bits 0 panel in
        let panel := set_mode_lpm true panel in
        match loop fuel type (entry cmd (cmds_length mc) cmd_buf) panel with
        | Some x => Some (epilogue type x)
        | None => None
        end
  end.

(** Every pass consumes at least one byte of the [length] bytes, so
    [length] passes are enough. *)
Definition send_cmd_list (panel : panel_simple) (mc : cmds) (type : Z)
           (cmd_buf : list Z) : option (Z * panel_simple) :=
  send_cmd_list_fuel (Z.to_nat (cmds_length mc)) panel mc type cmd_buf.

End Interp.

(** ** Vocabulary of the statements *)

(** A list of [u8] values. *)
Definition bytes (l : list Z) : Prop := Forall (fun b => 0 <= b < 256) l.

(** Bit [q] of the 9-bit framing of the bytes [B] by one call of the packer:
    each byte is a group of nine bits, the marker first (clear for the first
    byte of the call, set for the others), then the byte from its most
    significant bit; past the last byte the bits are clear. *)
Definition frame_bit (B : list Z) (q : Z) : bool :=
  if q mod 9 =? 0 then (0 <? q / 9) && (q / 9 <? Z.of_nat (length B))
  else Z.testbit (byte_at B (Z.to_nat (q / 9))) (8 - q mod 9).

(** The stream expected after packing [B] at bit [i] of [buf0]. *)
Definition target (buf0 : list Z) (i : Z) (B : list Z) (j : Z) : bool :=
  if j <? i then stream_bit buf0 j else frame_bit B (j - i).

(** Invariant of the packing loop on [val]: its low [vb] bits are the stream
    bits that end with group [g]. *)
Definition pending (buf0 : list Z) (i : Z) (B : list Z)
           (val : Z) (g : nat) (vb : Z) : Prop :=
  forall t, 0 <= t < vb ->
            Z.testbit val t = target buf0 i B (i + 9 * Z.of_nat g - 1 - t).

(** Invariant of the packing loop on the buffer: the bytes before [idx] are
    final. *)
Definition written (buf0 : list Z) (i : Z) (B : list Z)
           (buf : list Z) (idx : nat) : Prop :=
  forall (k : nat) (u : Z), (k < idx)%nat -> 0 <= u < 8 ->
    Z.testbit (byte_at buf k) u = target buf0 i B (8 * Z.of_nat k + 7 - u).

(** Bit [j] of a buffer when the bits of a byte are counted from the least
    significant one: this is how the patcher addresses [cmd_buf]. *)
Definition lsb_bit (buf : list Z) (j : Z) : bool :=
  Z.testbit (byte_at buf (Z.to_nat (j / 8))) (j mod 8).

Definition is_too_many (e : event) : bool :=
  match e with
  | EvDevErr msg => String.eqb msg "too many bytes"
  | _ => false
  end.

Definition is_i2c_transfer (e : event) : bool :=
  match e with EvI2cTransfer _ => true | _ => false end.

Definition is_msleep (ms : Z) (e : event) : bool :=
  match e with EvMsleep m => m =? ms | _ => false end.

(** A call that reaches a bus (a sleep or a [dev_err] does not). *)
Definition is_transport (e : event) : bool :=
  match e with
  | EvMsleep _ | EvDevErr _ => false
  | _ => true
  end.

(** The number of events of a trace that pass the test [f]. *)
Fixpoint count (f : event -> bool) (t : trace) : nat :=
  match t with
  | [] => 0
  | e :: t' => (if f e then 1 else 0) + count f t'
  end.

(** How the loop reads the first byte of an instruction, in the order of its
    tests. *)
Inductive kind :=
| KLaneGate | KWrite | KWriteLength | KWriteBuf | KMrps | KRead | KDelay
| KPatch | KUnknown.

Definition classify (C : opcodes) (b : Z) : kind :=
  if is_lane_gate C b then KLaneGate
  else
    let len := Z.land b 127 in
    if is_write C len then
      if len =? S_DCS_LENGTH C then KWriteLength
      else if len =? S_DCS_BUF C then KWriteBuf
      else KWrite
    else if len =? S_MRPS C then KMrps
    else if is_read C len then KRead
    else if len =? S_DELAY C then KDelay
    else if is_patch C len then KPatch
    else KUnknown.

(** The number whose little-endian digits in base 256 are the bytes [l]. *)
Fixpoint little_endian (l : list Z) : Z :=
  match l with
  | [] => 0
  | b :: t => b + 256 * little_endian t
  end.

(** The effect of a failed verification on the locals, and on the ways out of
    the loop body and of the loop. *)
Definition poison (r : regs) : regs := set_match (- EINVAL) r.

Definition poison_flow (f : flow) : flow :=
  match f with
  | Fall r len ret s => Fall (poison r) len ret s
  | Break r s => Break (poison r) s
  | Continue r s => Continue (poison r) s
  | Return ret s => Return ret s
  end.

Definition poison_exit (x : loop_exit) : loop_exit :=
  match x with
  | Broke r s => Broke (poison r) s
  | Returned ret s => Returned ret s
  end.

(** The panel a pass ends with. *)
Definition flow_panel (f : flow) : panel_simple :=
  match f with
  | Fall _ _ _ s | Break _ s | Continue _ s | Return _ s => s
  end.

(** What the opcode-dependent part of a pass hands to the end of the pass:
    a length that is not negative, and no more of the stream than before. *)
Definition fall_ok (r : regs) (f : flow) : Prop :=
  match f with
  | Fall r' len _ _ =>
      0 <= len /\ 0 <= r_length r' <= r_length r /\ bytes (r_cmd r')
  | Continue _ _ => False
  | _ => True
  end.

(** ** Sample data *)

(** A bus on which every call succeeds and reads give nothing. *)
Definition quiet_bus : bus :=
  {| spi_sync := fun _ _ _ => (0, []);
     i2c_transfer := fun _ _ => (0, []);
     mipi_dsi_generic_write := fun _ _ => 0;
     mipi_dsi_dcs_write_buffer := fun _ _ => 0;
     mipi_dsi_generic_read := fun _ _ _ => (0, []);
     mipi_dsi_dcs_read := fun _ _ _ => (0, []);
     mipi_dsi_set_maximum_return_packet_size := fun _ _ => 0 |}.

Definition mode0 : drm_display_mode :=
  {| hdisplay := 800; hsync_start := 840; hsync_end := 888; htotal := 928;
     vdisplay := 480; vsync_start := 493; vsync_end := 496; vtotal := 525 |}.

(** A two-wire bus whose very first transfer fails with [-EIO]; the later
    ones report one message transferred. *)
Definition flaky_i2c_bus : bus :=
  {| spi_sync := fun _ _ _ => (0, []);
     i2c_transfer :=
       fun t _ => (if (count is_i2c_transfer t =? 0)%nat then -5 else 1, []);
     mipi_dsi_generic_write := fun _ _ => 0;
     mipi_dsi_dcs_write_buffer := fun _ _ => 0;
     mipi_dsi_generic_read := fun _ _ _ => (0, []);
     mipi_dsi_dcs_read := fun _ _ _ => (0, []);
     mipi_dsi_set_maximum_return_packet_size := fun _ _ => 0 |}.

(** A command interface on which every read ends with [-EPROTO]. *)
Definition eproto_bus : bus :=
  {| spi_sync := fun _ _ _ => (0, []);
     i2c_transfer := fun _ _ => (0, []);
     mipi_dsi_generic_write := fun _ _ => 0;
     mipi_dsi_dcs_write_buffer := fun _ _ => 0;
     mipi_dsi_generic_read := fun _ _ _ => (- EPROTO, []);
     mipi_dsi_dcs_read := fun _ _ _ => (- EPROTO, []);
     mipi_dsi_set_maximum_return_packet_size := fun _ _ => 0 |}.

(** A command interface whose reads give the one byte [v]. *)
Definition answer_bus (v : Z) : bus :=
  {| spi_sync := fun _ _ _ => (0, []);
     i2c_transfer := fun _ _ => (0, []);
     mipi_dsi_generic_write := fun _ _ => 0;
     mipi_dsi_dcs_write_buffer := fun _ _ => 0;
     mipi_dsi_generic_read := fun _ _ _ => (1, [v]);
     mipi_dsi_dcs_read := fun _ _ _ => (1, [v]);
     mipi_dsi_set_maximum_return_packet_size := fun _ _ => 0 |}.

(** A serial bus on which every transfer succeeds and clocks in the bytes
    [rx]. *)
Definition serial_bus (rx : list Z) : bus :=
  {| spi_sync := fun _ _ _ => (0, rx);
     i2c_transfer := fun _ _ => (0, []);
     mipi_dsi_generic_write := fun _ _ => 0;
     mipi_dsi_dcs_write_buffer := fun _ _ => 0;
     mipi_dsi_generic_read := fun _ _ _ => (0, []);
     mipi_dsi_dcs_read := fun _ _ _ => (0, []);
     mipi_dsi_set_maximum_return_packet_size := fun _ _ => 0 |}.

(** A panel with all three buses, four lanes, zeroed buffers and a DSI
    device that is in low-power mode already. *)
Definition panel0 : panel_simple :=
  {| spi := true; i2c_address := 0x2c; spi_9bit := 1; spi_bits := 0;
     tx_buf := replicate 63 0; rx_buf := replicate 63 0; lanes := 4;
     mode_lpm := true; dt_mode := mode0; log := [] |}.

(** An opcode table to run the interpreter on.  The values are not those of
    the header (which is not at hand); the table only has the shape the
    interpreter expects: lengths of plain writes below [S_DELAY], the reads
    and the lane gates in a row, and the selectors between [S_CONST] and
    [S_VFP], here with one value (0x75) that is no selector. *)
Definition sample_codes : opcodes :=
  {| S_IF_1_LANE := 0x7c; S_IF_4_LANES := 0x7f;
     S_DELAY := 0x60; S_DCS_LENGTH := 0x61; S_DCS_BUF := 0x62;
     S_MRPS := 0x63; S_DCS_READ1 := 0x64; S_DCS_READ8 := 0x6b;
     S_CONST := 0x70;
     S_HSYNC := 0x71; S_HBP := 0x72; S_HACTIVE := 0x73; S_HFP := 0x74;
     S_VSYNC := 0x76; S_VBP := 0x77; S_VACTIVE := 0x78; S_VFP := 0x79 |}.

(** The bytes of a two-wire message for the payload [tx]: the first two
    bytes change places. *)
Definition wire (tx : list Z) : list Z :=
  match tx with
  | a :: b :: t => b :: a :: t
  | _ => tx
  end.

(** [true] when [scmd] is one of the [case] labels of the patcher. *)
Definition is_selector (C : opcodes) (scmd : Z) : bool :=
  (scmd =? S_HSYNC C) || (scmd =? S_HBP C) || (scmd =? S_HACTIVE C)
  || (scmd =? S_HFP C) || (scmd =? S_VSYNC C) || (scmd =? S_VBP C)
  || (scmd =? S_VACTIVE C) || (scmd =? S_VFP C).

(** ** All the lists of an interface set, and the panel functions *)

(** [struct interface_cmds]. *)
Record interface_cmds := {
  if_i2c : cmds;
  if_mipi : cmds;
  if_spi : cmds
}.

(** The constants of [linux/fb.h] and [linux/backlight.h] the driver stores
    in the backlight.  The headers are not part of the sources at hand, so
    the values are a parameter. *)
Record fb_consts := {
  FB_BLANK_UNBLANK : Z;
  FB_BLANK_POWERDOWN : Z;
  BL_CORE_FBBLANK : Z
}.

(** What the driver reads and writes of [struct backlight_device]; [updates]
    counts the calls of [backlight_update_status]. *)
Record backlight_device := {
  props_power : Z;
  props_state : Z;
  updates : nat
}.

(** [desc->delay]. *)
Record panel_delay := {
  delay_power_up : Z;
  delay_prepare : Z;
  delay_enable : Z;
  delay_disable : Z;
  delay_unprepare : Z;
  delay_power_down : Z
}.

(** [struct panel_simple] as the panel functions see it: the part used by
    the command lists ([cl]) and the rest.  A GPIO line holds the value last
    set ([None] for a null descriptor); [supply] is the number of
    [regulator_enable] calls that succeeded less the number of
    [regulator_disable] calls. *)
Record panel_state := {
  cl : panel_simple;
  prepared : bool;
  enabled : bool;
  backlight : option backlight_device;
  supply : Z;
  gpd_power_enable : option Z;
  gpd_prepare_enable : option Z;
  reset : option Z;
  i2c : bool;                   (* panel->i2c != NULL *)
  delay : panel_delay;
  cmds_init : interface_cmds;
  cmds_enable : interface_cmds;
  cmds_disable : interface_cmds
}.

Definition set_cl (v : panel_simple) (p : panel_state) : panel_state :=
  {| cl := v; prepared := prepared p; enabled := enabled p;
     backlight := backlight p; supply := supply p;
     gpd_power_enable := gpd_power_enable p;
     gpd_prepare_enable := gpd_prepare_enable p; reset := reset p;
     i2c := i2c p; delay := delay p; cmds_init := cmds_init p;
     cmds_enable := cmds_enable p; cmds_disable := cmds_disable p |}.

Definition set_prepared (v : bool) (p : panel_state) : panel_state :=
  {| cl := cl p; prepared := v; enabled := enabled p;
     backlight := backlight p; supply := supply p;
     gpd_power_enable := gpd_power_enable p;
     gpd_prepare_enable := gpd_prepare_enable p; reset := reset p;
     i2c := i2c p; delay := delay p; cmds_init := cmds_init p;
     cmds_enable := cmds_enable p; cmds_disable := cmds_disable p |}.

Definition set_enabled (v : bool) (p : panel_state) : panel_state :=
  {| cl := cl p; prepared := prepared p; enabled := v;
     backlight := backlight p; supply := supply p;
     gpd_power_enable := gpd_power_enable p;
     gpd_prepare_enable := gpd_prepare_enable p; reset := reset p;
     i2c := i2c p; delay := delay p; cmds_init := cmds_init p;
     cmds_enable := cmds_enable p; cmds_disable := cmds_disable p |}.

Definition set_backlight (v : option backlight_device) (p : panel_state)
  : panel_state :=
  {| cl := cl p; prepared := prepared p; enabled := enabled p;
     backlight := v; supply := supply p;
     gpd_power_enable := gpd_power_enable p;
     gpd_prepare_enable := gpd_prepare_enable p; reset := reset p;
     i2c := i2c p; delay := delay p; cmds_init := cmds_init p;
     cmds_enable := cmds_enable p; cmds_disable := cmds_disable p |}.

Definition set_supply (v : Z) (p : panel_state) : panel_state :=
  {| cl := cl p; prepared := prepared p; enabled := enabled p;
     backlight := backlight p; supply := v;
     gpd_power_enable := gpd_power_enable p;
     gpd_prepare_enable := gpd_prepare_enable p; reset := reset p;
     i2c := i2c p; delay := delay p; cmds_init := cmds_init p;
     cmds_enable := cmds_enable p; cmds_disable := cmds_disable p |}.

Definition set_gpd_power_enable (v : option Z) (p : panel_state)
  : panel_state :=
  {| cl := cl p; prepared := prepared p; enabled := enabled p;
     backlight := backlight p; supply := supply p;
     gpd_power_enable := v;
     gpd_prepare_enable := gpd_prepare_enable p; reset := reset p;
     i2c := i2c p; delay := delay p; cmds_init := cmds_init p;
     cmds_enable := cmds_enable p; cmds_disable := cmds_disable p |}.

Definition set_gpd_prepare_enable (v : option Z) (p : panel_state)
  : panel_state :=
  {| cl := cl p; prepared := prepared p; enabled := enabled p;
     backlight := backlight p; supply := supply p;
     gpd_power_enable := gpd_power_enable p;
     gpd_prepare_enable := v; reset := reset p;
     i2c := i2c p; delay := delay p; cmds_init := cmds_init p;
     cmds_enable := cmds_enable p; cmds_disable := cmds_disable p |}.

Definition set_reset (v : option Z) (p : panel_state) : panel_state :=
  {| cl := cl p; prepared := prepared p; enabled := enabled p;
     backlight := backlight p; supply := supply p;
     gpd_power_enable := gpd_power_enable p;
     gpd_prepare_enable := gpd_prepare_enable p; reset := v;
     i2c := i2c p; delay := delay p; cmds_init := cmds_init p;
     cmds_enable := cmds_enable p; cmds_disable := cmds_disable p |}.

(** [if (line) gpiod_set_value_cansleep(line, v);] *)
Definition gpiod_set_value_cansleep (line : option Z) (v : Z) : option Z :=
  match line with
  | Some _ => Some v
  | None => None
  end.

(** [if (ms) msleep(ms);] *)
Definition msleep_if (ms : Z) (p : panel_state) : panel_state :=
  if ms =? 0 then p else set_cl (emit (EvMsleep ms) (cl p)) p.

Section Lifecycle.

Variable E : bus.
Variable C : opcodes.
Variable K : fb_consts.

(** What [regulator_enable] returns, given the trace so far. *)
Variable regulator_enable : trace -> Z.

(** The content of the uninitialised [cmd_buf] of each call of
    [send_cmd_list], by list type. *)
Variable stack : Z -> list Z.

(** [send_all_cmd_lists(panel, msc)]. *)
Definition send_all_cmd_lists (p : panel_state) (msc : interface_cmds)
  : option (Z * panel_state) :=
  match (if i2c p
         then send_cmd_list E C (cl p) (if_i2c msc) TYPE_I2C (stack TYPE_I2C)
         else Some (0, cl p)) with
  | None => None
  | Some (ret, s) =>
      match (if ret =? 0
             then send_cmd_list E C s (if_mipi msc) TYPE_MIPI
                                (stack TYPE_MIPI)
             else Some (ret, s)) with
      | None => None
      | Some (ret, s) =>
          match (if (ret =? 0) && spi s
                 then send_cmd_list E C s (if_spi msc) TYPE_SPI
                                    (stack TYPE_SPI)
                 else Some (ret, s)) with
          | None => None
          | Some (ret, s) => Some (ret, set_cl s p)
          end
      end
  end.

(** [panel_simple_disable]. *)
Definition panel_simple_disable (p : panel_state)
  : option (Z * panel_state) :=
  if negb (enabled p) then Some (0, p)
  else
    let p :=
      match backlight p with
      | Some bl =>
          set_backlight
            (Some {| props_power := FB_BLANK_POWERDOWN K;
                     props_state :=
                       u32 (Z.lor (props_state bl) (BL_CORE_FBBLANK K));
                     updates := S (updates bl) |}) p
      | None => p
      end in
    let p := msleep_if (delay_disable (delay p)) p in
    match send_all_cmd_lists p (cmds_disable p) with
    | None => None
    | Some (_, p) => Some (0, set_enabled false p)
    end.

(** [panel_simple_unprepare]. *)
Definition panel_simple_unprepare (p : panel_state) : Z * panel_state :=
  if negb (prepared p) then (0, p)
  else
    let p := msleep_if (delay_unprepare (delay p)) p in
    let p := set_reset (gpiod_set_value_cansleep (reset p) 1) p in
    let p := set_gpd_prepare_enable
               (gpiod_set_value_cansleep (gpd_prepare_enable p) 0) p in
    let p := set_supply (supply p - 1) p in
    (0, set_prepared false p).

(** [panel_simple_power_down]. *)
Definition panel_simple_power_down (p : panel_state) : Z * panel_state :=
  let p := msleep_if (delay_power_down (delay p)) p in
  (0, set_gpd_power_enable
        (gpiod_set_value_cansleep (gpd_power_enable p) 0) p).

(** [panel_simple_power_up]. *)
Definition panel_simple_power_up (p : panel_state) : Z * panel_state :=
  let p := set_gpd_power_enable
             (gpiod_set_value_cansleep (gpd_power_enable p) 1) p in
  (0, msleep_if (delay_power_up (delay p)) p).

(** [panel_simple_prepare].  A result of [regulator_enable] that is not
    negative counts as a success, as the driver reads it; what
    [regulator_disable] returns is dropped. *)
Definition panel_simple_prepare (p : panel_state)
  : option (Z * panel_state) :=
  if prepared p then Some (0, p)
  else
    let err := regulator_enable (log (cl p)) in
    if err <? 0 then
      Some (err, set_cl (emit (EvDevErr "failed to enable supply") (cl p)) p)
    else
      let p := set_supply (supply p + 1) p in
      let p := set_gpd_prepare_enable
                 (gpiod_set_value_cansleep (gpd_prepare_enable p) 1) p in
      let p := set_reset (gpiod_set_value_cansleep (reset p) 0) p in
      let p := msleep_if (delay_prepare (delay p)) p in
      match send_all_cmd_lists p (cmds_init p) with
      | None => None
      | Some (err, p) =>
          if negb (err =? 0) then Some (err, set_supply (supply p - 1) p)
          else Some (0, set_prepared true p)
      end.

(** [panel_simple_enable]. *)
Definition panel_simple_enable (p : panel_state)
  : option (Z * panel_state) :=
  if enabled p then Some (0, p)
  else
    match send_all_cmd_lists p (cmds_enable p) with
    | None => None
    | Some (ret, p) =>
        if ret <? 0 then
          let p := set_reset (gpiod_set_value_cansleep (reset p) 1) p in
          let p := set_gpd_prepare_enable
                     (gpiod_set_value_cansleep (gpd_prepare_enable p) 0) p in
          Some (ret, p)
        else
          let p := msleep_if (delay_enable (delay p)) p in
          let p :=
            match backlight p with
            | Some bl =>
                set_backlight
                  (Some {| props_power := FB_BLANK_UNBLANK K;
                           props_state :=
                             u32 (Z.land (props_state bl)
                                         (Z.lnot (BL_CORE_FBBLANK K)));
                           updates := S (updates bl) |}) p
            | None => p
            end in
          Some (0, set_enabled true p)
    end.

(** [panel_simple_shutdown]: [panel_simple_disable], then
    [panel_simple_unprepare]; the values they return are dropped. *)
Definition panel_simple_shutdown (p : panel_state) : option panel_state :=
  match panel_simple_disable p with
  | None => None
  | Some (_, p) => Some (snd (panel_simple_unprepare p))
  end.

End Lifecycle.

(** ** Timings *)

(** The fields of [struct panel_desc] read by [panel_simple_get_timings];
    [T] stands for [struct display_timing]. *)
Record panel_desc (T : Type) := {
  timings : list T;
  num_timings : Z
}.

Arguments timings {T} _.
Arguments num_timings {T} _.

(** [for (i = 0; i < num_timings; i++) timings[i] = p->desc->timings[i];]
    from index [i] on, [fuel] being the number of rounds left.  An entry
    the descriptor does not have is not copied (in C the read would run
    past the array). *)
Fixpoint copy_timings {T : Type} (fuel : nat) (i : nat) (src out : list T)
  : list T :=
  match fuel with
  | O => out
  | S fuel' =>
      match src !! i with
      | Some t => copy_timings fuel' (S i) src (<[i := t]> out)
      | None => copy_timings fuel' (S i) src out
      end
  end.

(** [panel_simple_get_timings(panel, num_timings, timings)]: the value
    returned and the caller's array afterwards ([None] for a null
    pointer). *)
Definition panel_simple_get_timings {T : Type} (desc : panel_desc T)
           (n : Z) (out : option (list T)) : Z * option (list T) :=
  let n := if num_timings desc <? n then num_timings desc else n in
  (s32 (num_timings desc),
   match out with
   | Some out => Some (copy_timings (Z.to_nat n) 0 (timings desc) out)
   | None => None
   end).

(** ** Vocabulary of the bit-level statements *)

(** The stream expected after [store_high] at bit [i] of [buf0]: the old bits,
    then one-bits. *)
Definition ones_after (buf0 : list Z) (i j : Z) : bool :=
  if j <? i then stream_bit buf0 j else true.

(** The low [vb] bits of [val] are the bits of the stream [T] that end just
    before position [P]. *)
Definition holds_bits (T : Z -> bool) (val P vb : Z) : Prop :=
  forall t, 0 <= t < vb -> Z.testbit val t = T (P - 1 - t).

(** The bytes of [buf] before [idx] carry the stream [T]. *)
Definition carries (T : Z -> bool) (buf : list Z) (idx : nat) : Prop :=
  forall (k : nat) (u : Z), (k < idx)%nat -> 0 <= u < 8 ->
    Z.testbit (byte_at buf k) u = T (8 * Z.of_nat k + 7 - u).

(** ** Vocabulary of the statements on whole runs *)

(** The events a command list of the given [type] may cause: transfers on
    its own bus, sleeps and messages. *)
Definition on_bus (type : Z) (e : event) : bool :=
  match e with
  | EvSpiSync _ _ _ => type =? TYPE_SPI
  | EvI2cTransfer _ => type =? TYPE_I2C
  | EvGenericWrite _ | EvDcsWriteBuffer _ | EvGenericRead _ _
  | EvDcsRead _ _ => negb (type =? TYPE_I2C) && negb (type =? TYPE_SPI)
  | EvSetMaxReturn _ => type =? TYPE_MIPI
  | EvMsleep _ | EvDevErr _ => true
  end.

(** The trace [new] is the trace [old] with more events, all accepted by
    [f]. *)
Definition extends (f : event -> bool) (old new : trace) : Prop :=
  exists d, new = d ++ old /\ Forall (fun e => f e = true) d.

(** The fields of the panel that describe the hardware. *)
Definition same_config (s s' : panel_simple) : Prop :=
  spi s' = spi s /\ i2c_address s' = i2c_address s /\
  spi_9bit s' = spi_9bit s /\ lanes s' = lanes s /\ dt_mode s' = dt_mode s.

Definition keeps (type : Z) (s s' : panel_simple) : Prop :=
  same_config s s' /\ extends (on_bus type) (log s) (log s').

(** The two values [match] takes. *)
Definition match_ok (r : regs) : Prop :=
  r_match r = 0 \/ r_match r = - EINVAL.

Definition flow_keeps (type : Z) (s : panel_simple) (f : flow) : Prop :=
  match f with
  | Fall r _ _ s' | Break r s' | Continue r s' => match_ok r /\ keeps type s s'
  | Return ret s' => ret < 0 /\ keeps type s s'
  end.

Definition exit_keeps (type : Z) (s : panel_simple) (x : loop_exit) : Prop :=
  match x with
  | Broke r s' => match_ok r /\ keeps type s s'
  | Returned ret s' => ret < 0 /\ keeps type s s'
  end.

(** [true] when every lane gate of [gs] asks for the number of lanes
    [lanes]. *)
Definition gates_match (C : opcodes) (lanes : Z) (gs : list Z) : bool :=
  forallb (fun b => 1 + b - S_IF_1_LANE C =? lanes) gs.

(** The panel [s] after the messages [msgs] (the last one first) have been
    logged with [dev_err]: nothing but the trace differs. *)
Fixpoint complain (msgs : list string) (s : panel_simple) : panel_simple :=
  match msgs with
  | [] => s
  | m :: t => emit (EvDevErr m) (complain t s)
  end.

(** ** Vocabulary of the statements on the panel functions *)

(** A stream the interpreter can be given: an [unsigned] length, and bytes
    behind the pointer. *)
Definition valid_cmds (mc : cmds) : Prop :=
  0 <= cmds_length mc < 2 ^ 32 /\
  forall cmd, cmds_ptr mc = Some cmd -> bytes cmd.

Definition valid_interface (msc : interface_cmds) : Prop :=
  valid_cmds (if_i2c msc) /\ valid_cmds (if_mipi msc) /\
  valid_cmds (if_spi msc).

Definition valid_panel (p : panel_state) : Prop :=
  valid_interface (cmds_init p) /\ valid_interface (cmds_enable p) /\
  valid_interface (cmds_disable p).

(** The supply is held exactly while the panel is prepared. *)
Definition supply_balanced (p : panel_state) : Prop :=
  supply p = if prepared p then 1 else 0.

(** The calls the DRM core makes on a panel. *)
Inductive panel_call :=
| CallPrepare | CallUnprepare | CallEnable | CallDisable
| CallPowerUp | CallPowerDown | CallShutdown.

Definition do_call (E : bus) (C : opcodes) (K : fb_consts)
           (regulator_enable : trace -> Z) (stack : Z -> list Z)
           (c : panel_call) (p : panel_state) : option panel_state :=
  match c with
  | CallPrepare =>
      option_map snd (panel_simple_prepare E C regulator_enable stack p)
  | CallUnprepare => Some (snd (panel_simple_unprepare p))
  | CallEnable => option_map snd (panel_simple_enable E C K stack p)
  | CallDisable => option_map snd (panel_simple_disable E C K stack p)
  | CallPowerUp => Some (snd (panel_simple_power_up p))
  | CallPowerDown => Some (snd (panel_simple_power_down p))
  | CallShutdown => panel_simple_shutdown E C K stack p
  end.

Fixpoint do_calls (E : bus) (C : opcodes) (K : fb_consts)
         (regulator_enable : trace -> Z) (stack : Z -> list Z)
         (cs : list panel_call) (p : panel_state) : option panel_state :=
  match cs with
  | [] => Some p
  | c :: cs' =>
      match do_call E C K regulator_enable stack c p with
      | None => None
      | Some p' => do_calls E C K regulator_enable stack cs' p'
      end
  end.

(** ** Sample data for the panel functions *)

Definition fb0 : fb_consts :=
  {| FB_BLANK_UNBLANK := 0; FB_BLANK_POWERDOWN := 4; BL_CORE_FBBLANK := 2 |}.

Definition delay0 : panel_delay :=
  {| delay_power_up := 0; delay_prepare := 10; delay_enable := 20;
     delay_disable := 0; delay_unprepare := 5; delay_power_down := 0 |}.

(** One short list for each bus: a write of two bytes on the two-wire bus, a
    DCS write and a delay on the command interface, a write of two bytes on
    the serial bus; each ends with the byte that is never executed. *)
Definition lists0 : interface_cmds :=
  {| if_i2c := {| cmds_ptr := Some [0x02; 0x01; 0x02; 0xff];
                  cmds_length := 4 |};
     if_mipi := {| cmds_ptr := Some [0x01; 0x11; 0x60; 0x05; 0xff];
                   cmds_length := 5 |};
     if_spi := {| cmds_ptr := Some [0x02; 0x11; 0x22; 0xff];
                  cmds_length := 4 |} |}.

(** A list for the command interface that ends on an opcode no branch
    knows. *)
Definition bad_lists : interface_cmds :=
  {| if_i2c := {| cmds_ptr := None; cmds_length := 0 |};
     if_mipi := {| cmds_ptr := Some [0x7b; 0x00; 0xff]; cmds_length := 3 |};
     if_spi := {| cmds_ptr := Some [0x02; 0x11; 0x22; 0xff];
                  cmds_length := 4 |} |}.

Definition device0 : panel_state :=
  {| cl := panel0; prepared := false; enabled := false;
     backlight := Some {| props_power := 4; props_state := 2;
                          updates := 0 |};
     supply := 0;
     gpd_power_enable := None; gpd_prepare_enable := Some 0;
     reset := Some 1; i2c := true; delay := delay0;
     cmds_init := lists0; cmds_enable := bad_lists;
     cmds_disable := bad_lists |}.

(** A regulator that never fails, and one that always does. *)
Definition supply_ok : trace -> Z := fun _ => 0.
Definition supply_fails : trace -> Z := fun _ => -19.

Definition stack0 : Z -> list Z := fun _ => replicate 32 0.

(** * Properties *)

(** ** Facts on machine integers and buffers *)

Lemma u32_small (x : Z) : 0 <= x < 2 ^ 32 -> u32 x = x.
Proof. intros H. unfold u32. now apply Z.mod_small. Qed.

Lemma u32_nonneg (x : Z) : 0 <= u32 x.
Proof. unfold u32. apply Z.mod_pos_bound. lia. Qed.

Lemma s32_small (x : Z) : - 2 ^ 31 <= x < 2 ^ 31 -> s32 x = x.
Proof. intros H. unfold s32. rewrite Z.mod_small; lia. Qed.

Lemma u8_range (x : Z) : 0 <= u8 x < 256.
Proof. unfold u8. change (2 ^ 8) with 256. apply Z.mod_pos_bound. lia. Qed.

Lemma u8_small (x : Z) : 0 <= x < 256 -> u8 x = x.
Proof. intros H. unfold u8. now apply Z.mod_small. Qed.

Lemma u8_bits (x u : Z) : u < 8 -> Z.testbit (u8 x) u = Z.testbit x u.
Proof. intros H. unfold u8. now apply Z.mod_pow2_bits_low. Qed.

Lemma u32_bits (x u : Z) : u < 32 -> Z.testbit (u32 x) u = Z.testbit x u.
Proof. intros H. unfold u32. now apply Z.mod_pow2_bits_low. Qed.

Lemma byte_high_bits (b u : Z) :
  0 <= b < 256 -> 8 <= u -> Z.testbit b u = false.
Proof.
  intros Hb Hu. rewrite <- (Z.mod_small b (2 ^ 8)) by (change (2 ^ 8) with 256; lia).
  apply Z.mod_pow2_bits_high. lia.
Qed.

Lemma byte_eq_bits (a b : Z) :
  0 <= a < 256 -> 0 <= b < 256 ->
  (forall u, 0 <= u < 8 -> Z.testbit a u = Z.testbit b u) -> a = b.
Proof.
  intros Ha Hb H. apply Z.bits_inj'. intros u Hu.
  destruct (Z.lt_ge_cases u 8) as [Hlt | Hge].
  - apply H. lia.
  - rewrite !byte_high_bits by lia. reflexivity.
Qed.

Lemma byte_at_insert (buf : list Z) (i k : nat) (v : Z) :
  byte_at (<[i := v]> buf) k =
  if decide (k = i /\ (i < length buf)%nat) then v else byte_at buf k.
Proof.
  unfold byte_at. destruct (decide (k = i /\ (i < length buf)%nat)) as [[-> Hlt] | Hn].
  - now rewrite list_lookup_insert_eq.
  - destruct (decide (i = k)) as [-> | Hne].
    + rewrite list_insert_ge by lia. reflexivity.
    + now rewrite list_lookup_insert_ne.
Qed.

Lemma byte_at_take (buf : list Z) (n k : nat) :
  (k < n)%nat -> byte_at (take n buf) k = byte_at buf k.
Proof.
  intros H. unfold byte_at. rewrite lookup_take.
  destruct (decide (k < n)%nat); [reflexivity | lia].
Qed.

Lemma byte_at_ge (buf : list Z) (k : nat) :
  (length buf <= k)%nat -> byte_at buf k = 0.
Proof.
  intros H. unfold byte_at. now rewrite (proj2 (lookup_ge_None buf k) H).
Qed.

Lemma byte_at_range (buf : list Z) (k : nat) :
  Forall (fun b => 0 <= b < 256) buf -> 0 <= byte_at buf k < 256.
Proof.
  intros H. unfold byte_at. destruct (buf !! k) as [b |] eqn:Hk; simpl; [| lia].
  exact (Forall_lookup_1 _ _ _ _ H Hk).
Qed.

Lemma byte_at_drop (l : list Z) (k i : nat) :
  byte_at (drop k l) i = byte_at l (k + i).
Proof. unfold byte_at. now rewrite lookup_drop. Qed.

Lemma shiftr3 (i : Z) : Z.shiftr i 3 = i / 8.
Proof. now rewrite Z.shiftr_div_pow2 by lia. Qed.

Lemma land7 (i : Z) : Z.land i 7 = i mod 8.
Proof. change 7 with (Z.ones 3). now rewrite Z.land_ones by lia. Qed.

(** ** The inner loops end within their fuel *)

(** The fuel given to each of the three bounded loops is enough: with more
    fuel the result is the same, so the loop was left by its own test. *)
Lemma store_9bit_loop_enough (fuel : nat) :
  forall (k : nat) buf idx val bits vb p,
    bits <= Z.of_nat fuel ->
    store_9bit_loop (fuel + k) buf idx val bits vb p
    = store_9bit_loop fuel buf idx val bits vb p.
Proof.
  induction fuel as [| fuel IH]; intros k buf idx val bits vb p Hb.
  - destruct k as [| k]; [reflexivity |]. cbn [Nat.add store_9bit_loop].
    destruct (Z.ltb_spec 0 bits); [lia | reflexivity].
  - cbn [Nat.add store_9bit_loop].
    destruct (Z.ltb_spec 0 bits); [| reflexivity].
    destruct (vb - 8 <? 8); [destruct p |]; apply IH; lia.
Qed.

Lemma store_high_loop_enough (fuel : nat) :
  forall (k : nat) buf idx val bits vb,
    bits <= Z.of_nat fuel ->
    store_high_loop (fuel + k) buf idx val bits vb
    = store_high_loop fuel buf idx val bits vb.
Proof.
  induction fuel as [| fuel IH]; intros k buf idx val bits vb Hb.
  - destruct k as [| k]; [reflexivity |]. cbn [Nat.add store_high_loop].
    destruct (Z.ltb_spec 0 bits); [lia | reflexivity].
  - cbn [Nat.add store_high_loop].
    destruct (Z.ltb_spec 0 bits); [| reflexivity].
    destruct (vb <? 8); apply IH; lia.
Qed.

Lemma patch_loop_enough (fuel : nat) :
  forall (k : nat) cmd_buf dest_start dest_len val,
    0 <= dest_len <= Z.of_nat fuel ->
    patch_loop (fuel + k) cmd_buf dest_start dest_len val
    = patch_loop fuel cmd_buf dest_start dest_len val.
Proof.
  induction fuel as [| fuel IH]; intros k cb ds dl val Hd.
  - assert (dl = 0) as -> by lia.
    destruct k as [| k]; reflexivity.
  - cbn [Nat.add patch_loop].
    destruct (negb (dl =? 0) && (ds <? 256)) eqn:Hc; [| reflexivity].
    apply IH.
    assert (Hm := Z.mod_pos_bound ds 8 ltac:(lia)).
    rewrite land7.
    destruct (Z.leb_spec (8 - ds mod 8) dl); [| lia].
    apply andb_prop in Hc. destruct Hc as [Hnz _].
    apply negb_true_iff, Z.eqb_neq in Hnz. lia.
Qed.

(** ** The bit stream written by the packer *)

Lemma divmod_lin (d g r : Z) :
  0 <= r < d -> (d * g + r) / d = g /\ (d * g + r) mod d = r.
Proof.
  intros H. split.
  - symmetry. apply (Z.div_unique_pos _ _ g r); lia.
  - symmetry. apply (Z.mod_unique_pos _ _ g r); lia.
Qed.

Lemma drop_step (B p : list Z) (g : nat) :
  p = drop g B -> drop 1 p = drop (S g) B.
Proof. intros ->. rewrite drop_drop. f_equal. lia. Qed.

Section StoreInvariant.

Variables (buf0 : list Z) (i : Z) (B : list Z).
Hypothesis HB : bytes B.

Lemma pending_weaken val g vb vb' :
  pending buf0 i B val g vb -> vb' <= vb -> pending buf0 i B val g vb'.
Proof. intros H Hle t Ht. apply H. lia. Qed.

Lemma pending_load val g vb mk b :
  pending buf0 i B val g vb -> 0 <= vb -> vb + 9 <= 32 ->
  b = byte_at B g ->
  mk = (0 <? Z.of_nat g) && (Z.of_nat g <? Z.of_nat (length B)) ->
  pending buf0 i B
          (Z.lor (Z.lor (u32 (Z.shiftl val 9)) (if mk then 256 else 0)) b)
          (S g) (vb + 9).
Proof.
  intros Hp Hvb Hvb32 Hb Hmk t Ht.
  assert (Hbr : 0 <= b < 256) by (subst b; apply byte_at_range; exact HB).
  rewrite !Z.lor_spec, u32_bits by lia.
  rewrite Z.shiftl_spec by lia.
  destruct (Z.lt_ge_cases t 9) as [Hlt | Hge].
  - rewrite (Z.testbit_neg_r val) by lia. simpl.
    unfold target.
    destruct (Z.ltb_spec (i + 9 * Z.of_nat (S g) - 1 - t) i) as [Hc | Hc]; [lia |].
    unfold frame_bit.
    replace (i + 9 * Z.of_nat (S g) - 1 - t - i) with (9 * Z.of_nat g + (8 - t)) by lia.
    destruct (divmod_lin 9 (Z.of_nat g) (8 - t)) as [-> ->]; [lia |].
    destruct (Z.eqb_spec (8 - t) 0) as [H8 | H8].
    + assert (t = 8) by lia. subst t.
      rewrite (byte_high_bits b) by lia. rewrite orb_false_r.
      rewrite Hmk. now destruct (_ && _).
    + replace (8 - (8 - t)) with t by lia.
      rewrite Nat2Z.id, <- Hb.
      assert (Z.testbit (if mk then 256 else 0) t = false) as ->.
      { destruct mk; [| apply Z.testbit_0_l].
        change 256 with (2 ^ 8). rewrite Z.pow2_bits_eqb by lia.
        apply Z.eqb_neq. lia. }
      reflexivity.
  - rewrite (byte_high_bits b) by lia.
    assert (Z.testbit (if mk then 256 else 0) t = false) as ->.
    { destruct mk; [| apply Z.testbit_0_l].
      change 256 with (2 ^ 8). rewrite Z.pow2_bits_eqb by lia.
      apply Z.eqb_neq. lia. }
    rewrite !orb_false_r. rewrite Hp by lia. f_equal. lia.
Qed.

Lemma written_store buf (idx : nat) val (g : nat) vb :
  written buf0 i B buf idx -> pending buf0 i B val g vb ->
  8 <= vb -> vb = i + 9 * Z.of_nat g - 8 * Z.of_nat idx ->
  (idx < length buf)%nat ->
  written buf0 i B (<[idx := u8 (Z.shiftr val (vb - 8))]> buf) (S idx).
Proof.
  intros Hw Hp Hvb Heq Hlen k u Hk Hu.
  rewrite byte_at_insert.
  destruct (decide (k = idx /\ (idx < length buf)%nat)) as [[-> _] | Hn].
  - rewrite u8_bits, Z.shiftr_spec by lia.
    rewrite Hp by lia. f_equal. lia.
  - apply Hw; lia.
Qed.

Lemma written_stream buf (idx : nat) j :
  written buf0 i B buf idx -> 0 <= j < 8 * Z.of_nat idx ->
  stream_bit buf j = target buf0 i B j.
Proof.
  intros Hw Hj. unfold stream_bit.
  assert (Hm := Z.mod_pos_bound j 8 ltac:(lia)).
  assert (Hd := Z.div_mod j 8 ltac:(lia)).
  rewrite (Hw (Z.to_nat (j / 8)) (7 - j mod 8)) by lia.
  f_equal. rewrite Z2Nat.id by (apply Z.div_pos; lia). lia.
Qed.

Lemma store_9bit_loop_written (fuel : nat) :
  forall buf (idx : nat) val bits vb p (g : nat),
    written buf0 i B buf idx -> pending buf0 i B val g vb ->
    bits = i + 9 * Z.of_nat (length B) - 8 * Z.of_nat idx ->
    vb = i + 9 * Z.of_nat g - 8 * Z.of_nat idx ->
    8 <= vb <= 16 -> (1 <= g)%nat -> p = drop g B ->
    length buf = 63%nat -> i + 9 * Z.of_nat (length B) <= 504 ->
    bits <= Z.of_nat fuel ->
    exists idx' : nat,
      written buf0 i B (store_9bit_loop fuel buf idx val bits vb p) idx' /\
      i + 9 * Z.of_nat (length B) <= 8 * Z.of_nat idx'.
Proof.
  induction fuel as [| fuel IH];
    intros buf idx val bits vb p g Hw Hp Hbits Hvb Hr Hg Hdrop Hlen Hcap Hfuel.
  - exists idx. simpl. split; [exact Hw | lia].
  - simpl. destruct (Z.ltb_spec 0 bits) as [Hpos | Hneg].
    2:{ exists idx. split; [exact Hw | lia]. }
    assert (Hidx : (idx < length buf)%nat) by lia.
    pose proof (written_store buf idx val g vb Hw Hp (proj1 Hr) Hvb Hidx) as Hw1.
    destruct (Z.ltb_spec (vb - 8) 8) as [Hlt | Hge].
    + destruct p as [| b p'].
      * assert (HlenB : (length B <= g)%nat).
        { apply (f_equal length) in Hdrop. rewrite length_drop in Hdrop.
          simpl in Hdrop. lia. }
        assert (Hpl : pending buf0 i B (u32 (Z.shiftl val 9)) (S g) (vb - 8 + 9)).
        { pose proof (pending_load val g (vb - 8) false 0) as Hpl.
          cbv iota in Hpl. rewrite !Z.lor_0_r in Hpl. apply Hpl; try lia.
          all: try (apply (pending_weaken _ _ vb); [exact Hp | lia]).
          all: try (symmetry; now apply byte_at_ge).
          all: try (symmetry; apply andb_false_intro2; apply Z.ltb_ge; lia). }
        apply (IH _ _ _ _ _ _ (S g)); try lia; try assumption.
        -- exact (drop_step _ _ _ Hdrop).
        -- now rewrite length_insert.
      * assert (HBg : B !! g = Some b).
        { rewrite <- (Nat.add_0_r g), <- lookup_drop, <- Hdrop. reflexivity. }
        assert (Hpl : pending buf0 i B
                        (Z.lor (Z.lor (u32 (Z.shiftl val 9)) 256) b)
                        (S g) (vb - 8 + 9)).
        { pose proof (pending_load val g (vb - 8) true b) as Hpl.
          cbv iota in Hpl. apply Hpl; try lia.
          all: try (apply (pending_weaken _ _ vb); [exact Hp | lia]).
          all: try (unfold byte_at; now rewrite HBg).
          all: try (apply lookup_lt_Some in HBg; symmetry;
                    apply andb_true_intro; split; apply Z.ltb_lt; lia). }
        apply (IH _ _ _ _ _ _ (S g)); try lia; try assumption.
        -- exact (drop_step _ _ _ Hdrop).
        -- now rewrite length_insert.
    + apply (IH _ _ _ _ _ _ g); try lia; try assumption.
      * apply (pending_weaken _ _ vb); [exact Hp | lia].
      * now rewrite length_insert.
Qed.

End StoreInvariant.

Lemma pending_init (buf0 : list Z) (i : Z) (B : list Z) :
  0 <= i ->
  pending buf0 i B
          (if i mod 8 =? 0 then 0
           else Z.shiftr (byte_at buf0 (Z.to_nat (i / 8))) (8 - i mod 8))
          0 (i mod 8).
Proof.
  intros Hi t Ht.
  assert (Hm := Z.mod_pos_bound i 8 ltac:(lia)).
  assert (Hd := Z.div_mod i 8 ltac:(lia)).
  destruct (Z.eqb_spec (i mod 8) 0) as [H0 | H0]; [lia |].
  rewrite Z.shiftr_spec by lia.
  unfold target. destruct (Z.ltb_spec (i + 9 * Z.of_nat 0 - 1 - t) i); [| lia].
  unfold stream_bit.
  replace (i + 9 * Z.of_nat 0 - 1 - t) with (8 * (i / 8) + (i mod 8 - 1 - t)) by lia.
  destruct (divmod_lin 8 (i / 8) (i mod 8 - 1 - t)) as [-> ->]; [lia |].
  f_equal. lia.
Qed.

Lemma written_init (buf0 : list Z) (i : Z) (B : list Z) :
  0 <= i -> written buf0 i B buf0 (Z.to_nat (i / 8)).
Proof.
  intros Hi k u Hk Hu.
  assert (Hd := Z.div_mod i 8 ltac:(lia)).
  assert (Hm := Z.mod_pos_bound i 8 ltac:(lia)).
  assert (0 <= i / 8) by (apply Z.div_pos; lia).
  unfold target. destruct (Z.ltb_spec (8 * Z.of_nat k + 7 - u) i); [| lia].
  unfold stream_bit.
  replace (8 * Z.of_nat k + 7 - u) with (8 * Z.of_nat k + (7 - u)) by lia.
  destruct (divmod_lin 8 (Z.of_nat k) (7 - u)) as [-> ->]; [lia |].
  rewrite Nat2Z.id. f_equal. lia.
Qed.

Lemma store_9bit_at_stream (s : panel_simple) (i : Z) (B : list Z) (ret : Z) :
  0 <= i -> i + 9 * Z.of_nat (length B) <= 504 ->
  length (tx_buf s) = 63%nat -> bytes B ->
  forall j, 0 <= j < i + 9 * Z.of_nat (length B) ->
    stream_bit (tx_buf (snd (store_9bit_at s i (9 * Z.of_nat (length B)) B ret))) j
    = target (tx_buf s) i B j.
Proof.
  intros Hi Hcap Hlen HB j Hj.
  assert (Hd := Z.div_mod i 8 ltac:(lia)).
  assert (Hm := Z.mod_pos_bound i 8 ltac:(lia)).
  assert (H8 : 0 <= i / 8) by (apply Z.div_pos; lia).
  unfold store_9bit_at. cbn [tx_buf set_spi_bits].
  rewrite shiftr3, land7.
  set (buf0 := tx_buf s) in *.
  pose proof (pending_init buf0 i B Hi) as Hp0.
  pose proof (written_init buf0 i B Hi) as Hw0.
  set (val0 := if i mod 8 =? 0 then 0
               else Z.shiftr (byte_at buf0 (Z.to_nat (i / 8))) (8 - i mod 8)) in *.
  assert (Hsplit :
    (if i mod 8 =? 0 then (9 * Z.of_nat (length B), 0)
     else (9 * Z.of_nat (length B) + i mod 8,
           Z.shiftr (byte_at buf0 (Z.to_nat (i / 8))) (8 - i mod 8)))
    = (9 * Z.of_nat (length B) + i mod 8, val0)).
  { subst val0. destruct (Z.eqb_spec (i mod 8) 0) as [-> |]; [| reflexivity].
    now rewrite Z.add_0_r. }
  rewrite Hsplit. clear Hsplit.
  assert (Hload : forall mk b, b = byte_at B 0 -> mk = false ->
            pending buf0 i B
              (Z.lor (Z.lor (u32 (Z.shiftl val0 9)) (if mk then 256 else 0)) b)
              1 (i mod 8 + 9)).
  { intros mk b Hb Hmk. apply pending_load; try lia; assumption. }
  destruct B as [| b B'] eqn:HBeq.
  - cbn [snd tx_buf set_tx_buf].
    specialize (Hload false 0 eq_refl eq_refl). cbv iota in Hload.
    rewrite !Z.lor_0_r in Hload.
    destruct (store_9bit_loop_written buf0 i [] HB
                (Z.to_nat (9 * Z.of_nat (length (@nil Z)) + i mod 8))
                buf0 (Z.to_nat (i / 8)) (u32 (Z.shiftl val0 9))
                (9 * Z.of_nat (length (@nil Z)) + i mod 8) (i mod 8 + 9) [] 1%nat)
      as (idx' & Hw' & Hidx'); try assumption; try lia.
    + reflexivity.
    + apply (written_stream _ _ _ _ idx' j Hw'). simpl length in *. lia.
  - cbn [snd tx_buf set_tx_buf].
    specialize (Hload false b eq_refl eq_refl). cbv iota in Hload.
    rewrite Z.lor_0_r in Hload.
    destruct (store_9bit_loop_written buf0 i (b :: B') HB
                (Z.to_nat (9 * Z.of_nat (length (b :: B')) + i mod 8))
                buf0 (Z.to_nat (i / 8)) (Z.lor (u32 (Z.shiftl val0 9)) b)
                (9 * Z.of_nat (length (b :: B')) + i mod 8) (i mod 8 + 9) B' 1%nat)
      as (idx' & Hw' & Hidx'); try assumption; try lia.
    + reflexivity.
    + apply (written_stream _ _ _ _ idx' j Hw'). simpl length in *. lia.
Qed.

Lemma store_9bit_loop_bytes (fuel : nat) :
  forall buf idx val bits vb p,
    bytes buf -> bytes (store_9bit_loop fuel buf idx val bits vb p).
Proof.
  induction fuel as [| fuel IH]; intros buf idx val bits vb p Hb; simpl.
  - exact Hb.
  - assert (Hb1 : bytes (<[idx := u8 (Z.shiftr val (vb - 8))]> buf)).
    { apply Forall_insert; [exact Hb | apply u8_range]. }
    destruct (0 <? bits); [| exact Hb].
    destruct (vb - 8 <? 8); [destruct p |]; now apply IH.
Qed.

Lemma store_9bit_loop_length (fuel : nat) :
  forall buf idx val bits vb p,
    length (store_9bit_loop fuel buf idx val bits vb p) = length buf.
Proof.
  induction fuel as [| fuel IH]; intros buf idx val bits vb p; simpl.
  - reflexivity.
  - destruct (0 <? bits); [| reflexivity].
    destruct (vb - 8 <? 8); [destruct p |]; rewrite IH; apply length_insert.
Qed.

Lemma store_9bit_at_bytes (s : panel_simple) (i bits : Z) (p : list Z) (ret : Z) :
  bytes (tx_buf s) -> bytes (tx_buf (snd (store_9bit_at s i bits p ret))).
Proof.
  intros Hb. unfold store_9bit_at.
  destruct (if Z.land i 7 =? 0 then _ else _) as [bits' val].
  destruct (match p with [] => _ | _ :: _ => _ end) as [val' p'].
  cbn. now apply store_9bit_loop_bytes.
Qed.

Lemma store_9bit_at_length (s : panel_simple) (i bits : Z) (p : list Z) (ret : Z) :
  length (tx_buf (snd (store_9bit_at s i bits p ret))) = length (tx_buf s).
Proof.
  unfold store_9bit_at.
  destruct (if Z.land i 7 =? 0 then _ else _) as [bits' val].
  destruct (match p with [] => _ | _ :: _ => _ end) as [val' p'].
  cbn. apply store_9bit_loop_length.
Qed.

Lemma store_9bit_at_fields (s : panel_simple) (i bits : Z) (p : list Z) (ret : Z) :
  let r := store_9bit_at s i bits p ret in
  fst r = ret /\ spi_bits (snd r) = u32 (i + bits) /\ log (snd r) = log s /\
  rx_buf (snd r) = rx_buf s /\ spi (snd r) = spi s.
Proof.
  unfold store_9bit_at.
  destruct (if Z.land i 7 =? 0 then _ else _) as [bits' val].
  destruct (match p with [] => _ | _ :: _ => _ end) as [val' p'].
  cbn. repeat split; reflexivity.
Qed.

(** One byte taken out by [extract_data] is the eight stream bits from
    [start_bit] on. *)
Lemma extract_data_one (buf : list Z) (s : Z) :
  0 <= s -> bytes buf ->
  exists v, extract_data 1 buf s = [v] /\ 0 <= v < 256 /\
            forall u, 0 <= u < 8 -> Z.testbit v u = stream_bit buf (s + 7 - u).
Proof.
  intros Hs Hb.
  assert (Hd := Z.div_mod s 8 ltac:(lia)).
  assert (Hm := Z.mod_pos_bound s 8 ltac:(lia)).
  assert (H8 : 0 <= s / 8) by (apply Z.div_pos; lia).
  unfold extract_data. rewrite shiftr3, land7.
  destruct (Z.eqb_spec (s mod 8) 0) as [H0 | H0].
  - rewrite H0. cbn [extract_data_loop Z.ltb Z.compare].
    eexists. split; [reflexivity |]. split; [apply u8_range |].
    intros u Hu. rewrite u8_bits, Z.shiftr_spec, u32_bits, Z.lor_spec by lia.
    rewrite Z.shiftl_0_l, Z.testbit_0_l. simpl orb.
    unfold stream_bit.
    replace (s + 7 - u) with (8 * (s / 8) + (7 - u)) by lia.
    destruct (divmod_lin 8 (s / 8) (7 - u)) as [-> ->]; [lia |].
    f_equal; lia.
  - cbn [extract_data_loop].
    destruct (Z.ltb_spec (8 - s mod 8) 8) as [_ | ?]; [| lia].
    eexists. split; [reflexivity |]. split; [apply u8_range |].
    intros u Hu. rewrite u8_bits, Z.shiftr_spec, u32_bits, Z.lor_spec by lia.
    rewrite Z.shiftl_spec by lia.
    unfold stream_bit.
    destruct (Z.lt_ge_cases u (s mod 8)) as [Hlt | Hge].
    + rewrite Z.testbit_neg_r by lia. simpl orb.
      replace (s + 7 - u) with (8 * (s / 8 + 1) + (s mod 8 - 1 - u)) by lia.
      destruct (divmod_lin 8 (s / 8 + 1) (s mod 8 - 1 - u)) as [-> ->]; [lia |].
      replace (Z.to_nat (s / 8 + 1)) with (S (Z.to_nat (s / 8))) by lia.
      f_equal; lia.
    + rewrite (byte_high_bits (byte_at buf (S (Z.to_nat (s / 8)))))
        by (try apply byte_at_range; try assumption; lia).
      rewrite orb_false_r.
      replace (s + 7 - u) with (8 * (s / 8) + (s mod 8 + 7 - u)) by lia.
      destruct (divmod_lin 8 (s / 8) (s mod 8 + 7 - u)) as [-> ->]; [lia |].
      f_equal; lia.
Qed.

Lemma frame_bit_marker (B : list Z) (k : Z) :
  0 <= k < Z.of_nat (length B) ->
  frame_bit B (9 * k) = negb (k =? 0).
Proof.
  intros Hk. unfold frame_bit.
  replace (9 * k) with (9 * k + 0) by lia.
  destruct (divmod_lin 9 k 0) as [-> ->]; [lia |]. simpl.
  destruct (Z.ltb_spec k (Z.of_nat (length B))); [| lia].
  rewrite andb_true_r.
  destruct (Z.eqb_spec k 0); destruct (Z.ltb_spec 0 k); simpl; trivial; lia.
Qed.

Lemma frame_bit_data (B : list Z) (k u : Z) :
  0 <= k -> 0 <= u < 8 ->
  frame_bit B (9 * k + 8 - u) = Z.testbit (byte_at B (Z.to_nat k)) u.
Proof.
  intros Hk Hu. unfold frame_bit.
  replace (9 * k + 8 - u) with (9 * k + (8 - u)) by lia.
  destruct (divmod_lin 9 k (8 - u)) as [-> ->]; [lia |].
  destruct (Z.eqb_spec (8 - u) 0); [lia |]. f_equal. lia.
Qed.

(** What one call of the packer leaves in [tx_buf], read back group by
    group. *)
Lemma store_9bit_at_groups (s : panel_simple) (i : Z) (B : list Z) (ret : Z) :
  0 <= i -> i + 9 * Z.of_nat (length B) <= 504 ->
  length (tx_buf s) = 63%nat -> bytes (tx_buf s) -> bytes B ->
  let buf' := tx_buf (snd (store_9bit_at s i (9 * Z.of_nat (length B)) B ret)) in
  (forall j, 0 <= j < i -> stream_bit buf' j = stream_bit (tx_buf s) j) /\
  (forall k : nat, (k < length B)%nat ->
     stream_bit buf' (i + 9 * Z.of_nat k) = negb (Z.of_nat k =? 0) /\
     extract_data 1 buf' (i + 9 * Z.of_nat k + 1) = [byte_at B k]).
Proof.
  intros Hi Hcap Hlen Hbuf HB buf'.
  pose proof (store_9bit_at_stream s i B ret Hi Hcap Hlen HB) as Hst.
  fold buf' in Hst. split.
  - intros j Hj. rewrite Hst by lia. unfold target.
    destruct (Z.ltb_spec j i); [reflexivity | lia].
  - intros k Hk. split.
    + rewrite Hst by lia. unfold target.
      destruct (Z.ltb_spec (i + 9 * Z.of_nat k) i); [lia |].
      replace (i + 9 * Z.of_nat k - i) with (9 * Z.of_nat k) by lia.
      apply frame_bit_marker. lia.
    + destruct (extract_data_one buf' (i + 9 * Z.of_nat k + 1)) as (v & -> & Hv & Hbits).
      * lia.
      * apply store_9bit_at_bytes. exact Hbuf.
      * f_equal. apply byte_eq_bits; [exact Hv | apply byte_at_range; exact HB |].
        intros u Hu. rewrite Hbits by lia. rewrite Hst by lia. unfold target.
        destruct (Z.ltb_spec (i + 9 * Z.of_nat k + 1 + 7 - u) i); [lia |].
        replace (i + 9 * Z.of_nat k + 1 + 7 - u - i) with (9 * Z.of_nat k + 8 - u) by lia.
        rewrite frame_bit_data by lia. now rewrite Nat2Z.id.
Qed.


Lemma stream_bit_take (buf : list Z) (n : nat) (j : Z) :
  0 <= j < 8 * Z.of_nat n -> stream_bit (take n buf) j = stream_bit buf j.
Proof.
  intros Hj. unfold stream_bit. rewrite byte_at_take; [reflexivity |].
  assert (0 <= j / 8 < Z.of_nat n); [| lia].
  split; [apply Z.div_pos; lia | apply Z.div_lt_upper_bound; lia].
Qed.

(** *** [spi_send] *)

Lemma spi_send_idle (E : bus) (s : panel_simple) (rx : bool) :
  spi s = false \/ spi_bits s = 0 -> spi_send E s rx = (0, s).
Proof.
  intros [H | H]; unfold spi_send; rewrite H; [reflexivity |].
  now rewrite orb_true_r.
Qed.

Lemma spi_send_live (E : bus) (s : panel_simple) :
  spi s = true -> spi_bits s <> 0 ->
  let ret := fst (spi_sync E (log s) (xfer_len s) (xfer_tx s)) in
  spi_send E s false =
  (ret,
   let s1 := emit (EvSpiSync (xfer_len s) (xfer_tx s) false) (set_spi_bits 0 s) in
   if ret =? 0 then s1 else emit (EvDevErr "spi") s1).
Proof.
  intros Hspi Hbits ret. unfold spi_send. rewrite Hspi.
  destruct (Z.eqb_spec (spi_bits s) 0) as [? | _]; [contradiction |].
  cbn [negb orb]. subst ret.
  destruct (spi_sync E (log s) (xfer_len s) (xfer_tx s)) as [ret rxd].
  reflexivity.
Qed.

Lemma spi_send_fields (E : bus) (s : panel_simple) :
  let s' := snd (spi_send E s false) in
  tx_buf s' = tx_buf s /\ spi s' = spi s /\ rx_buf s' = rx_buf s /\
  (spi_bits s' = 0 \/ spi_bits s' = spi_bits s) /\
  (spi s = true -> spi_bits s' = 0) /\
  count is_too_many (log s') = count is_too_many (log s).
Proof.
  destruct (spi s) eqn:Hspi.
  - destruct (Z.eq_dec (spi_bits s) 0) as [H0 | H0].
    + rewrite spi_send_idle by (now right). cbn. repeat split; auto.
    + rewrite spi_send_live by assumption. cbn [snd].
      destruct (_ =? 0); cbn; repeat split; auto.
  - rewrite spi_send_idle by (now left). cbn.
    repeat split; auto. discriminate.
Qed.

(** *** The three ways through [store_9bit] *)

Lemma store_9bit_fits (E : bus) (s : panel_simple) (p : list Z) :
  0 <= spi_bits s -> spi_bits s + 9 * Z.of_nat (length p) <= 504 ->
  store_9bit E s p = store_9bit_at s (spi_bits s) (9 * Z.of_nat (length p)) p 0.
Proof.
  intros H0 Hcap. unfold store_9bit.
  rewrite (u32_small (Z.of_nat (length p))) by lia.
  rewrite (s32_small (Z.of_nat (length p) * 9)) by lia.
  rewrite (s32_small (spi_bits s)) by lia.
  rewrite u32_small by lia.
  change (TX_BUF_SIZE * 8) with 504.
  destruct (Z.ltb_spec 504 (spi_bits s + Z.of_nat (length p) * 9)); [lia |].
  f_equal. lia.
Qed.

Lemma store_9bit_flushes (E : bus) (s : panel_simple) (p : list Z) :
  0 <= spi_bits s <= 504 -> 9 * Z.of_nat (length p) <= 504 ->
  504 < spi_bits s + 9 * Z.of_nat (length p) ->
  store_9bit E s p =
  store_9bit_at (snd (spi_send E s false)) 0 (9 * Z.of_nat (length p)) p
                (fst (spi_send E s false)).
Proof.
  intros H0 Hn Hcap. unfold store_9bit.
  rewrite (u32_small (Z.of_nat (length p))) by lia.
  rewrite (s32_small (Z.of_nat (length p) * 9)) by lia.
  rewrite (s32_small (spi_bits s)) by lia.
  rewrite !u32_small by lia.
  change (TX_BUF_SIZE * 8) with 504.
  destruct (Z.ltb_spec 504 (spi_bits s + Z.of_nat (length p) * 9)); [| lia].
  destruct (spi_send E s false) as [ret s1]. cbn [fst snd].
  destruct (Z.ltb_spec 504 (Z.of_nat (length p) * 9)); [lia |].
  f_equal. lia.
Qed.

Lemma store_9bit_too_many (E : bus) (s : panel_simple) (p : list Z) :
  0 <= spi_bits s <= 504 -> 504 < 9 * Z.of_nat (length p) ->
  9 * Z.of_nat (length p) < 2 ^ 31 - 504 ->
  store_9bit E s p =
  (- EINVAL, emit (EvDevErr "too many bytes") (snd (spi_send E s false))).
Proof.
  intros H0 Hn Hmax. unfold store_9bit.
  rewrite (u32_small (Z.of_nat (length p))) by lia.
  rewrite (s32_small (Z.of_nat (length p) * 9)) by lia.
  rewrite (s32_small (spi_bits s)) by lia.
  rewrite !u32_small by lia.
  change (TX_BUF_SIZE * 8) with 504.
  destruct (Z.ltb_spec 504 (spi_bits s + Z.of_nat (length p) * 9)); [| lia].
  destruct (spi_send E s false) as [ret s1]. cbn [fst snd].
  destruct (Z.ltb_spec 504 (Z.of_nat (length p) * 9)); [reflexivity | lia].
Qed.

(** ** The packer: round trip, markers, capacity *)




(** A single [extract_data] call over the packed stream keeps the marker
    bits: the round trip needs one call per group, each after a marker. *)
Example extract_data_keeps_markers :
  extract_data 3 (tx_buf (snd (store_9bit quiet_bus panel0 [0xAB; 0xCD; 0xEF]))) 0
  = [0x55; 0xF3; 0x7D].
Proof. vm_compute. reflexivity. Qed.

(** C2, as the code has it: every call of the packer that fits the buffer
    frames its own bytes with a clear marker on its first byte and a set
    marker on all its other bytes, wherever in the buffer the call starts:
    behind the bits already there when the total fits (then without a flush,
    and keeping these bits), at bit 0 otherwise. *)
Theorem store_9bit_markers (E : bus) (s : panel_simple) (B : list Z) :
  0 <= spi_bits s <= 504 -> 9 * Z.of_nat (length B) <= 504 ->
  length (tx_buf s) = 63%nat -> bytes (tx_buf s) -> bytes B ->
  let s1 := snd (store_9bit E s B) in
  let fits := spi_bits s + 9 * Z.of_nat (length B) <=? 504 in
  let off := if fits then spi_bits s else 0 in
  spi_bits s1 = off + 9 * Z.of_nat (length B) /\
  (fits = true ->
   log s1 = log s /\
   forall j, 0 <= j < spi_bits s ->
             stream_bit (tx_buf s1) j = stream_bit (tx_buf s) j) /\
  (forall k : nat, (k < length B)%nat ->
     stream_bit (tx_buf s1) (off + 9 * Z.of_nat k) = negb (Z.of_nat k =? 0) /\
     extract_data 1 (tx_buf s1) (off + 9 * Z.of_nat k + 1) = [byte_at B k]).
Proof.
  intros H0 HnB Hlen Hbuf HB s1 fits off. subst s1 fits off.
  destruct (Z.leb_spec (spi_bits s + 9 * Z.of_nat (length B)) 504)
    as [Hfit | Hover].
  - rewrite store_9bit_fits by lia.
    destruct (store_9bit_at_fields s (spi_bits s) (9 * Z.of_nat (length B)) B 0)
      as (_ & Hsb & Hlog & _).
    destruct (store_9bit_at_groups s (spi_bits s) B 0 ltac:(lia) Hfit Hlen
                                   Hbuf HB) as (Hold & Hnew).
    rewrite u32_small in Hsb by lia.
    split; [exact Hsb |]. split; [intros _; now split |]. exact Hnew.
  - rewrite store_9bit_flushes by lia.
    destruct (spi_send_fields E s) as (Htx & _).
    destruct (store_9bit_at_fields (snd (spi_send E s false)) 0
                                   (9 * Z.of_nat (length B)) B
                                   (fst (spi_send E s false)))
      as (_ & Hsb & _).
    rewrite u32_small in Hsb by lia.
    split; [exact Hsb |]. split; [discriminate |].
    apply store_9bit_at_groups; rewrite ?Htx; try assumption; lia.
Qed.

Lemma store_9bit_markers_witness :
  stream_bit
    (tx_buf (snd (store_9bit quiet_bus
                             (snd (store_9bit quiet_bus panel0 [0xAA]))
                             [0xBB; 0xCC])))
    (9 + 9 * Z.of_nat 0)
  = negb (Z.of_nat 0 =? 0) /\
  stream_bit
    (tx_buf (snd (store_9bit quiet_bus
                             (snd (store_9bit quiet_bus panel0 [0xAA]))
                             [0xBB; 0xCC])))
    (9 + 9 * Z.of_nat 1)
  = negb (Z.of_nat 1 =? 0).
Proof.
  assert (H : 0 <= spi_bits (snd (store_9bit quiet_bus panel0 [0xAA])) <= 504 /\
              9 * Z.of_nat (length [0xBB; 0xCC]) <= 504 /\
              length (tx_buf (snd (store_9bit quiet_bus panel0 [0xAA])))
              = 63%nat /\
              bytes (tx_buf (snd (store_9bit quiet_bus panel0 [0xAA]))) /\
              bytes [0xBB; 0xCC]).
  { vm_compute. repeat split; try discriminate; try reflexivity;
      repeat constructor; discriminate. }
  destruct H as (H0 & Hcap & Hlen & Hbuf & HB).
  pose proof (store_9bit_markers
                quiet_bus (snd (store_9bit quiet_bus panel0 [0xAA]))
                [0xBB; 0xCC] H0 Hcap Hlen Hbuf HB)
    as (_ & _ & Hk).
  split.
  - exact (proj1 (Hk 0%nat ltac:(simpl; lia))).
  - exact (proj1 (Hk 1%nat ltac:(simpl; lia))).
Defined.

(** C2 as stated fails: two calls of the packer with no flush in between
    (the trace stays empty); the first byte of the second call, which is the
    second byte packed since the accumulator was reset, has a clear
    marker. *)
Lemma second_call_marker_clear :
  let s1 := snd (store_9bit quiet_bus panel0 [0xAA]) in
  let s2 := snd (store_9bit quiet_bus s1 [0xBB]) in
  log s2 = [] /\ spi_bits s2 = 18 /\
  extract_data 1 (tx_buf s2) 10 = [0xBB] /\
  stream_bit (tx_buf s2) 9 = false.
Proof. vm_compute. repeat split; reflexivity. Qed.

Lemma count_cons (f : event -> bool) (e : event) (t : trace) :
  count f (e :: t) = ((if f e then 1 else 0) + count f t)%nat.
Proof. reflexivity. Qed.

Lemma count_app (f : event -> bool) (t1 t2 : trace) :
  count f (t1 ++ t2) = (count f t1 + count f t2)%nat.
Proof.
  induction t1 as [| e t1 IH]; [reflexivity |].
  cbn [app count]. rewrite IH. lia.
Qed.

(** C3: the capacity rule of the packer.  With at most 504 bits pending and a
    source short enough for [int] arithmetic:
    - a call that needs more than 504 bits by itself is refused with
      [-EINVAL] and the message of the capacity error, after the flush the
      code tries first;
    - a call that fits by itself but not behind the pending bits flushes
      first and stores at offset 0, so that the accumulator then holds its own
      bits only; its result is the status of that flush;
    - a call that fits behind the pending bits, a total of exactly 504
      included, stores there, returns 0 and leaves the trace alone;
    - the capacity error is reported exactly when the call alone exceeds 504
      bits;
    - the accumulator stays within 504 bits. *)
Theorem store_9bit_capacity (E : bus) (s : panel_simple) (p : list Z) :
  0 <= spi_bits s <= 504 ->
  9 * Z.of_nat (length p) < 2 ^ 31 - 504 ->
  let n9 := 9 * Z.of_nat (length p) in
  let r := store_9bit E s p in
  let f := spi_send E s false in
  (504 < n9 ->
   r = (- EINVAL, emit (EvDevErr "too many bytes") (snd f))) /\
  (n9 <= 504 -> 504 < spi_bits s + n9 ->
   r = store_9bit_at (snd f) 0 n9 p (fst f) /\
   fst r = fst f /\ spi_bits (snd r) = n9 /\
   (spi s = true ->
    log (snd r) =
    (if fst f =? 0 then [] else [EvDevErr "spi"])
      ++ EvSpiSync (xfer_len s) (xfer_tx s) false :: log s)) /\
  (spi_bits s + n9 <= 504 ->
   r = store_9bit_at s (spi_bits s) n9 p 0 /\
   fst r = 0 /\ log (snd r) = log s /\ spi_bits (snd r) = spi_bits s + n9) /\
  count is_too_many (log (snd r))
  = (count is_too_many (log s) + (if (504 <? n9)%Z then 1 else 0))%nat /\
  0 <= spi_bits (snd r) <= 504.
Proof.
  intros Hb Hmax n9 r f.
  destruct (spi_send_fields E s) as (Htx & Hspi & Hrx & Hsb & Hsb1 & Hcnt).
  fold f in Htx, Hspi, Hrx, Hsb, Hsb1, Hcnt.
  assert (Hn : 0 <= n9) by (subst n9; lia).
  destruct (Z.ltb_spec 504 n9) as [Hbig | Hsmall].
  - assert (Hr : r = (- EINVAL, emit (EvDevErr "too many bytes") (snd f))).
    { subst r f. now apply store_9bit_too_many. }
    split; [intros _; exact Hr |].
    split; [intros; lia |]. split; [intros; lia |].
    rewrite Hr. cbn [fst snd emit log spi_bits].
    rewrite count_cons, Hcnt. cbn. split; lia.
  - split; [intros; lia |].
    destruct (Z.le_gt_cases (spi_bits s + n9) 504) as [Hfit | Hover].
    + assert (Hr : r = store_9bit_at s (spi_bits s) n9 p 0).
      { subst r n9. apply store_9bit_fits; lia. }
      destruct (store_9bit_at_fields s (spi_bits s) n9 p 0)
        as (Hret & Hsb' & Hlog & _).
      rewrite <- Hr in Hret, Hsb', Hlog. rewrite u32_small in Hsb' by lia.
      split; [intros; lia |]. split; [intros _; now repeat split |].
      rewrite Hlog, Hsb'. split; lia.
    + assert (Hr : r = store_9bit_at (snd f) 0 n9 p (fst f)).
      { subst r f n9. apply store_9bit_flushes; lia. }
      destruct (store_9bit_at_fields (snd f) 0 n9 p (fst f))
        as (Hret & Hsb' & Hlog & _).
      rewrite <- Hr in Hret, Hsb', Hlog. rewrite u32_small in Hsb' by lia.
      split; [| split; [intros; lia |]].
      * intros _ _. repeat split; try assumption; try lia.
        intros Hs. rewrite Hlog. subst f.
        rewrite spi_send_live by (try assumption; lia).
        cbn [fst snd]. destruct (_ =? 0); reflexivity.
      * rewrite Hlog, Hcnt, Hsb'. split; lia.
Qed.

Lemma store_9bit_capacity_witness :
  (store_9bit quiet_bus panel0 (replicate 57 0x33)
   = (- EINVAL,
      emit (EvDevErr "too many bytes")
           (snd (spi_send quiet_bus panel0 false)))) /\
  (spi_bits (snd (store_9bit
                    quiet_bus
                    (snd (store_9bit quiet_bus panel0 (replicate 51 0x11)))
                    (replicate 6 0x22)))
   = 9 * Z.of_nat (length (replicate 6 0x22))) /\
  (fst (store_9bit
          quiet_bus
          (snd (store_9bit quiet_bus panel0 (replicate 50 0x11)))
          (replicate 6 0x22)) = 0 /\
   log (snd (store_9bit
               quiet_bus
               (snd (store_9bit quiet_bus panel0 (replicate 50 0x11)))
               (replicate 6 0x22)))
   = log (snd (store_9bit quiet_bus panel0 (replicate 50 0x11))) /\
   spi_bits (snd (store_9bit
                    quiet_bus
                    (snd (store_9bit quiet_bus panel0 (replicate 50 0x11)))
                    (replicate 6 0x22)))
   = spi_bits (snd (store_9bit quiet_bus panel0 (replicate 50 0x11)))
     + 9 * Z.of_nat (length (replicate 6 0x22))).
Proof.
  split; [| split].
  - refine (proj1 (store_9bit_capacity quiet_bus panel0 (replicate 57 0x33)
                                       _ _) _).
    + vm_compute. split; discriminate.
    + vm_compute. reflexivity.
    + vm_compute. reflexivity.
  - destruct (store_9bit_capacity
                quiet_bus
                (snd (store_9bit quiet_bus panel0 (replicate 51 0x11)))
                (replicate 6 0x22))
      as (_ & Hflush & _).
    + vm_compute. split; discriminate.
    + vm_compute. reflexivity.
    + destruct Hflush as (_ & _ & Hbits & _).
      * vm_compute. discriminate.
      * vm_compute. reflexivity.
      * exact Hbits.
  - destruct (store_9bit_capacity
                quiet_bus
                (snd (store_9bit quiet_bus panel0 (replicate 50 0x11)))
                (replicate 6 0x22))
      as (_ & _ & Hfit & _).
    + vm_compute. split; discriminate.
    + vm_compute. reflexivity.
    + destruct Hfit as (_ & Hret & Hlog & Hbits).
      * vm_compute. discriminate.
      * split; [exact Hret |]. split; [exact Hlog | exact Hbits].
Defined.

(** ** The interpreter: decoding *)

Section Decode.

Variable E : bus.
Variable C : opcodes.

Lemma classify_lane (b : Z) :
  classify C b = KLaneGate <-> is_lane_gate C b = true.
Proof.
  unfold classify. destruct (is_lane_gate C b); [tauto |].
  split; [| discriminate].
  cbv zeta.
  repeat match goal with
         | |- context [if ?c then _ else _] => destruct c
         end; discriminate.
Qed.

Lemma classify_not_lane (b : Z) :
  classify C b <> KLaneGate -> is_lane_gate C b = false.
Proof.
  intros H. destruct (is_lane_gate C b) eqn:Hl; [| reflexivity].
  exfalso. apply H. now apply classify_lane.
Qed.

Ltac classify_inv H :=
  unfold classify in H; cbv zeta in H;
  repeat match type of H with
         | context [if ?c then _ else _] =>
             let e := fresh "Ht" in destruct c eqn:e
         end;
  try discriminate H.

Lemma dispatch_write (type b : Z) (r : regs) (s : panel_simple) :
  classify C b = KWrite ->
  dispatch E C type b r s =
  let len := Z.land b 127 in
  if r_length r <? len then
    Break r (emit (EvDevErr "Unexpected end of data") s)
  else if r_skip r then Fall r len 0 s
  else
    let payload := bytes_at (r_cmd r) (Z.to_nat len) in
    let '(ret, s) :=
      if type =? TYPE_I2C then simple_i2c_write E s payload
      else if type =? TYPE_SPI then
        if negb (spi_9bit s =? 0) then store_9bit E s payload
        else if len <? TX_BUF_SIZE then
          spi_send E (set_spi_bits (u32 (len * 8))
                        (set_tx_buf (memcpy (tx_buf s) payload) s)) false
        else (- EINVAL, s)
      else if negb (Z.land b 128 =? 0) then
        (mipi_dsi_generic_write E (log s) payload,
         emit (EvGenericWrite payload) s)
      else
        (mipi_dsi_dcs_write_buffer E (log s) payload,
         emit (EvDcsWriteBuffer payload) s) in
    Fall r len ret s.
Proof.
  intros H. classify_inv H.
  unfold dispatch, do_write. rewrite Ht0, Ht1, Ht2. reflexivity.
Qed.

Lemma dispatch_mrps (type b : Z) (r : regs) (s : panel_simple) :
  classify C b = KMrps -> dispatch E C type b r s = do_mrps E type r s.
Proof.
  intros H. classify_inv H. unfold dispatch. now rewrite Ht0, Ht1.
Qed.

Lemma dispatch_read (type b : Z) (r : regs) (s : panel_simple) :
  classify C b = KRead ->
  dispatch E C type b r s
  = do_read E C type (Z.land b 128) (Z.land b 127) r s.
Proof.
  intros H. classify_inv H. unfold dispatch. now rewrite Ht0, Ht1, Ht2.
Qed.

Lemma dispatch_delay (type b : Z) (r : regs) (s : panel_simple) :
  classify C b = KDelay -> dispatch E C type b r s = do_delay E type r s.
Proof.
  intros H. classify_inv H. unfold dispatch. now rewrite Ht0, Ht1, Ht2, Ht3.
Qed.

Lemma dispatch_patch (type b : Z) (r : regs) (s : panel_simple) :
  classify C b = KPatch ->
  dispatch E C type b r s = do_patch C (Z.land b 127) r s.
Proof.
  intros H. classify_inv H. unfold dispatch.
  now rewrite Ht0, Ht1, Ht2, Ht3, Ht4.
Qed.

Lemma dispatch_unknown (type b : Z) (r : regs) (s : panel_simple) :
  classify C b = KUnknown ->
  dispatch E C type b r s
  = Break (poison r) (emit (EvDevErr "Unknown DCS command") s).
Proof.
  intros H. classify_inv H. unfold dispatch.
  now rewrite Ht0, Ht1, Ht2, Ht3, Ht4.
Qed.

(** The first steps of a pass, on explicit locals. *)
Lemma body_last_byte (type b : Z) (rest cb : list Z) (sk : bool) (m : Z)
      (s : panel_simple) :
  body E C type {| r_cmd := b :: rest; r_length := 1; r_cmd_buf := cb;
                   r_skip := sk; r_match := m |} s
  = Break {| r_cmd := rest; r_length := 0; r_cmd_buf := cb;
             r_skip := sk; r_match := m |} s.
Proof. reflexivity. Qed.

Lemma body_lane_gate (type b L : Z) (rest cb : list Z) (sk : bool) (m : Z)
      (s : panel_simple) :
  2 <= L < 2 ^ 32 -> is_lane_gate C b = true ->
  body E C type {| r_cmd := b :: rest; r_length := L; r_cmd_buf := cb;
                   r_skip := sk; r_match := m |} s
  = Continue {| r_cmd := rest; r_length := L - 1; r_cmd_buf := cb;
                r_skip := if 1 + b - S_IF_1_LANE C =? lanes s then sk else true;
                r_match := m |} s.
Proof.
  intros HL Hg. unfold body, advance. cbn [r_cmd r_length r_cmd_buf r_skip r_match].
  change (byte_at (b :: rest) 0) with b.
  rewrite u32_small by lia.
  destruct (Z.eqb_spec (L - 1) 0) as [? | _]; [lia |].
  rewrite Hg. destruct (_ =? lanes s); reflexivity.
Qed.

Lemma body_decode (type b L : Z) (rest cb : list Z) (sk : bool) (m : Z)
      (s : panel_simple) :
  2 <= L < 2 ^ 32 -> is_lane_gate C b = false ->
  body E C type {| r_cmd := b :: rest; r_length := L; r_cmd_buf := cb;
                   r_skip := sk; r_match := m |} s
  = match dispatch E C type b
                   {| r_cmd := rest; r_length := L - 1; r_cmd_buf := cb;
                      r_skip := sk; r_match := m |} s with
    | Fall r len ret s => finish r len ret s
    | f => f
    end.
Proof.
  intros HL Hg. unfold body, advance. cbn [r_cmd r_length r_cmd_buf r_skip r_match].
  change (byte_at (b :: rest) 0) with b.
  rewrite u32_small by lia.
  destruct (Z.eqb_spec (L - 1) 0) as [? | _]; [lia |].
  rewrite Hg. reflexivity.
Qed.

Lemma loop_step (fuel : nat) (type : Z) (r : regs) (s : panel_simple) :
  loop E C (S fuel) type r s =
  match body E C type r s with
  | Continue r s => loop E C fuel type r s
  | Break r s => Some (Broke r s)
  | Return ret s => Some (Returned ret s)
  | Fall r _ _ s => Some (Broke r s)
  end.
Proof. reflexivity. Qed.

Lemma send_cmd_list_unfold (s : panel_simple) (cmd : list Z) (L : Z)
      (type : Z) (cb : list Z) :
  1 <= L ->
  send_cmd_list E C s {| cmds_ptr := Some cmd; cmds_length := L |} type cb
  = match loop E C (Z.to_nat L) type (entry cmd L cb) (set_mode_lpm true (set_spi_bits 0 s)) with
    | Some x => Some (epilogue E type x)
    | None => None
    end.
Proof.
  intros HL. unfold send_cmd_list, send_cmd_list_fuel.
  cbn [cmds_ptr cmds_length].
  destruct (Z.eqb_spec L 0); [lia | reflexivity].
Qed.

End Decode.

(** ** The interpreter always returns *)

Section Total.

Variable E : bus.
Variable C : opcodes.

Lemma advance_length (n : Z) (r : regs) :
  0 <= n <= r_length r -> r_length r < 2 ^ 32 ->
  r_length (advance n r) = r_length r - n.
Proof. intros Hn Hr. unfold advance. cbn. apply u32_small. lia. Qed.

Lemma advance_bytes (n : Z) (r : regs) :
  bytes (r_cmd r) -> bytes (r_cmd (advance n r)).
Proof. intros H. unfold advance. cbn. now apply Forall_drop. Qed.

(** A pass on any registers: the last byte of a stream is fetched and
    dropped; before the last byte, a byte that is not a lane gate is
    dispatched. *)
Lemma body_last (type : Z) (r : regs) (s : panel_simple) :
  r_length r = 1 -> body E C type r s = Break (advance 1 r) s.
Proof.
  intros HL. unfold body. cbv zeta.
  rewrite advance_length by lia. rewrite HL. reflexivity.
Qed.

Lemma body_dispatch (type : Z) (r : regs) (s : panel_simple) :
  2 <= r_length r < 2 ^ 32 ->
  is_lane_gate C (byte_at (r_cmd r) 0) = false ->
  body E C type r s
  = match dispatch E C type (byte_at (r_cmd r) 0) (advance 1 r) s with
    | Fall r' len ret s' => finish r' len ret s'
    | f => f
    end.
Proof.
  intros HL Hg. unfold body. cbv zeta.
  rewrite advance_length by lia.
  destruct (Z.eqb_spec (r_length r - 1) 0) as [? | _]; [lia |].
  now rewrite Hg.
Qed.

Lemma land127_nonneg (b : Z) : 0 <= Z.land b 127.
Proof. apply Z.land_nonneg. right. lia. Qed.

Lemma dispatch_fall_ok (type b : Z) (r : regs) (s : panel_simple) :
  1 <= r_length r < 2 ^ 32 -> bytes (r_cmd r) ->
  fall_ok r (dispatch E C type b r s).
Proof.
  intros HL Hb. pose proof (land127_nonneg b) as Hn.
  pose proof (byte_at_range (r_cmd r) 0 Hb) as Hb0.
  pose proof (advance_length 1 r ltac:(lia) ltac:(lia)) as Ha.
  pose proof (advance_bytes 1 r Hb) as Hab.
  unfold dispatch.
  destruct (is_write C _).
  { unfold do_write.
    destruct (_ =? S_DCS_LENGTH C); [| destruct (_ =? S_DCS_BUF C)];
      match goal with |- context [?a <? ?b] => destruct (a <? b) end;
      try exact I;
      (destruct (r_skip _);
       [| match goal with
          | |- context [let '(_, _) := ?e in _] => destruct e
          end]);
      cbn [fall_ok]; rewrite ?Ha; repeat split; try assumption; lia. }
  destruct (_ =? S_MRPS C).
  { unfold do_mrps. destruct (type =? TYPE_MIPI); cbn [fall_ok];
      repeat split; try assumption; lia. }
  destruct (is_read C _).
  { unfold do_read. destruct (r_skip r).
    - cbn [fall_ok]. repeat split; try assumption; try lia.
      unfold u32. apply Z.mod_pos_bound. lia.
    - destruct (fetch E type _ _ _ (r_cmd r) s) as [[ret data] s'].
      destruct (_ =? _); cbn [fall_ok]; repeat split; try assumption;
        try (unfold u32; apply Z.mod_pos_bound); cbn; lia. }
  destruct (_ =? S_DELAY C).
  { unfold do_delay. destruct (Z.leb_spec (r_length r) 1); [exact I |].
    cbn [fall_ok]. rewrite Ha. repeat split; try assumption; lia. }
  destruct (is_patch C _).
  { unfold do_patch. destruct (_ =? S_CONST C).
    - cbn [fall_ok set_cmd_buf r_length r_cmd].
      repeat split; try assumption; lia.
    - destruct (computed_field C _ _) as [val known].
      cbn [fall_ok set_cmd_buf r_length r_cmd].
      repeat split; try assumption; lia. }
  exact I.
Qed.

(** A pass that ends with [continue] has consumed at least one byte and
    leaves at least one. *)
Lemma body_progress (type : Z) (r : regs) (s : panel_simple) :
  1 <= r_length r < 2 ^ 32 -> bytes (r_cmd r) ->
  match body E C type r s with
  | Continue r' _ => 1 <= r_length r' < r_length r /\ bytes (r_cmd r')
  | Fall _ _ _ _ => False
  | _ => True
  end.
Proof.
  intros HL Hb.
  pose proof (advance_length 1 r ltac:(lia) ltac:(lia)) as Ha.
  pose proof (advance_bytes 1 r Hb) as Hab.
  unfold body.
  destruct (Z.eqb_spec (r_length (advance 1 r)) 0) as [| Hnz]; [exact I |].
  destruct (is_lane_gate C _).
  - destruct (_ =? lanes s); cbn [set_skip r_length r_cmd];
      (split; [lia | assumption]).
  - pose proof (dispatch_fall_ok type (byte_at (r_cmd r) 0) (advance 1 r) s
                  ltac:(lia) Hab) as Hd.
    destruct (dispatch E C type (byte_at (r_cmd r) 0) (advance 1 r) s)
      as [r' len ret s' | | |]; cbn [fall_ok] in Hd; try exact I;
      try contradiction.
    destruct Hd as (Hlen & Hr' & Hb').
    unfold finish. destruct (ret <? 0); [exact I |].
    destruct (Z.ltb_spec (r_length r') len); [exact I |].
    pose proof (advance_length len r' ltac:(lia) ltac:(lia)) as Ha'.
    destruct (Z.eqb_spec (r_length (advance len r')) 0); [exact I |].
    cbn [set_skip r_length r_cmd]. split; [lia |].
    now apply advance_bytes.
Qed.

Lemma loop_total (fuel : nat) :
  forall (type : Z) (r : regs) (s : panel_simple),
    1 <= r_length r <= Z.of_nat fuel -> r_length r < 2 ^ 32 ->
    bytes (r_cmd r) ->
    exists x, loop E C fuel type r s = Some x.
Proof.
  induction fuel as [| fuel IH]; intros type r s HL Hmax Hb; [lia |].
  rewrite loop_step.
  pose proof (body_progress type r s ltac:(lia) Hb) as Hp.
  destruct (body E C type r s) as [| r' s' | r' s' | ret s'];
    try contradiction; try (eexists; reflexivity).
  destruct Hp as (Hr' & Hb'). apply IH; try assumption; lia.
Qed.

(** Whatever the stream and the buses, [send_cmd_list] comes to an end and
    returns a value. *)
Lemma send_cmd_list_total (s : panel_simple) (mc : cmds) (type : Z)
      (cb : list Z) :
  0 <= cmds_length mc < 2 ^ 32 ->
  (forall cmd, cmds_ptr mc = Some cmd -> bytes cmd) ->
  exists res, send_cmd_list E C s mc type cb = Some res.
Proof.
  intros HL Hb. unfold send_cmd_list, send_cmd_list_fuel.
  destruct (cmds_ptr mc) as [cmd |]; [| eexists; reflexivity].
  destruct (Z.eqb_spec (cmds_length mc) 0); [eexists; reflexivity |].
  destruct (loop_total (Z.to_nat (cmds_length mc)) type
                       (entry cmd (cmds_length mc) cb) (set_mode_lpm true (set_spi_bits 0 s)))
    as [x Hx]; cbn [entry r_length r_cmd]; try lia.
  - now apply Hb.
  - rewrite Hx. eexists; reflexivity.
Qed.

End Total.

(** ** What the skip flag covers *)

Section Skip.

Variable E : bus.
Variable C : opcodes.

(** With the skip flag set, a pass makes no transport call, whatever the
    instruction, unless the instruction is [S_MRPS] on the command
    interface. *)
Lemma skipped_pass_is_silent (type : Z) (r : regs) (s : panel_simple) :
  r_skip r = true ->
  (classify C (byte_at (r_cmd r) 0) = KMrps -> type <> TYPE_MIPI) ->
  count is_transport (log (flow_panel (body E C type r s)))
  = count is_transport (log s).
Proof.
  intros Hskip Hm. unfold body.
  change (r_skip r) with (r_skip (advance 1 r)) in Hskip.
  set (b := byte_at (r_cmd r) 0) in *.
  set (r1 := advance 1 r) in *.
  destruct (r_length r1 =? 0); [reflexivity |].
  unfold classify in Hm.
  destruct (is_lane_gate C b).
  { destruct (_ =? lanes s); reflexivity. }
  cbv zeta in Hm. unfold dispatch.
  destruct (is_write C (Z.land b 127)).
  { unfold do_write.
    destruct (_ =? S_DCS_LENGTH C); [| destruct (_ =? S_DCS_BUF C)];
      match goal with |- context [?a <? ?b] => destruct (a <? b) end;
      try reflexivity;
      cbn [r_skip advance] in *; rewrite Hskip; unfold finish;
      change (0 <? 0) with false; cbv iota;
      repeat match goal with
             | |- context [if ?c then _ else _] => destruct c
             end; reflexivity. }
  destruct (Z.land b 127 =? S_MRPS C).
  { unfold do_mrps.
    destruct (Z.eqb_spec type TYPE_MIPI) as [-> | _];
      [exfalso; now apply Hm |].
    unfold finish. change (0 <? 0) with false. cbv iota.
    repeat match goal with
           | |- context [if ?c then _ else _] => destruct c
           end; reflexivity. }
  destruct (is_read C (Z.land b 127)).
  { unfold do_read. rewrite Hskip. unfold finish.
    change (0 <? 0) with false. cbv iota.
    repeat match goal with
           | |- context [if ?c then _ else _] => destruct c
           end; reflexivity. }
  destruct (Z.land b 127 =? S_DELAY C).
  { unfold do_delay. rewrite Hskip.
    destruct (r_length r1 <=? 1); [reflexivity |].
    unfold finish. change (0 <? 0) with false. cbv iota.
    repeat match goal with
           | |- context [if ?c then _ else _] => destruct c
           end; reflexivity. }
  destruct (is_patch C (Z.land b 127)).
  { unfold do_patch.
    destruct (_ =? S_CONST C);
      [| destruct (computed_field C _ _) as [val [|]]];
      unfold finish; change (0 <? 0) with false; cbv iota;
      repeat match goal with
             | |- context [if ?c then _ else _] => destruct c
             end; reflexivity. }
  reflexivity.
Qed.

End Skip.

(** ** The interpreter: truncated streams and lane gates *)

(** C6, what the code does: a plain write whose declared length is more than
    what is left of the stream stops the interpreter, with the message
    "Unexpected end of data" and no transport call, but the result of the
    stream is 0, the value of a run without any fault. *)
Theorem truncated_write_returns_zero (E : bus) (C : opcodes)
        (s : panel_simple) (type b L : Z) (rest cb : list Z) :
  classify C b = KWrite -> 2 <= L < 2 ^ 32 -> L - 1 < Z.land b 127 ->
  send_cmd_list E C s {| cmds_ptr := Some (b :: rest); cmds_length := L |}
                type cb
  = Some (0, emit (EvDevErr "Unexpected end of data") (set_mode_lpm true (set_spi_bits 0 s))).
Proof.
  intros Hk HL Hshort.
  rewrite send_cmd_list_unfold by lia.
  destruct (Z.to_nat L) as [| fuel] eqn:Hfuel; [lia |].
  unfold entry. rewrite loop_step, body_decode; try lia.
  2:{ apply classify_not_lane. congruence. }
  rewrite (dispatch_write E C type b _ _ Hk). cbv zeta.
  cbn [r_length].
  destruct (Z.ltb_spec (L - 1) (Z.land b 127)); [| lia].
  cbn [epilogue r_match emit]. rewrite Z.eqb_refl. cbn [andb].
  destruct (type =? TYPE_SPI); [| reflexivity].
  apply f_equal. now rewrite spi_send_idle by (now right).
Qed.

Lemma truncated_write_returns_zero_witness :
  send_cmd_list quiet_bus sample_codes panel0
                {| cmds_ptr := Some [0x05; 0x01; 0x02]; cmds_length := 3 |}
                TYPE_MIPI (replicate 32 0)
  = Some (0, emit (EvDevErr "Unexpected end of data") (set_spi_bits 0 panel0)).
Proof.
  apply truncated_write_returns_zero.
  - reflexivity.
  - lia.
  - vm_compute. reflexivity.
Defined.

(** C7, what the code does: the [S_MRPS] branch does not look at the skip
    flag.  After a lane gate that does not match the lane count, the
    [S_MRPS] instruction still sends its request on the command interface. *)
Theorem skipped_mrps_still_sent (E : bus) (C : opcodes) (s : panel_simple)
        (g m v : Z) (cb : list Z) :
  is_lane_gate C g = true -> 1 + g - S_IF_1_LANE C <> lanes s ->
  classify C m = KMrps ->
  0 <= mipi_dsi_set_maximum_return_packet_size E (log s) v ->
  body E C TYPE_MIPI (entry [g; m; v] 3 cb) (set_mode_lpm true (set_spi_bits 0 s))
  = Continue {| r_cmd := [m; v]; r_length := 2; r_cmd_buf := cb;
                r_skip := true; r_match := 0 |} (set_mode_lpm true (set_spi_bits 0 s)) /\
  send_cmd_list E C s {| cmds_ptr := Some [g; m; v]; cmds_length := 3 |}
                TYPE_MIPI cb
  = Some (0, emit (EvSetMaxReturn v) (set_mode_lpm true (set_spi_bits 0 s))).
Proof.
  intros Hg Hlanes Hk Hret.
  assert (Hb1 : body E C TYPE_MIPI (entry [g; m; v] 3 cb) (set_mode_lpm true (set_spi_bits 0 s))
                = Continue {| r_cmd := [m; v]; r_length := 2; r_cmd_buf := cb;
                              r_skip := true; r_match := 0 |}
                           (set_mode_lpm true (set_spi_bits 0 s))).
  { unfold entry. rewrite body_lane_gate by (try assumption; lia).
    cbn [lanes set_spi_bits set_mode_lpm].
    destruct (Z.eqb_spec (1 + g - S_IF_1_LANE C) (lanes s)); [contradiction |].
    reflexivity. }
  split; [exact Hb1 |].
  rewrite send_cmd_list_unfold by lia.
  change (Z.to_nat 3) with 3%nat.
  rewrite loop_step, Hb1, loop_step, body_decode; try lia.
  2:{ apply classify_not_lane. congruence. }
  rewrite (dispatch_mrps E C _ m _ _ Hk).
  unfold do_mrps. cbn [r_cmd Z.eqb TYPE_MIPI log set_spi_bits set_mode_lpm].
  change (byte_at [v] 0) with v.
  unfold finish.
  destruct (Z.ltb_spec (mipi_dsi_set_maximum_return_packet_size E (log s) v) 0);
    [lia |].
  reflexivity.
Qed.

Lemma skipped_mrps_still_sent_witness :
  send_cmd_list quiet_bus sample_codes panel0
                {| cmds_ptr := Some [0x7d; 0x63; 0x04]; cmds_length := 3 |}
                TYPE_MIPI (replicate 32 0)
  = Some (0, emit (EvSetMaxReturn 0x04) (set_spi_bits 0 panel0)).
Proof.
  refine (proj2 (skipped_mrps_still_sent quiet_bus sample_codes panel0
                   0x7d 0x63 0x04 (replicate 32 0) _ _ _ _)).
  - reflexivity.
  - vm_compute. discriminate.
  - reflexivity.
  - vm_compute. discriminate.
Defined.

Lemma computed_field_unknown (C : opcodes) (scmd : Z) (dm : drm_display_mode) :
  is_selector C scmd = false -> computed_field C scmd dm = (0, false).
Proof.
  unfold is_selector, computed_field. intros H.
  repeat match goal with
         | |- context [if ?c then _ else _] => destruct c; try discriminate H
         end.
  reflexivity.
Qed.

(** ** The two-wire transport *)

Lemma memcpy_at_spec (src : list Z) :
  forall (dst : list Z) (i : nat),
    (i + length src <= length dst)%nat ->
    memcpy_at dst i src = take i dst ++ src ++ drop (i + length src) dst.
Proof.
  induction src as [| b src IH]; intros dst i Hlen.
  - cbn [memcpy_at length app]. now rewrite Nat.add_0_r, take_drop.
  - cbn [memcpy_at length] in *.
    rewrite IH by (rewrite length_insert; lia).
    rewrite (take_S_r _ i b) by (apply list_lookup_insert_eq; lia).
    rewrite take_insert_ge by lia.
    rewrite drop_insert_lt by lia.
    rewrite <- app_assoc. cbn [app].
    replace (S i + length src)%nat with (i + S (length src))%nat by lia.
    reflexivity.
Qed.

Lemma memcpy_length (dst src : list Z) :
  (length src <= length dst)%nat -> length (memcpy dst src) = length dst.
Proof.
  intros H. unfold memcpy. rewrite memcpy_at_spec by (simpl; lia).
  rewrite take_0. cbn [app Nat.add]. rewrite length_app, length_drop. lia.
Qed.

Lemma swap_first_two_length (buf : list Z) :
  length (swap_first_two buf) = length buf.
Proof. unfold swap_first_two. now rewrite !length_insert. Qed.

(** What [simple_i2c_write] and [simple_i2c_read] leave in the staging
    buffer: the payload with its first two bytes swapped. *)
Lemma staged_payload (buf tx : list Z) :
  (length tx <= length buf)%nat ->
  take (length tx)
       (if 2 <=? Z.of_nat (length tx) then swap_first_two (memcpy buf tx)
        else memcpy buf tx)
  = wire tx.
Proof.
  intros Hlen. unfold memcpy. rewrite memcpy_at_spec by (simpl; lia).
  rewrite take_0. cbn [app Nat.add].
  destruct tx as [| a [| b t]].
  - reflexivity.
  - cbn. reflexivity.
  - cbn [length]. destruct (Z.leb_spec 2 (Z.of_nat (S (S (length t))))); [| lia].
    cbn [wire]. unfold swap_first_two. cbn.
    f_equal. f_equal. apply take_app_length.
Qed.

Lemma simple_i2c_write_spec (E : bus) (s : panel_simple) (tx : list Z) :
  (length tx <= 63)%nat -> length (tx_buf s) = 63%nat ->
  let msg := {| msg_addr := u16 (i2c_address s); msg_read := false;
                msg_len := Z.of_nat (length tx); msg_buf := wire tx |} in
  let log1 := EvI2cTransfer [msg] :: log s in
  let r1 := fst (i2c_transfer E (log s) [msg]) in
  let r2 := fst (i2c_transfer E (EvMsleep 10 :: log1) [msg]) in
  let res := simple_i2c_write E s tx in
  log (snd res)
  = (if r1 <? 0 then [EvI2cTransfer [msg]; EvMsleep 10] else []) ++ log1 /\
  fst res = (if r1 <? 0 then (if r2 <? 0 then r2 else 0) else 0) /\
  take (length tx) (tx_buf (snd res)) = wire tx /\
  length (tx_buf (snd res)) = 63%nat /\
  i2c_address (snd res) = i2c_address s /\
  lanes (snd res) = lanes s /\ spi_bits (snd res) = spi_bits s.
Proof.
  intros Hlen Hbuf msg log1 r1 r2 res.
  subst res. unfold simple_i2c_write.
  rewrite u32_small by lia.
  change TX_BUF_SIZE with 63.
  destruct (Z.ltb_spec 63 (Z.of_nat (length tx))); [lia |].
  rewrite Nat2Z.id.
  pose proof (staged_payload (tx_buf s) tx ltac:(lia)) as Hst.
  set (buf := if 2 <=? Z.of_nat (length tx)
              then swap_first_two (memcpy (tx_buf s) tx)
              else memcpy (tx_buf s) tx) in *.
  assert (Hbl : length buf = 63%nat).
  { subst buf. destruct (2 <=? _);
      rewrite ?swap_first_two_length, memcpy_length; lia. }
  cbn [i2c_address log set_tx_buf emit].
  rewrite Hst. fold msg. fold log1. fold r1.
  destruct (r1 <? 0) eqn:Hr.
  - cbn [log emit]. fold log1. fold r2.
    cbn [fst snd log emit tx_buf i2c_address lanes spi_bits app set_tx_buf].
    repeat split; try assumption.
  - cbn [fst snd log emit tx_buf i2c_address lanes spi_bits app set_tx_buf].
    rewrite Hr. repeat split; assumption.
Qed.

Lemma simple_i2c_read_spec (E : bus) (s : panel_simple) (tx rx : list Z)
      (rx_len : Z) :
  (length tx <= 63)%nat -> rx_len <= 63 -> length (tx_buf s) = 63%nat ->
  let msgs := [ {| msg_addr := u16 (i2c_address s); msg_read := false;
                   msg_len := Z.of_nat (length tx); msg_buf := wire tx |};
                {| msg_addr := u16 (i2c_address s); msg_read := true;
                   msg_len := rx_len; msg_buf := [] |} ] in
  let r := fst (i2c_transfer E (log s) msgs) in
  let res := simple_i2c_read E s tx rx rx_len in
  log (snd res) = EvI2cTransfer msgs :: log s /\
  fst (fst res) = (if r <? 0 then r else 0).
Proof.
  intros Hlen Hrx Hbuf msgs r res.
  subst res. unfold simple_i2c_read.
  rewrite u32_small by lia.
  change TX_BUF_SIZE with 63.
  destruct (Z.ltb_spec 63 (Z.of_nat (length tx))); [lia |].
  destruct (Z.ltb_spec 63 rx_len); [lia |].
  rewrite Nat2Z.id.
  rewrite (staged_payload (tx_buf s) tx) by lia.
  cbn [i2c_address log set_tx_buf emit]. fold msgs.
  subst r. destruct (i2c_transfer E (log s) msgs) as [ret rxd].
  cbn. split; reflexivity.
Qed.

(** The stream Write([0x01, 0x02]), Delay(5), Write([0x03]) on the two-wire
    bus, when the first transfer fails and the others succeed. *)
Lemma two_wire_stream (E : bus) (C : opcodes) (s : panel_simple)
      (cb : list Z) :
  classify C 2 = KWrite -> classify C 1 = KWrite ->
  classify C (S_DELAY C) = KDelay -> length (tx_buf s) = 63%nat ->
  let m1 := {| msg_addr := u16 (i2c_address s); msg_read := false;
               msg_len := 2; msg_buf := [2; 1] |} in
  let m3 := {| msg_addr := u16 (i2c_address s); msg_read := false;
               msg_len := 1; msg_buf := [3] |} in
  let t1 := EvI2cTransfer [m1] :: log s in
  let t2 := EvI2cTransfer [m1] :: EvMsleep 10 :: t1 in
  let t3 := EvMsleep 5 :: t2 in
  fst (i2c_transfer E (log s) [m1]) < 0 ->
  0 <= fst (i2c_transfer E (EvMsleep 10 :: t1) [m1]) ->
  0 <= fst (i2c_transfer E t3 [m3]) ->
  exists s',
    send_cmd_list E C s
                  {| cmds_ptr := Some [2; 1; 2; S_DELAY C; 5; 1; 3];
                     cmds_length := 7 |} TYPE_I2C cb
    = Some (0, s') /\
    log s' = EvI2cTransfer [m3] :: t3.
Proof.
  intros Hk2 Hk1 Hkd Hbuf m1 m3 t1 t2 t3 Hf1 Hf2 Hf3.
  rewrite send_cmd_list_unfold by lia.
  change (Z.to_nat 7) with 7%nat. unfold entry.
  (* Write([1, 2]) *)
  rewrite loop_step, body_decode; try lia.
  2:{ apply classify_not_lane. congruence. }
  rewrite (dispatch_write E C _ 2 _ _ Hk2). cbv zeta.
  cbn [r_length r_skip r_cmd].
  change (Z.land 2 127) with 2. change (7 - 1 <? 2) with false.
  change (TYPE_I2C =? TYPE_I2C) with true. cbv iota.
  change (bytes_at [1; 2; S_DELAY C; 5; 1; 3] (Z.to_nat 2)) with [1; 2].
  pose proof (simple_i2c_write_spec E (set_mode_lpm true (set_spi_bits 0 s)) [1; 2]
                ltac:(simpl; lia) Hbuf) as Hw.
  cbv zeta in Hw. cbn [i2c_address set_spi_bits set_mode_lpm log length wire] in Hw.
  change (Z.of_nat 2) with 2 in Hw. fold m1 in Hw. fold t1 in Hw.
  destruct (Z.ltb_spec (fst (i2c_transfer E (log s) [m1])) 0) as [_ | ?]; [| lia].
  destruct (Z.ltb_spec (fst (i2c_transfer E (EvMsleep 10 :: t1) [m1])) 0)
    as [? | _]; [lia |].
  destruct (simple_i2c_write E (set_mode_lpm true (set_spi_bits 0 s)) [1; 2]) as [ret1 s1].
  cbn [fst snd app] in Hw.
  destruct Hw as (Hlog1 & -> & _ & Hlen1 & Haddr1 & _).
  fold t2 in Hlog1.
  unfold finish. change (0 <? 0) with false. cbv iota.
  unfold advance, set_skip; cbn [r_length r_cmd r_cmd_buf r_skip r_match].
  change (7 - 1 <? 2) with false.
  change (u32 (7 - 1 - 2) =? 0) with false. cbv iota.
  change (u32 (7 - 1 - 2)) with 4.
  change (drop (Z.to_nat 2) [1; 2; S_DELAY C; 5; 1; 3]) with [S_DELAY C; 5; 1; 3].
  (* Delay(5) *)
  rewrite loop_step, body_decode; try lia.
  2:{ apply classify_not_lane. congruence. }
  rewrite (dispatch_delay E C _ _ _ _ Hkd).
  unfold do_delay. cbn [r_skip r_cmd r_length].
  change (TYPE_I2C =? TYPE_SPI) with false. cbv iota.
  change (byte_at [5; 1; 3] 0) with 5.
  change (4 - 1 <=? 1) with false. cbv iota.
  unfold finish. change (0 <? 0) with false. cbv iota.
  unfold advance, set_skip; cbn [r_length r_cmd r_cmd_buf r_skip r_match].
  change (u32 (4 - 1 - 1) <? 0) with false.
  change (u32 (u32 (4 - 1 - 1) - 0) =? 0) with false. cbv iota.
  change (u32 (u32 (4 - 1 - 1) - 0)) with 2.
  change (drop (Z.to_nat 0) (drop (Z.to_nat 1) [5; 1; 3])) with [1; 3].
  (* Write([3]) *)
  rewrite loop_step, body_decode; try lia.
  2:{ apply classify_not_lane. congruence. }
  rewrite (dispatch_write E C _ 1 _ _ Hk1). cbv zeta.
  cbn [r_length r_skip r_cmd].
  change (Z.land 1 127) with 1. change (2 - 1 <? 1) with false.
  change (TYPE_I2C =? TYPE_I2C) with true. cbv iota.
  change (bytes_at [3] (Z.to_nat 1)) with [3].
  pose proof (simple_i2c_write_spec E (emit (EvMsleep 5) s1) [3]
                ltac:(simpl; lia) Hlen1) as Hw.
  cbv zeta in Hw. cbn [i2c_address emit log length wire] in Hw.
  change (Z.of_nat 1) with 1 in Hw.
  rewrite Haddr1, Hlog1 in Hw. cbn [i2c_address set_spi_bits set_mode_lpm] in Hw.
  fold m3 in Hw. fold t3 in Hw.
  destruct (Z.ltb_spec (fst (i2c_transfer E t3 [m3])) 0) as [? | _]; [lia |].
  destruct (simple_i2c_write E (emit (EvMsleep 5) s1) [3]) as [ret3 s3].
  cbn [fst snd app] in Hw.
  destruct Hw as (Hlog3 & -> & _).
  unfold finish. change (0 <? 0) with false. cbv iota.
  unfold advance, set_skip; cbn [r_length r_cmd r_cmd_buf r_skip r_match].
  change (2 - 1 <? 1) with false.
  change (u32 (2 - 1 - 1) =? 0) with true. cbv iota.
  cbn [epilogue r_match]. change (0 =? 0) with true.
  change (TYPE_I2C =? TYPE_SPI) with false. cbn [andb].
  exists s3. split; [reflexivity | exact Hlog3].
Qed.

(** C8: the two-wire transport.  A write stages the payload in [tx_buf] with
    its first two bytes swapped (when there are two), sends it as one
    message, and when that fails sleeps 10 ms and sends it once more, the
    result being that of the second transfer; a read is one transfer of two
    messages, with no second attempt.  Every message goes to the address of
    the panel cut to the 16 bits of [msg.addr].  On the stream
    Write([0x01, 0x02]), Delay(5), Write([0x03]), when the first transfer
    fails and the others succeed, the interpreter returns 0 after three
    transfers and one sleep of 5 ms. *)
Theorem two_wire_transport (E : bus) (C : opcodes) (s : panel_simple)
        (cb : list Z) :
  (forall tx : list Z,
      (length tx <= 63)%nat -> length (tx_buf s) = 63%nat ->
      let msg := {| msg_addr := u16 (i2c_address s); msg_read := false;
                    msg_len := Z.of_nat (length tx); msg_buf := wire tx |} in
      let r1 := fst (i2c_transfer E (log s) [msg]) in
      let r2 := fst (i2c_transfer E (EvMsleep 10 :: EvI2cTransfer [msg] :: log s)
                                  [msg]) in
      let res := simple_i2c_write E s tx in
      take (length tx) (tx_buf (snd res)) = wire tx /\
      (0 <= r1 -> fst res = 0 /\ log (snd res) = EvI2cTransfer [msg] :: log s) /\
      (r1 < 0 ->
       fst res = (if r2 <? 0 then r2 else 0) /\
       log (snd res)
       = EvI2cTransfer [msg] :: EvMsleep 10 :: EvI2cTransfer [msg] :: log s)) /\
  (forall (tx rx : list Z) (rx_len : Z),
      (length tx <= 63)%nat -> rx_len <= 63 -> length (tx_buf s) = 63%nat ->
      let msgs := [ {| msg_addr := u16 (i2c_address s); msg_read := false;
                       msg_len := Z.of_nat (length tx); msg_buf := wire tx |};
                    {| msg_addr := u16 (i2c_address s); msg_read := true;
                       msg_len := rx_len; msg_buf := [] |} ] in
      let r := fst (i2c_transfer E (log s) msgs) in
      let res := simple_i2c_read E s tx rx rx_len in
      log (snd res) = EvI2cTransfer msgs :: log s /\
      fst (fst res) = (if r <? 0 then r else 0)) /\
  (classify C 2 = KWrite -> classify C 1 = KWrite ->
   classify C (S_DELAY C) = KDelay -> length (tx_buf s) = 63%nat ->
   let m1 := {| msg_addr := u16 (i2c_address s); msg_read := false;
                msg_len := 2; msg_buf := [2; 1] |} in
   let m3 := {| msg_addr := u16 (i2c_address s); msg_read := false;
                msg_len := 1; msg_buf := [3] |} in
   let t1 := EvI2cTransfer [m1] :: log s in
   let t2 := EvI2cTransfer [m1] :: EvMsleep 10 :: t1 in
   let t3 := EvMsleep 5 :: t2 in
   fst (i2c_transfer E (log s) [m1]) < 0 ->
   0 <= fst (i2c_transfer E (EvMsleep 10 :: t1) [m1]) ->
   0 <= fst (i2c_transfer E t3 [m3]) ->
   exists s',
     send_cmd_list E C s
                   {| cmds_ptr := Some [2; 1; 2; S_DELAY C; 5; 1; 3];
                      cmds_length := 7 |} TYPE_I2C cb
     = Some (0, s') /\
     log s' = EvI2cTransfer [m3] :: t3 /\
     count is_i2c_transfer (log s') = (3 + count is_i2c_transfer (log s))%nat /\
     count (is_msleep 5) (log s') = (1 + count (is_msleep 5) (log s))%nat).
Proof.
  split; [| split].
  - intros tx Hlen Hbuf msg r1 r2 res.
    destruct (simple_i2c_write_spec E s tx Hlen Hbuf)
      as (Hlog & Hret & Hst & _).
    fold msg r1 r2 res in Hlog, Hret. fold res in Hst.
    split; [exact Hst |]. split.
    + intros Hr. destruct (Z.ltb_spec r1 0); [lia |]. now split.
    + intros Hr. destruct (Z.ltb_spec r1 0); [| lia]. now split.
  - intros tx rx rx_len Hlen Hrx Hbuf. now apply simple_i2c_read_spec.
  - intros Hk2 Hk1 Hkd Hbuf m1 m3 t1 t2 t3 Hf1 Hf2 Hf3.
    destruct (two_wire_stream E C s cb Hk2 Hk1 Hkd Hbuf Hf1 Hf2 Hf3)
      as (s' & Hrun & Hlog).
    exists s'. split; [exact Hrun |]. split; [exact Hlog |].
    rewrite Hlog. subst t3 t2 t1. split; reflexivity.
Qed.

Lemma two_wire_transport_witness :
  (take (length [0x01; 0x02])
        (tx_buf (snd (simple_i2c_write flaky_i2c_bus panel0 [0x01; 0x02])))
   = wire [0x01; 0x02]) /\
  (exists s',
      send_cmd_list flaky_i2c_bus sample_codes panel0
                    {| cmds_ptr := Some [2; 1; 2; 0x60; 5; 1; 3];
                       cmds_length := 7 |} TYPE_I2C (replicate 32 0)
      = Some (0, s') /\
      count is_i2c_transfer (log s') = 3%nat /\
      count (is_msleep 5) (log s') = 1%nat).
Proof.
  destruct (two_wire_transport flaky_i2c_bus sample_codes panel0
                               (replicate 32 0))
    as (Hwrite & _ & Hstream).
  split.
  - refine (proj1 (Hwrite [0x01; 0x02] _ _)).
    + simpl. lia.
    + reflexivity.
  - destruct Hstream as (s' & Hrun & _ & Hn & Hd).
    + reflexivity.
    + reflexivity.
    + reflexivity.
    + reflexivity.
    + vm_compute. reflexivity.
    + vm_compute. discriminate.
    + vm_compute. discriminate.
    + exists s'. split; [exact Hrun |]. split; [exact Hn | exact Hd].
Defined.

(** The address of a message is the low 16 bits of [i2c_address]: a panel
    configured with 0x1002c is addressed at 0x2c. *)
Example two_wire_address_wraps :
  let s := {| spi := true; i2c_address := 0x1002c; spi_9bit := 1;
              spi_bits := 0; tx_buf := replicate 63 0;
              rx_buf := replicate 63 0; lanes := 4; mode_lpm := true;
              dt_mode := mode0; log := [] |} in
  log (snd (simple_i2c_write quiet_bus s [0x01; 0x02]))
  = [EvI2cTransfer [{| msg_addr := 0x2c; msg_read := false; msg_len := 2;
                       msg_buf := [0x02; 0x01] |}]] /\
  log (snd (simple_i2c_read quiet_bus s [0x0a] (replicate 8 0) 1))
  = [EvI2cTransfer [{| msg_addr := 0x2c; msg_read := false; msg_len := 1;
                       msg_buf := [0x0a] |};
                    {| msg_addr := 0x2c; msg_read := true; msg_len := 1;
                       msg_buf := [] |}]].
Proof. split; reflexivity. Qed.

(** ** Reads on the command interface *)

(** C9, as the code has it.  A read on the command interface is sent once,
    and once more when the first attempt ends with [-EPROTO]; there is no
    third attempt.  For a DCS read the value of the last attempt is the
    result of the instruction, and when it is negative the interpreter
    leaves with it.  For a generic read the value is dropped and the result
    of the instruction is 0, whatever the attempts returned. *)
Theorem dsi_read_retry (E : bus) (C : opcodes) (s : panel_simple)
        (cmd : list Z) (len match_index : Z) :
  (let ev := EvDcsRead (byte_at cmd 0) len in
   let r1 := fst (mipi_dsi_dcs_read E (log s) (byte_at cmd 0) len) in
   let r2 := fst (mipi_dsi_dcs_read E (ev :: log s) (byte_at cmd 0) len) in
   let res := fetch E TYPE_MIPI 0 len match_index cmd s in
   log (snd res) = (if r1 =? - EPROTO then [ev] else []) ++ ev :: log s /\
   fst (fst res) = (if r1 =? - EPROTO then r2 else r1)) /\
  (let ev := EvGenericRead (bytes_at cmd 2) len in
   let r1 := fst (mipi_dsi_generic_read E (log s) (bytes_at cmd 2) len) in
   let res := fetch E TYPE_MIPI 128 len match_index cmd s in
   log (snd res) = (if r1 =? - EPROTO then [ev] else []) ++ ev :: log s /\
   fst (fst res) = 0) /\
  (forall b L cb m,
      classify C b = KRead -> Z.land b 128 = 0 -> 2 <= L < 2 ^ 32 ->
      let res := fetch E TYPE_MIPI 0 (u32 (Z.land b 127 - S_DCS_READ1 C + 1))
                       1 cmd s in
      fst (fst res) < 0 ->
      body E C TYPE_MIPI
           {| r_cmd := b :: cmd; r_length := L; r_cmd_buf := cb;
              r_skip := false; r_match := m |} s
      = Return (fst (fst res)) (emit (EvDevErr "Failed to send") (snd res))).
Proof.
  split; [| split].
  - cbv zeta. unfold fetch, dsi_read.
    change (TYPE_MIPI =? TYPE_I2C) with false.
    change (TYPE_MIPI =? TYPE_SPI) with false.
    change (negb (0 =? 0)) with false. cbv iota.
    destruct (mipi_dsi_dcs_read E (log s) (byte_at cmd 0) len) as [r1 d1].
    cbn [fst snd log emit].
    destruct (r1 =? - EPROTO).
    + destruct (mipi_dsi_dcs_read E _ (byte_at cmd 0) len) as [r2 d2].
      split; reflexivity.
    + split; reflexivity.
  - cbv zeta. unfold fetch, dsi_read.
    change (TYPE_MIPI =? TYPE_I2C) with false.
    change (TYPE_MIPI =? TYPE_SPI) with false.
    change (negb (128 =? 0)) with true. cbv iota.
    destruct (mipi_dsi_generic_read E (log s) (bytes_at cmd 2) len) as [r1 d1].
    cbn [fst snd log emit].
    destruct (r1 =? - EPROTO).
    + destruct (mipi_dsi_generic_read E _ (bytes_at cmd 2) len) as [r2 d2].
      split; reflexivity.
    + split; reflexivity.
  - intros b L cb m Hk Hg HL res Hneg.
    rewrite body_decode; try lia.
    2:{ apply classify_not_lane. congruence. }
    rewrite (dispatch_read E C _ b _ _ Hk). rewrite Hg.
    unfold do_read. cbn [r_skip r_cmd].
    change (negb (0 =? 0)) with false. cbv iota.
    fold res. destruct res as [[ret data] s'].
    cbn [fst snd] in *.
    destruct (le_value _ _ _ =? _); unfold finish;
      destruct (Z.ltb_spec ret 0); try lia; reflexivity.
Qed.

Lemma dsi_read_retry_witness :
  body eproto_bus sample_codes TYPE_MIPI
       {| r_cmd := [0x64; 0x0a; 0x9c; 0x29; 0x00]; r_length := 5;
          r_cmd_buf := replicate 32 0; r_skip := false; r_match := 0 |} panel0
  = Return (- EPROTO)
           (emit (EvDevErr "Failed to send")
                 (emit (EvDcsRead 0x0a 1) (emit (EvDcsRead 0x0a 1) panel0))).
Proof.
  refine (proj2 (proj2 (dsi_read_retry eproto_bus sample_codes panel0
                          [0x0a; 0x9c; 0x29; 0x00] 1 1))
                0x64 5 (replicate 32 0) 0 _ _ _ _).
  - reflexivity.
  - reflexivity.
  - lia.
  - vm_compute. reflexivity.
Defined.

(** C9 as stated fails for generic reads: both attempts of the generic read
    end with [-EPROTO], there is no third one, and the instruction goes on
    with the result 0; as the stream expects the value 0, which is what the
    untouched [data] holds, the whole stream even returns 0. *)
Lemma generic_read_failure_dropped :
  let res := fetch eproto_bus TYPE_MIPI 128 1 2 [0xb0; 0x00; 0x00] panel0 in
  fst (fst res) = 0 /\
  log (snd res)
  = [EvGenericRead [0xb0; 0x00] 1; EvGenericRead [0xb0; 0x00] 1] /\
  send_cmd_list eproto_bus sample_codes panel0
                {| cmds_ptr := Some [0xe4; 0xb0; 0x00; 0x00];
                   cmds_length := 4 |} TYPE_MIPI (replicate 32 0)
  = Some (0, snd res).
Proof. vm_compute. repeat split; reflexivity. Qed.

(** ** A failed verification does not change the run *)

Section Poison.

Variable E : bus.
Variable C : opcodes.

Lemma do_write_poison (type generic len : Z) (r : regs) (s : panel_simple) :
  do_write E C type generic len (poison r) s
  = poison_flow (do_write E C type generic len r s).
Proof.
  destruct r as [cmd L cb sk m]. unfold do_write, poison, set_match, advance.
  cbn [r_cmd r_length r_cmd_buf r_skip r_match].
  destruct (len =? S_DCS_LENGTH C); [| destruct (len =? S_DCS_BUF C)];
    cbn [r_cmd r_length r_cmd_buf r_skip r_match];
    (match goal with |- context [?a <? ?b] => destruct (a <? b) end;
     [reflexivity |]); destruct sk; try reflexivity;
    match goal with
    | |- context [let '(_, _) := ?e in _] => destruct e
    end; reflexivity.
Qed.

Lemma do_mrps_poison (type : Z) (r : regs) (s : panel_simple) :
  do_mrps E type (poison r) s = poison_flow (do_mrps E type r s).
Proof.
  destruct r as [cmd L cb sk m]. unfold do_mrps, poison, set_match.
  cbn [r_cmd]. destruct (type =? TYPE_MIPI); reflexivity.
Qed.

Lemma do_read_poison (type generic len : Z) (r : regs) (s : panel_simple) :
  do_read E C type generic len (poison r) s
  = poison_flow (do_read E C type generic len r s).
Proof.
  destruct r as [cmd L cb sk m]. unfold do_read, poison, set_match.
  cbn [r_cmd r_length r_cmd_buf r_skip r_match].
  destruct sk; [reflexivity |].
  destruct (fetch E type generic _ _ cmd s) as [[ret data] s'].
  destruct (_ =? _); reflexivity.
Qed.

Lemma do_delay_poison (type : Z) (r : regs) (s : panel_simple) :
  do_delay E type (poison r) s = poison_flow (do_delay E type r s).
Proof.
  destruct r as [cmd L cb sk m]. unfold do_delay, poison, set_match, advance.
  cbn [r_cmd r_length r_cmd_buf r_skip r_match].
  destruct (L <=? 1); reflexivity.
Qed.

Lemma do_patch_poison (scmd : Z) (r : regs) (s : panel_simple) :
  do_patch C scmd (poison r) s = poison_flow (do_patch C scmd r s).
Proof.
  destruct r as [cmd L cb sk m]. unfold do_patch, poison, set_match, set_cmd_buf.
  cbn [r_cmd r_length r_cmd_buf r_skip r_match].
  destruct (scmd =? S_CONST C); [reflexivity |].
  destruct (computed_field C scmd (dt_mode s)) as [val known]. reflexivity.
Qed.

Lemma dispatch_poison (type len : Z) (r : regs) (s : panel_simple) :
  dispatch E C type len (poison r) s
  = poison_flow (dispatch E C type len r s).
Proof.
  unfold dispatch.
  destruct (is_write C _); [apply do_write_poison |].
  destruct (_ =? S_MRPS C); [apply do_mrps_poison |].
  destruct (is_read C _); [apply do_read_poison |].
  destruct (_ =? S_DELAY C); [apply do_delay_poison |].
  destruct (is_patch C _); [apply do_patch_poison |].
  reflexivity.
Qed.

Lemma finish_poison (r : regs) (len ret : Z) (s : panel_simple) :
  finish (poison r) len ret s = poison_flow (finish r len ret s).
Proof.
  destruct r as [cmd L cb sk m]. unfold finish, poison, set_match, advance, set_skip.
  cbn [r_cmd r_length r_cmd_buf r_skip r_match].
  destruct (ret <? 0); [reflexivity |].
  destruct (L <? len); [reflexivity |].
  destruct (_ =? 0); reflexivity.
Qed.

Lemma body_poison (type : Z) (r : regs) (s : panel_simple) :
  body E C type (poison r) s = poison_flow (body E C type r s).
Proof.
  unfold body.
  change (advance 1 (poison r)) with (poison (advance 1 r)).
  change (r_cmd (poison r)) with (r_cmd r).
  change (r_length (poison (advance 1 r))) with (r_length (advance 1 r)).
  destruct (r_length (advance 1 r) =? 0); [reflexivity |].
  destruct (is_lane_gate C _).
  - destruct (_ =? lanes s); reflexivity.
  - rewrite dispatch_poison.
    destruct (dispatch E C type (byte_at (r_cmd r) 0) (advance 1 r) s);
      cbn [poison_flow]; try reflexivity.
    apply finish_poison.
Qed.

Lemma loop_poison (fuel : nat) :
  forall (type : Z) (r : regs) (s : panel_simple),
    loop E C fuel type (poison r) s
    = option_map poison_exit (loop E C fuel type r s).
Proof.
  induction fuel as [| fuel IH]; intros type r s; [reflexivity |].
  rewrite !loop_step, body_poison.
  destruct (body E C type r s); cbn [poison_flow option_map poison_exit];
    try reflexivity.
  apply IH.
Qed.

End Poison.

Lemma lor_disjoint (b R k : Z) :
  0 <= b < 256 -> 0 <= k ->
  Z.lor (b * 2 ^ k) (2 ^ (k + 8) * R) = b * 2 ^ k + 2 ^ (k + 8) * R.
Proof.
  intros Hb Hk.
  rewrite <- Z.lxor_lor.
  - symmetry. apply Z.add_nocarry_lxor.
    apply Z.bits_inj'. intros t Ht.
    rewrite Z.land_spec, Z.bits_0, (Z.mul_comm (2 ^ (k + 8))).
    rewrite !Z.mul_pow2_bits by lia.
    destruct (Z.lt_ge_cases t (k + 8)).
    + rewrite (Z.testbit_neg_r R) by lia. apply andb_false_r.
    + rewrite (byte_high_bits b) by lia. reflexivity.
  - apply Z.bits_inj'. intros t Ht.
    rewrite Z.land_spec, Z.bits_0, (Z.mul_comm (2 ^ (k + 8))).
    rewrite !Z.mul_pow2_bits by lia.
    destruct (Z.lt_ge_cases t (k + 8)).
    + rewrite (Z.testbit_neg_r R) by lia. apply andb_false_r.
    + rewrite (byte_high_bits b) by lia. reflexivity.
Qed.

Lemma little_endian_nonneg (l : list Z) : bytes l -> 0 <= little_endian l.
Proof.
  induction 1 as [| b t Hb _ IH]; cbn [little_endian]; lia.
Qed.

Lemma le_value_shifted (n : nat) :
  forall (i : nat) (l : list Z),
    (i + n <= 8)%nat -> bytes l ->
    le_value (Z.of_nat i) n l
    = 2 ^ (8 * Z.of_nat i) * little_endian (map (byte_at l) (seq i n)).
Proof.
  induction n as [| n IH]; intros i l Hle Hl.
  - cbn. lia.
  - cbn [le_value seq map little_endian].
    rewrite Nat2Z.id.
    pose proof (byte_at_range l i Hl) as Hb.
    replace (Z.of_nat i + 1) with (Z.of_nat (S i)) by lia.
    rewrite IH by (try assumption; lia).
    replace (Z.shiftl (Z.of_nat i) 3) with (8 * Z.of_nat i)
      by (rewrite Z.shiftl_mul_pow2 by lia; lia).
    rewrite Z.shiftl_mul_pow2 by lia.
    assert (Hpow : 0 < 2 ^ (8 * Z.of_nat i)) by (apply Z.pow_pos_nonneg; lia).
    assert (Hmono : 2 ^ (8 * Z.of_nat i + 8) <= 2 ^ 64)
      by (apply Z.pow_le_mono_r; lia).
    assert (Hsplit : 2 ^ (8 * Z.of_nat i + 8) = 2 ^ (8 * Z.of_nat i) * 256)
      by (rewrite Z.pow_add_r by lia; reflexivity).
    unfold u64. rewrite Z.mod_small by nia.
    replace (8 * Z.of_nat (S i)) with (8 * Z.of_nat i + 8) by lia.
    rewrite lor_disjoint by lia.
    rewrite Hsplit. ring.
Qed.

(** [readval] and [matchval] are the little-endian values of the bytes they
    are built from. *)
Lemma le_value_little_endian (n : nat) (l : list Z) :
  (n <= 8)%nat -> bytes l ->
  le_value 0 n l = little_endian (bytes_at l n).
Proof.
  intros Hn Hl. change 0 with (Z.of_nat 0).
  rewrite le_value_shifted by (try assumption; lia).
  unfold bytes_at. cbn [Z.of_nat Z.mul]. change (2 ^ 0) with 1. lia.
Qed.

Section Verify.

Variable E : bus.
Variable C : opcodes.
Variable type : Z.

(** The pass of a read that is not skipped, whose transfer does not fail and
    which is not the end of the stream. *)
Lemma body_read (r : regs) (s : panel_simple) :
  classify C (byte_at (r_cmd r) 0) = KRead -> r_skip r = false ->
  r_length r < 2 ^ 32 ->
  let b := byte_at (r_cmd r) 0 in
  let n := u32 (Z.land b 127 - S_DCS_READ1 C + 1) in
  let match_index := if negb (Z.land b 128 =? 0) then 2 else 1 in
  let r1 := advance 1 r in
  let res := fetch E type (Z.land b 128) n match_index (r_cmd r1) s in
  let same := le_value 0 (Z.to_nat n) (snd (fst res))
              =? le_value 0 (Z.to_nat n)
                          (drop (Z.to_nat match_index) (r_cmd r1)) in
  let next := set_skip false (advance (u32 (n + match_index)) r1) in
  0 <= fst (fst res) -> u32 (n + match_index) < r_length r - 1 ->
  body E C type r s
  = Continue (if same then next else poison next) (snd res).
Proof.
  intros Hk Hskip HL. cbv zeta.
  set (len := u32 (u32 (Z.land (byte_at (r_cmd r) 0) 127
                        - S_DCS_READ1 C + 1)
                   + (if negb (Z.land (byte_at (r_cmd r) 0) 128 =? 0)
                      then 2 else 1))).
  intros Hret Hmore.
  assert (Hnn : 0 <= len) by apply u32_nonneg.
  rewrite body_dispatch; try lia.
  2:{ apply classify_not_lane. congruence. }
  rewrite (dispatch_read E C type _ _ _ Hk).
  unfold do_read. cbv zeta.
  change (r_skip (advance 1 r)) with (r_skip r). rewrite Hskip.
  fold len.
  destruct (fetch E type _ _ _ (r_cmd (advance 1 r)) s) as [[ret data] s1].
  cbn [fst snd] in *.
  assert (Hfin : forall r',
             r_length r' = r_length r - 1 ->
             finish r' len ret s1
             = Continue (set_skip false (advance len r')) s1).
  { intros r' Hr'. unfold finish.
    destruct (Z.ltb_spec ret 0); [lia |].
    destruct (Z.ltb_spec (r_length r') len); [lia |].
    rewrite advance_length by lia.
    destruct (Z.eqb_spec (r_length r' - len) 0); [lia | reflexivity]. }
  destruct (le_value _ _ _ =? _).
  - apply Hfin. apply advance_length; lia.
  - rewrite Hfin; [reflexivity |].
    change (r_length (set_match (- EINVAL) (advance 1 r)))
      with (r_length (advance 1 r)).
    apply advance_length; lia.
Qed.

End Verify.

(** C5, as the code has it: verification is soft, but on the serial bus it
    costs the last flush.  For a read that is not skipped, whose transfer
    does not fail and that is not the end of the stream, the fetched bytes
    and the bytes that follow in the stream are compared as little-endian
    numbers over the read width.  The pass consumes the opcode, the
    register bytes and the expected bytes and ends with [continue]; when
    the values differ [match] becomes [-EINVAL], when they agree it is left
    alone.  The rest of the stream is then decoded and dispatched exactly
    as it would have been without the mismatch (same exit, same locals but
    [match], same panel and trace).  After a mismatch a run that left the
    loop by [break] returns [-EINVAL] and a run that left on a transport
    failure returns that failure; the flush of the serial transport that
    ends a run without mismatch is not made, so what 9-bit writes packed
    since the last transfer stays in the transmit buffer. *)
Theorem read_mismatch_is_soft (E : bus) (C : opcodes) (type : Z)
        (r : regs) (s : panel_simple) :
  classify C (byte_at (r_cmd r) 0) = KRead -> r_skip r = false ->
  bytes (r_cmd r) -> r_length r < 2 ^ 32 ->
  let b := byte_at (r_cmd r) 0 in
  let n := u32 (Z.land b 127 - S_DCS_READ1 C + 1) in
  let match_index := if negb (Z.land b 128 =? 0) then 2 else 1 in
  let r1 := advance 1 r in
  let res := fetch E type (Z.land b 128) n match_index (r_cmd r1) s in
  let data := snd (fst res) in
  let expected := drop (Z.to_nat match_index) (r_cmd r1) in
  let same := le_value 0 (Z.to_nat n) data
              =? le_value 0 (Z.to_nat n) expected in
  let next := set_skip false (advance (u32 (n + match_index)) r1) in
  0 <= fst (fst res) -> u32 (n + match_index) < r_length r - 1 ->
  ((Z.to_nat n <= 8)%nat -> bytes data ->
   same = (little_endian (bytes_at data (Z.to_nat n))
           =? little_endian (bytes_at expected (Z.to_nat n)))) /\
  body E C type r s
  = Continue (if same then next else poison next) (snd res) /\
  (forall fuel,
      loop E C (S fuel) type r s
      = if same then loop E C fuel type next (snd res)
        else option_map poison_exit (loop E C fuel type next (snd res))) /\
  (forall s0 cmd L cb,
      r = entry cmd L cb -> s = set_mode_lpm true (set_spi_bits 0 s0) ->
      exists x,
        loop E C (Z.to_nat L - 1) type next (snd res) = Some x /\
        send_cmd_list E C s0 {| cmds_ptr := Some cmd; cmds_length := L |}
                      type cb
        = Some (if same then epilogue E type x
                else match x with
                     | Broke _ s2 => (- EINVAL, s2)
                     | Returned ret s2 => (ret, s2)
                     end)).
Proof.
  intros Hk Hskip Hb HL b n match_index r1 res data expected same next
         Hret Hmore.
  assert (Hbody : body E C type r s
                  = Continue (if same then next else poison next) (snd res))
    by exact (body_read E C type r s Hk Hskip HL Hret Hmore).
  assert (Hstep : forall fuel,
             loop E C (S fuel) type r s
             = if same then loop E C fuel type next (snd res)
               else option_map poison_exit
                      (loop E C fuel type next (snd res))).
  { intros fuel. rewrite loop_step, Hbody.
    destruct same; [reflexivity | apply loop_poison]. }
  assert (Hnn : 0 <= u32 (n + match_index)) by apply u32_nonneg.
  assert (Hr1 : r_length r1 = r_length r - 1)
    by (apply advance_length; lia).
  assert (Hnext : r_length next = r_length r - 1 - u32 (n + match_index)).
  { change (r_length next)
      with (r_length (advance (u32 (n + match_index)) r1)).
    rewrite advance_length by lia. lia. }
  split; [| split; [| split]].
  - intros Hn Hd. subst same.
    rewrite !le_value_little_endian; try assumption; try reflexivity.
    apply Forall_drop. now apply advance_bytes.
  - exact Hbody.
  - exact Hstep.
  - intros s0 cmd L cb Hr Hs.
    assert (HrL : r_length r = L) by (now rewrite Hr).
    destruct (loop_total E C (Z.to_nat L - 1) type next (snd res))
      as [x Hx]; try lia.
    { change (r_cmd next)
        with (r_cmd (advance (u32 (n + match_index)) r1)).
      apply advance_bytes. now apply advance_bytes. }
    exists x. split; [exact Hx |].
    rewrite send_cmd_list_unfold by lia.
    rewrite <- Hr, <- Hs.
    replace (Z.to_nat L) with (S (Z.to_nat L - 1)) by lia.
    rewrite Hstep, Hx. destruct same; [reflexivity |].
    now destruct x.
Qed.

(** A DCS read of register 0x0a that expects 0x0f, followed by a DCS write
    of 0x29: when the panel answers 0x0e the write is still sent and the
    stream returns [-EINVAL]; when it answers 0x0f the same calls are made
    and the stream returns 0. *)
Example read_verify_example :
  let mc := {| cmds_ptr := Some [0x64; 0x0a; 0x0f; 0x01; 0x29];
               cmds_length := 5 |} in
  let calls := [EvDcsWriteBuffer [0x29]; EvDcsRead 0x0a 1] in
  (exists s', send_cmd_list (answer_bus 0x0e) sample_codes panel0 mc
                            TYPE_MIPI (replicate 32 0)
              = Some (- EINVAL, s') /\ log s' = calls) /\
  (exists s', send_cmd_list (answer_bus 0x0f) sample_codes panel0 mc
                            TYPE_MIPI (replicate 32 0)
              = Some (0, s') /\ log s' = calls).
Proof.
  split; eexists; vm_compute; split; reflexivity.
Qed.

Lemma read_mismatch_is_soft_witness :
  send_cmd_list (answer_bus 0x0e) sample_codes panel0
                {| cmds_ptr := Some [0x64; 0x0a; 0x0f; 0x01; 0x29];
                   cmds_length := 5 |}
                TYPE_MIPI (replicate 32 0)
  = Some (- EINVAL,
          emit (EvDcsWriteBuffer [0x29]) (emit (EvDcsRead 0x0a 1) panel0)).
Proof.
  destruct (read_mismatch_is_soft
              (answer_bus 0x0e) sample_codes TYPE_MIPI
              (entry [0x64; 0x0a; 0x0f; 0x01; 0x29] 5 (replicate 32 0))
              (set_mode_lpm true (set_spi_bits 0 panel0)))
    as (_ & _ & _ & Hrun).
  - reflexivity.
  - reflexivity.
  - unfold bytes. repeat constructor; lia.
  - reflexivity.
  - vm_compute. discriminate.
  - reflexivity.
  - destruct (Hrun panel0 [0x64; 0x0a; 0x0f; 0x01; 0x29] 5 (replicate 32 0)
                   eq_refl eq_refl) as (x & Hx & Hsend).
    rewrite Hsend.
    vm_compute in Hx. injection Hx as <-. reflexivity.
Defined.

(** On the serial bus with 9-bit words, the same read followed by the write
    of 0x29.  When the panel answers 0x0e the write is packed but not
    transferred; when it answers 0x0f it is transferred. *)
Lemma mismatch_drops_serial_write :
  let mc := {| cmds_ptr := Some [0x64; 0x0a; 0x0f; 0x01; 0x29];
               cmds_length := 5 |} in
  (exists s', send_cmd_list (serial_bus [0x00; 0x07; 0x00]) sample_codes
                            panel0 mc TYPE_SPI (replicate 32 0)
              = Some (- EINVAL, s') /\
              log s' = [EvSpiSync 3 [0x05; 0x7f; 0xff] true] /\
              spi_bits s' = 9 /\ take 2 (tx_buf s') = [0x14; 0x80]) /\
  (exists s', send_cmd_list (serial_bus [0x00; 0x07; 0x80]) sample_codes
                            panel0 mc TYPE_SPI (replicate 32 0)
              = Some (0, s') /\
              log s' = [EvSpiSync 2 [0x14; 0x80] false;
                        EvSpiSync 3 [0x05; 0x7f; 0xff] true] /\
              spi_bits s' = 0).
Proof.
  split; eexists; vm_compute; repeat split; reflexivity.
Qed.

(** ** The field patcher *)

Lemma byte_at_cons2 (a b : Z) (l : list Z) (k : nat) :
  byte_at (a :: b :: l) (S (S k)) = byte_at l k.
Proof. reflexivity. Qed.

(** C4, as the code has it: on a buffer of 0xFF bytes the patch of 12 bits at
    bit 4 with the constant 0xABC gives the bytes 0xCF 0xAB.  With the bits of
    each byte counted from the least significant one, bit [4 + t] of the
    buffer is bit [t] of 0xABC for the twelve bits of the field, and every
    other bit is as before.  The interpreter runs exactly this patch for the
    instruction [S_CONST 4 12 0xBC 0x0A 0x00 0x00] and consumes its six
    operand bytes. *)
Theorem field_patch_lsb_first :
  patch (replicate 32 255) 4 12 0 0xABC = [0xCF; 0xAB] ++ replicate 30 255 /\
  (forall j : nat,
      lsb_bit (patch (replicate 32 255) 4 12 0 0xABC) (Z.of_nat j)
      = if (4 <=? Z.of_nat j) && (Z.of_nat j <? 16)
        then Z.testbit 0xABC (Z.of_nat j - 4)
        else lsb_bit (replicate 32 255) (Z.of_nat j)) /\
  (forall (C : opcodes) (rest : list Z) (L : Z) (cb : list Z) (sk : bool)
          (m : Z) (s : panel_simple),
      do_patch C (S_CONST C)
               {| r_cmd := [4; 12; 0xBC; 0x0A; 0; 0] ++ rest; r_length := L;
                  r_cmd_buf := cb; r_skip := sk; r_match := m |} s
      = Fall {| r_cmd := [4; 12; 0xBC; 0x0A; 0; 0] ++ rest; r_length := L;
                r_cmd_buf := patch cb 4 12 0 0xABC;
                r_skip := sk; r_match := m |} 6 0 s).
Proof.
  assert (Hp : patch (replicate 32 255) 4 12 0 0xABC
               = [0xCF; 0xAB] ++ replicate 30 255)
    by (vm_compute; reflexivity).
  split; [exact Hp |]. split.
  - intros j. rewrite Hp.
    destruct (Nat.lt_ge_cases j 16) as [Hlt | Hge].
    + do 16 (destruct j as [| j]; [vm_compute; reflexivity |]). lia.
    + destruct (Z.leb_spec 4 (Z.of_nat j)); [| lia].
      destruct (Z.ltb_spec (Z.of_nat j) 16); [lia |].
      cbn [andb]. unfold lsb_bit.
      assert (2 <= Z.of_nat j / 8) by (apply Z.div_le_lower_bound; lia).
      replace (Z.to_nat (Z.of_nat j / 8))
        with (S (S (Z.to_nat (Z.of_nat j / 8 - 2)))) by lia.
      change (replicate 32 255) with (255 :: 255 :: replicate 30 255).
      cbn [app]. rewrite !byte_at_cons2. reflexivity.
  - intros C rest L cb sk m s. unfold do_patch.
    cbn [r_cmd r_cmd_buf app]. rewrite Z.eqb_refl.
    unfold set_cmd_buf. cbn [r_cmd r_length r_cmd_buf r_skip r_match].
    reflexivity.
Qed.

(** C4 as stated fails: with the bits of a byte counted from the most
    significant one, bit 2, one of the bits 0..4 that should have been left
    alone, goes from 1 to 0, and bits 4..7 all stay at 1 although the field
    starts with the zero bits of 0xABC. *)
Lemma field_patch_not_msb_first :
  stream_bit (replicate 32 255) 2 = true /\
  stream_bit (patch (replicate 32 255) 4 12 0 0xABC) 2 = false /\
  map (stream_bit (patch (replicate 32 255) 4 12 0 0xABC)) [4; 5; 6; 7]
  = [true; true; true; true].
Proof. vm_compute. repeat split; reflexivity. Qed.

(** The value is not cut to the width of the field before it is ORed in: a
    4-bit field at bit 0 patched with 0xFF sets the whole first byte. *)
Example patch_value_not_masked :
  patch (replicate 32 0) 0 4 0 0xFF = 0xFF :: replicate 31 0.
Proof. vm_compute. reflexivity. Qed.

(** * Further properties *)

(** ** Streams of bits in a buffer *)

Lemma holds_bits_weaken (T : Z -> bool) (val P vb vb' : Z) :
  holds_bits T val P vb -> vb' <= vb -> holds_bits T val P vb'.
Proof. intros H Hle t Ht. apply H. lia. Qed.

Lemma carries_stream (T : Z -> bool) (buf : list Z) (idx : nat) (j : Z) :
  carries T buf idx -> 0 <= j < 8 * Z.of_nat idx -> stream_bit buf j = T j.
Proof.
  intros Hc Hj. unfold stream_bit.
  assert (Hm := Z.mod_pos_bound j 8 ltac:(lia)).
  assert (Hd := Z.div_mod j 8 ltac:(lia)).
  rewrite (Hc (Z.to_nat (j / 8)) (7 - j mod 8)) by lia.
  f_equal. rewrite Z2Nat.id by (apply Z.div_pos; lia). lia.
Qed.

Lemma carries_store (T : Z -> bool) (buf : list Z) (idx : nat) (val vb : Z) :
  carries T buf idx -> holds_bits T val (8 * Z.of_nat idx + vb) vb ->
  8 <= vb -> (idx < length buf)%nat ->
  carries T (<[idx := u8 (Z.shiftr val (vb - 8))]> buf) (S idx).
Proof.
  intros Hc Hp Hvb Hlen k u Hk Hu.
  rewrite byte_at_insert.
  destruct (decide (k = idx /\ (idx < length buf)%nat)) as [[-> _] | Hn].
  - rewrite u8_bits, Z.shiftr_spec by lia.
    rewrite Hp by lia. f_equal. lia.
  - apply Hc; lia.
Qed.

(** The bits of a byte, read as stream positions. *)
Lemma byte_bit_stream (buf : list Z) (q : nat) (t : Z) :
  0 <= t < 8 ->
  Z.testbit (byte_at buf q) t = stream_bit buf (8 * Z.of_nat q + 7 - t).
Proof.
  intros Ht. unfold stream_bit.
  replace (8 * Z.of_nat q + 7 - t) with (8 * Z.of_nat q + (7 - t)) by lia.
  destruct (divmod_lin 8 (Z.of_nat q) (7 - t)) as [-> ->]; [lia |].
  rewrite Nat2Z.id. f_equal. lia.
Qed.

(** The bits of the byte that holds position [i], above the position, as
    [store_9bit] and [store_high] pick them up. *)
Lemma holds_bits_init (T : Z -> bool) (buf0 : list Z) (i : Z) :
  0 <= i -> (forall j, 0 <= j < i -> T j = stream_bit buf0 j) ->
  holds_bits T
             (if i mod 8 =? 0 then 0
              else Z.shiftr (byte_at buf0 (Z.to_nat (i / 8))) (8 - i mod 8))
             i (i mod 8).
Proof.
  intros Hi HT t Ht.
  assert (Hm := Z.mod_pos_bound i 8 ltac:(lia)).
  assert (Hd := Z.div_mod i 8 ltac:(lia)).
  assert (H8 : 0 <= i / 8) by (apply Z.div_pos; lia).
  destruct (Z.eqb_spec (i mod 8) 0) as [H0 | H0]; [lia |].
  rewrite Z.shiftr_spec by lia. rewrite HT by lia.
  rewrite byte_bit_stream by lia. f_equal. lia.
Qed.

Lemma carries_init (T : Z -> bool) (buf0 : list Z) (i : Z) :
  0 <= i -> (forall j, 0 <= j < i -> T j = stream_bit buf0 j) ->
  carries T buf0 (Z.to_nat (i / 8)).
Proof.
  intros Hi HT k u Hk Hu.
  assert (Hd := Z.div_mod i 8 ltac:(lia)).
  assert (Hm := Z.mod_pos_bound i 8 ltac:(lia)).
  assert (0 <= i / 8) by (apply Z.div_pos; lia).
  rewrite HT by lia. apply byte_bit_stream. lia.
Qed.

(** ** [store_high] *)

Lemma store_high_loop_carries (buf0 : list Z) (i n : Z) (fuel : nat) :
  forall buf (idx : nat) val bits vb,
    carries (ones_after buf0 i) buf idx ->
    holds_bits (ones_after buf0 i) val (8 * Z.of_nat idx + vb) vb ->
    0 <= vb <= 23 -> i <= 8 * Z.of_nat idx + vb ->
    bits = i + n - 8 * Z.of_nat idx -> i + n <= 504 ->
    length buf = 63%nat -> bits <= Z.of_nat fuel ->
    exists idx' : nat,
      carries (ones_after buf0 i) (store_high_loop fuel buf idx val bits vb) idx'
      /\ i + n <= 8 * Z.of_nat idx'.
Proof.
  induction fuel as [| fuel IH];
    intros buf idx val bits vb Hc Hp Hvb Hpos Hbits Hcap Hlen Hfuel.
  - exists idx. split; [exact Hc | lia].
  - cbn [store_high_loop].
    destruct (Z.ltb_spec 0 bits) as [Hgt | Hle].
    2:{ exists idx. split; [exact Hc | lia]. }
    assert (Hidx : (idx < length buf)%nat) by lia.
    destruct (Z.ltb_spec vb 8) as [Hlow | Hhigh].
    + assert (Hp' : holds_bits (ones_after buf0 i)
                      (u32 (Z.lor (Z.shiftl val 24) 16777215))
                      (8 * Z.of_nat idx + (vb + 24)) (vb + 24)).
      { intros t Ht. rewrite u32_bits, Z.lor_spec, Z.shiftl_spec by lia.
        change 16777215 with (Z.ones 24).
        destruct (Z.lt_ge_cases t 24).
        - rewrite Z.ones_spec_low by lia. rewrite orb_true_r.
          unfold ones_after.
          destruct (Z.ltb_spec (8 * Z.of_nat idx + (vb + 24) - 1 - t) i);
            [lia | reflexivity].
        - rewrite Z.ones_spec_high by lia. rewrite orb_false_r.
          rewrite Hp by lia. f_equal. lia. }
      apply IH; try lia.
      * apply carries_store; try assumption; lia.
      * replace (8 * Z.of_nat (S idx) + (vb + 24 - 8))
          with (8 * Z.of_nat idx + (vb + 24)) by lia.
        apply (holds_bits_weaken _ _ _ (vb + 24)); [exact Hp' | lia].
      * now rewrite length_insert.
    + apply IH; try lia.
      * apply carries_store; try assumption; lia.
      * replace (8 * Z.of_nat (S idx) + (vb - 8))
          with (8 * Z.of_nat idx + vb) by lia.
        apply (holds_bits_weaken _ _ _ vb); [exact Hp | lia].
      * now rewrite length_insert.
Qed.

Lemma store_high_stream (s : panel_simple) (bits : Z) :
  0 <= spi_bits s -> 0 <= bits -> spi_bits s + bits <= 504 ->
  length (tx_buf s) = 63%nat ->
  store_high s bits
  = (0, set_tx_buf (tx_buf (snd (store_high s bits)))
                   (set_spi_bits (spi_bits s + bits) s)) /\
  forall j, 0 <= j < spi_bits s + bits ->
    stream_bit (tx_buf (snd (store_high s bits))) j
    = ones_after (tx_buf s) (spi_bits s) j.
Proof.
  intros Hi Hb Hcap Hlen.
  assert (Hd := Z.div_mod (spi_bits s) 8 ltac:(lia)).
  assert (Hm := Z.mod_pos_bound (spi_bits s) 8 ltac:(lia)).
  assert (H8 : 0 <= spi_bits s / 8) by (apply Z.div_pos; lia).
  unfold store_high.
  rewrite s32_small, u32_small by lia.
  change (TX_BUF_SIZE * 8) with 504.
  destruct (Z.ltb_spec 504 (spi_bits s + bits)); [lia |].
  cbn [tx_buf set_spi_bits]. rewrite shiftr3, land7.
  set (i := spi_bits s) in *. set (buf0 := tx_buf s) in *.
  assert (HT : forall j, 0 <= j < i -> ones_after buf0 i j = stream_bit buf0 j).
  { intros j Hj. unfold ones_after. destruct (Z.ltb_spec j i); [reflexivity | lia]. }
  pose proof (holds_bits_init (ones_after buf0 i) buf0 i Hi HT) as Hp0.
  pose proof (carries_init (ones_after buf0 i) buf0 i Hi HT) as Hc0.
  set (val0 := if i mod 8 =? 0 then 0
               else Z.shiftr (byte_at buf0 (Z.to_nat (i / 8))) (8 - i mod 8)) in *.
  assert (Hsplit :
    (if i mod 8 =? 0 then (bits, 0)
     else (bits + i mod 8,
           Z.shiftr (byte_at buf0 (Z.to_nat (i / 8))) (8 - i mod 8)))
    = (bits + i mod 8, val0)).
  { subst val0. destruct (Z.eqb_spec (i mod 8) 0) as [-> |]; [| reflexivity].
    now rewrite Z.add_0_r. }
  rewrite Hsplit. clear Hsplit. cbn [fst snd tx_buf set_tx_buf].
  split; [reflexivity |].
  intros j Hj.
  destruct (store_high_loop_carries buf0 i bits (Z.to_nat (bits + i mod 8))
              buf0 (Z.to_nat (i / 8)) val0 (bits + i mod 8) (i mod 8))
    as (idx' & Hc' & Hidx'); try assumption; try lia.
  - replace (8 * Z.of_nat (Z.to_nat (i / 8)) + i mod 8) with i by lia.
    exact Hp0.
  - apply (carries_stream _ _ idx' j Hc'). lia.
Qed.

(** X1: [store_high] appends one-bits.  When the bits fit behind the pending
    ones the call returns 0, makes no transfer, keeps the bits already
    stored and sets every new bit; when they do not fit it refuses with
    [-EINVAL] and a message and, unlike the packer, neither flushes nor
    changes the buffer or the bit count. *)
Theorem store_high_appends_ones (s : panel_simple) (bits : Z) :
  0 <= spi_bits s -> 0 <= bits < 2 ^ 31 - 504 ->
  length (tx_buf s) = 63%nat ->
  (spi_bits s + bits <= 504 ->
   fst (store_high s bits) = 0 /\
   spi_bits (snd (store_high s bits)) = spi_bits s + bits /\
   log (snd (store_high s bits)) = log s /\
   (forall j, 0 <= j < spi_bits s ->
      stream_bit (tx_buf (snd (store_high s bits))) j
      = stream_bit (tx_buf s) j) /\
   (forall j, spi_bits s <= j < spi_bits s + bits ->
      stream_bit (tx_buf (snd (store_high s bits))) j = true)) /\
  (504 < spi_bits s + bits ->
   spi_bits s <= 504 ->
   store_high s bits = (- EINVAL, emit (EvDevErr "too many bits") s)).
Proof.
  intros Hi Hb Hlen. split.
  - intros Hcap.
    destruct (store_high_stream s bits Hi (proj1 Hb) Hcap Hlen) as [Heq Hst].
    split; [now rewrite Heq |]. split; [now rewrite Heq |].
    split; [now rewrite Heq |]. split.
    + intros j Hj. rewrite Hst by lia. unfold ones_after.
      destruct (Z.ltb_spec j (spi_bits s)); [reflexivity | lia].
    + intros j Hj. rewrite Hst by lia. unfold ones_after.
      destruct (Z.ltb_spec j (spi_bits s)); [lia | reflexivity].
  - intros Hover Hmax. unfold store_high.
    rewrite s32_small, u32_small by lia.
    change (TX_BUF_SIZE * 8) with 504.
    destruct (Z.ltb_spec 504 (spi_bits s + bits)); [reflexivity | lia].
Qed.

Lemma store_high_appends_ones_witness :
  (fst (store_high (snd (store_9bit quiet_bus panel0 [0x0a])) 16) = 0 /\
   spi_bits (snd (store_high (snd (store_9bit quiet_bus panel0 [0x0a])) 16))
   = spi_bits (snd (store_9bit quiet_bus panel0 [0x0a])) + 16) /\
  store_high (snd (store_9bit quiet_bus panel0 (replicate 55 0))) 16
  = (- EINVAL,
     emit (EvDevErr "too many bits")
          (snd (store_9bit quiet_bus panel0 (replicate 55 0)))).
Proof.
  split.
  - destruct (store_high_appends_ones
                (snd (store_9bit quiet_bus panel0 [0x0a])) 16)
      as [Hfit _].
    + vm_compute. discriminate.
    + vm_compute. split; [discriminate | reflexivity].
    + reflexivity.
    + destruct Hfit as (Hret & Hbits & _).
      * vm_compute. discriminate.
      * split; [exact Hret | exact Hbits].
  - refine (proj2 (store_high_appends_ones
                     (snd (store_9bit quiet_bus panel0 (replicate 55 0))) 16
                     _ _ _) _ _).
    + vm_compute. discriminate.
    + vm_compute. split; [discriminate | reflexivity].
    + reflexivity.
    + vm_compute. reflexivity.
    + vm_compute. discriminate.
Defined.

(** ** [extract_data] for any number of bytes *)

Lemma extract_data_loop_bits (buf : list Z) (n : nat) :
  bytes buf ->
  forall (idx : nat) (val vb : Z),
    0 <= vb < 8 ->
    (forall t, 0 <= t < vb ->
       Z.testbit val t = stream_bit buf (8 * Z.of_nat idx - 1 - t)) ->
    length (extract_data_loop n buf idx val vb) = n /\
    bytes (extract_data_loop n buf idx val vb) /\
    forall (k : nat) (u : Z), (k < n)%nat -> 0 <= u < 8 ->
      Z.testbit (byte_at (extract_data_loop n buf idx val vb) k) u
      = stream_bit buf (8 * Z.of_nat idx - vb + 8 * Z.of_nat k + 7 - u).
Proof.
  intros Hbuf. induction n as [| n IH]; intros idx val vb Hvb Hval.
  - cbn [extract_data_loop]. split; [reflexivity |].
    split; [apply Forall_nil_2 | intros k u Hk; lia].
  - cbn [extract_data_loop].
    destruct (Z.ltb_spec vb 8) as [_ | ?]; [| lia].
    replace (vb + 8 - 8) with vb by lia.
    set (val' := u32 (Z.lor (Z.shiftl val 8) (byte_at buf idx))).
    assert (Hval' : forall t, 0 <= t < vb + 8 ->
              Z.testbit val' t = stream_bit buf (8 * Z.of_nat (S idx) - 1 - t)).
    { intros t Ht. subst val'.
      rewrite u32_bits, Z.lor_spec, Z.shiftl_spec by lia.
      destruct (Z.lt_ge_cases t 8).
      - rewrite (Z.testbit_neg_r val) by lia. cbn [orb].
        rewrite byte_bit_stream by lia. f_equal. lia.
      - rewrite (byte_high_bits (byte_at buf idx)) by
          (try apply byte_at_range; try assumption; lia).
        rewrite orb_false_r, Hval by lia. f_equal. lia. }
    destruct (IH (S idx) val' vb Hvb) as (Hlen & Hby & Hbits).
    { intros t Ht. apply Hval'. lia. }
    split; [cbn [length]; now rewrite Hlen |].
    split; [apply Forall_cons; split; [apply u8_range | exact Hby] |].
    intros k u Hk Hu. destruct k as [| k].
    + change (byte_at (?x :: _) 0) with x.
      rewrite u8_bits, Z.shiftr_spec by lia.
      rewrite Hval' by lia. f_equal. lia.
    + change (byte_at (?x :: ?l) (S k)) with (byte_at l k).
      rewrite Hbits by lia. f_equal. lia.
Qed.

Lemma extract_data_bits (n : nat) (buf : list Z) (s : Z) :
  bytes buf -> 0 <= s ->
  length (extract_data n buf s) = n /\
  bytes (extract_data n buf s) /\
  forall (k : nat) (u : Z), (k < n)%nat -> 0 <= u < 8 ->
    Z.testbit (byte_at (extract_data n buf s) k) u
    = stream_bit buf (s + 8 * Z.of_nat k + 7 - u).
Proof.
  intros Hbuf Hs.
  assert (Hd := Z.div_mod s 8 ltac:(lia)).
  assert (Hm := Z.mod_pos_bound s 8 ltac:(lia)).
  assert (H8 : 0 <= s / 8) by (apply Z.div_pos; lia).
  unfold extract_data. rewrite shiftr3, land7.
  destruct (Z.eqb_spec (s mod 8) 0) as [H0 | H0].
  - destruct (extract_data_loop_bits buf n Hbuf (Z.to_nat (s / 8)) 0 (s mod 8))
      as (Hlen & Hby & Hbits); [lia | intros t Ht; lia |].
    split; [exact Hlen |]. split; [exact Hby |].
    intros k u Hk Hu. rewrite Hbits by assumption. f_equal. lia.
  - destruct (extract_data_loop_bits buf n Hbuf (S (Z.to_nat (s / 8)))
                (byte_at buf (Z.to_nat (s / 8))) (8 - s mod 8))
      as (Hlen & Hby & Hbits); [lia | |].
    { intros t Ht. rewrite byte_bit_stream by lia. f_equal. lia. }
    split; [exact Hlen |]. split; [exact Hby |].
    intros k u Hk Hu. rewrite Hbits by assumption. f_equal. lia.
Qed.

(** X2: [extract_data] copies a bit field.  From a buffer of bytes and any
    start bit inside it, the call gives exactly [n] bytes, and bit [u] of the
    [k]-th byte is the bit of the buffer at position [start_bit + 8k + 7 - u]
    of the stream (most significant bit first): the field of [8n] bits that
    starts at [start_bit], whatever its alignment. *)
Theorem extract_data_bit_field (n : nat) (buf : list Z) (start_bit : Z) :
  bytes buf -> 0 <= start_bit ->
  start_bit + 8 * Z.of_nat n <= 8 * Z.of_nat (length buf) ->
  length (extract_data n buf start_bit) = n /\
  bytes (extract_data n buf start_bit) /\
  forall (k : nat) (u : Z), (k < n)%nat -> 0 <= u < 8 ->
    Z.testbit (byte_at (extract_data n buf start_bit) k) u
    = stream_bit buf (start_bit + 8 * Z.of_nat k + 7 - u).
Proof. intros Hbuf Hs _. now apply extract_data_bits. Qed.

Lemma extract_data_bit_field_witness :
  length (extract_data 2 [0x12; 0x34; 0x56] 4) = 2%nat /\
  extract_data 2 [0x12; 0x34; 0x56] 4 = [0x23; 0x45].
Proof.
  split.
  - apply (extract_data_bit_field 2 [0x12; 0x34; 0x56] 4).
    + repeat constructor; lia.
    + lia.
    + cbn. lia.
  - reflexivity.
Defined.

(** X3: at a byte boundary [extract_data] is a plain copy: the [n] bytes
    that follow byte [m] of the buffer. *)
Theorem extract_data_aligned (n m : nat) (buf : list Z) :
  bytes buf -> (m + n <= length buf)%nat ->
  extract_data n buf (8 * Z.of_nat m) = take n (drop m buf).
Proof.
  intros Hbuf Hlen.
  destruct (extract_data_bits n buf (8 * Z.of_nat m) Hbuf ltac:(lia))
    as (Hl & Hby & Hbits).
  apply list_eq. intros k.
  destruct (Nat.lt_ge_cases k n) as [Hk | Hk].
  2:{ rewrite (proj2 (lookup_ge_None _ _)) by lia.
      rewrite (proj2 (lookup_ge_None _ _)); [reflexivity |].
      rewrite length_take. lia. }
  rewrite lookup_take, lookup_drop.
  destruct (decide (k < n)%nat); [| lia].
  destruct (lookup_lt_is_Some_2 (extract_data n buf (8 * Z.of_nat m)) k
              ltac:(lia)) as [a Ha].
  destruct (lookup_lt_is_Some_2 buf (m + k) ltac:(lia)) as [b Hb].
  rewrite Ha, Hb. f_equal.
  apply byte_eq_bits.
  - exact (Forall_lookup_1 _ _ _ _ Hby Ha).
  - exact (Forall_lookup_1 _ _ _ _ Hbuf Hb).
  - intros u Hu.
    assert (Hka : byte_at (extract_data n buf (8 * Z.of_nat m)) k = a)
      by (unfold byte_at; now rewrite Ha).
    rewrite <- Hka, (Hbits k u Hk Hu).
    replace (8 * Z.of_nat m + 8 * Z.of_nat k + 7 - u)
      with (8 * Z.of_nat (m + k) + 7 - u) by lia.
    rewrite <- byte_bit_stream by lia.
    unfold byte_at. now rewrite Hb.
Qed.

Lemma extract_data_aligned_witness :
  extract_data 2 [0x12; 0x34; 0x56] (8 * Z.of_nat 1) = [0x34; 0x56].
Proof.
  apply (extract_data_aligned 2 1 [0x12; 0x34; 0x56]).
  - repeat constructor; lia.
  - cbn. lia.
Defined.

(** ** The field patcher, for any field *)

Lemma ones_bit (n u : Z) :
  0 <= n -> Z.testbit (Z.ones n) u = (0 <=? u) && (u <? n).
Proof.
  intros Hn. destruct (Z.leb_spec 0 u) as [H0 | H0]; cbn [andb].
  - destruct (Z.ltb_spec u n).
    + apply Z.ones_spec_low. lia.
    + apply Z.ones_spec_high. lia.
  - apply Z.testbit_neg_r. lia.
Qed.

Lemma patch_mask (dest_len : Z) :
  0 <= dest_len ->
  (if dest_len <? 8 then Z.shiftl 1 dest_len - 1 else 255)
  = Z.ones (Z.min dest_len 8).
Proof.
  intros H. destruct (Z.ltb_spec dest_len 8).
  - rewrite Z.min_l by lia. unfold Z.ones. lia.
  - rewrite Z.min_r by lia. reflexivity.
Qed.

Lemma small_high_bits (v n u : Z) :
  0 <= v < 2 ^ n -> 0 <= n <= u -> Z.testbit v u = false.
Proof.
  intros Hv Hu. rewrite <- (Z.mod_small v (2 ^ n)) by lia.
  apply Z.mod_pow2_bits_high. lia.
Qed.

Lemma lsb_bit_byte (buf : list Z) (q : nat) (t : Z) :
  0 <= t < 8 -> lsb_bit buf (8 * Z.of_nat q + t) = Z.testbit (byte_at buf q) t.
Proof.
  intros Ht. unfold lsb_bit.
  destruct (divmod_lin 8 (Z.of_nat q) t) as [-> ->]; [lia |].
  now rewrite Nat2Z.id.
Qed.

(** One pass of the loop on the byte that holds [dest_start]. *)
Lemma patch_byte_bits (b l dest_len val t : Z) :
  0 <= l < 8 -> 0 < dest_len -> 0 <= val < 2 ^ dest_len -> 0 <= t < 8 ->
  let mask := if dest_len <? 8 then Z.shiftl 1 dest_len - 1 else 255 in
  Z.testbit
    (u8 (Z.lor (u8 (Z.land b (u32 (Z.lnot (Z.shiftl mask l)))))
               (u32 (Z.shiftl val l)))) t
  = if (l <=? t) && (t - l <? dest_len) then Z.testbit val (t - l)
    else Z.testbit b t.
Proof.
  intros Hm Hdl Hval Ht. cbv zeta.
  rewrite patch_mask by lia.
  rewrite u8_bits, Z.lor_spec, u8_bits, Z.land_spec, !u32_bits by lia.
  rewrite Z.lnot_spec, !Z.shiftl_spec by lia.
  rewrite ones_bit by lia.
  destruct (Z.leb_spec l t) as [Hlt | Hlt]; cbn [andb].
  - destruct (Z.leb_spec 0 (t - l)); [| lia]. cbn [andb].
    destruct (Z.ltb_spec (t - l) dest_len) as [Hin | Hout].
    + destruct (Z.ltb_spec (t - l) (Z.min dest_len 8)); [| lia].
      cbn [negb]. now rewrite andb_false_r.
    + destruct (Z.ltb_spec (t - l) (Z.min dest_len 8)); [lia |].
      cbn [negb]. rewrite andb_true_r.
      rewrite (small_high_bits val dest_len) by lia.
      now rewrite orb_false_r.
  - rewrite (Z.testbit_neg_r val) by lia.
    destruct (Z.leb_spec 0 (t - l)); [lia |]. cbn [andb negb].
    now rewrite andb_true_r, orb_false_r.
Qed.

Lemma patch_loop_length (fuel : nat) :
  forall cmd_buf dest_start dest_len val,
    length (patch_loop fuel cmd_buf dest_start dest_len val) = length cmd_buf.
Proof.
  induction fuel as [| fuel IH]; intros cb ds dl val; [reflexivity |].
  cbn [patch_loop].
  destruct (negb (dl =? 0) && (ds <? 256)); [| reflexivity].
  cbv zeta. rewrite IH. now rewrite !length_insert.
Qed.

Lemma patch_loop_bits (fuel : nat) :
  forall cmd_buf dest_start dest_len val,
    0 <= dest_start -> 0 <= dest_len <= Z.of_nat fuel ->
    0 <= val < 2 ^ dest_len -> length cmd_buf = 32%nat ->
    forall j, 0 <= j ->
      lsb_bit (patch_loop fuel cmd_buf dest_start dest_len val) j
      = if (dest_start <=? j) && (j <? dest_start + dest_len) && (j <? 256)
        then Z.testbit val (j - dest_start)
        else lsb_bit cmd_buf j.
Proof.
  induction fuel as [| fuel IH]; intros cb ds dl val Hds Hdl Hval Hlen j Hj.
  - cbn [patch_loop].
    destruct (Z.leb_spec ds j); destruct (Z.ltb_spec j (ds + dl));
      cbn [andb]; try reflexivity; lia.
  - cbn [patch_loop].
    destruct (Z.eqb_spec dl 0) as [H0 | H0]; cbn [negb andb].
    { destruct (Z.leb_spec ds j); destruct (Z.ltb_spec j (ds + dl));
        cbn [andb]; try reflexivity; lia. }
    destruct (Z.ltb_spec ds 256) as [Hin | Hout].
    2:{ destruct (Z.leb_spec ds j); destruct (Z.ltb_spec j 256);
          rewrite ?andb_false_r; cbn [andb]; try reflexivity; lia. }
    cbv zeta.
    rewrite shiftr3, !land7.
    assert (Hd := Z.div_mod ds 8 ltac:(lia)).
    assert (Hm := Z.mod_pos_bound ds 8 ltac:(lia)).
    assert (H8 : 0 <= ds / 8 < 32)
      by (split; [apply Z.div_pos; lia | apply Z.div_lt_upper_bound; lia]).
    set (i := Z.to_nat (ds / 8)).
    assert (Hi : (i < 32)%nat) by lia.
    set (b1 := u8 (Z.land (byte_at cb i) _)).
    assert (Hb1 : byte_at (<[i := b1]> cb) i = b1).
    { rewrite byte_at_insert.
      destruct (decide (i = i /\ (i < length cb)%nat)) as [_ | Hn];
        [reflexivity | exfalso; apply Hn; split; [reflexivity | lia]]. }
    rewrite Hb1. rewrite list_insert_insert_eq.
    set (nb := u8 (Z.lor b1 _)).
    set (l := ds mod 8) in *.
    set (dl' := if 8 - l <=? dl then dl - (8 - l) else 0).
    assert (Hdl' : 0 <= dl' <= Z.of_nat fuel /\ dl' < dl).
    { subst dl'. destruct (Z.leb_spec (8 - l) dl); lia. }
    assert (Hval' : 0 <= Z.shiftr val (8 - l) < 2 ^ dl').
    { rewrite Z.shiftr_div_pow2 by lia. subst dl'.
      destruct (Z.leb_spec (8 - l) dl) as [Hle | Hgt].
      - split; [apply Z.div_pos; [lia | apply Z.pow_pos_nonneg; lia] |].
        apply Z.div_lt_upper_bound; [apply Z.pow_pos_nonneg; lia |].
        rewrite <- Z.pow_add_r by lia.
        replace (8 - l + (dl - (8 - l))) with dl by lia. lia.
      - rewrite Z.div_small; [change (2 ^ 0) with 1; lia |].
        split; [lia |].
        apply (Z.lt_le_trans _ (2 ^ dl)); [lia |].
        apply Z.pow_le_mono_r; lia. }
    rewrite (IH (<[i := nb]> cb) (ds + (8 - l)) dl' (Z.shiftr val (8 - l)))
      by (rewrite ?length_insert; lia).
    assert (Hds' : ds + (8 - l) = 8 * Z.of_nat (S i)) by lia.
    assert (Hjd := Z.div_mod j 8 ltac:(lia)).
    assert (Hjm := Z.mod_pos_bound j 8 ltac:(lia)).
    assert (Hj8 : 0 <= j / 8) by (apply Z.div_pos; lia).
    destruct (decide (Z.to_nat (j / 8) = i)) as [Hsame | Hother].
    + (* the bit lies in the byte just written *)
      assert (Hjlt : j < ds + (8 - l)) by lia.
      destruct (Z.leb_spec (ds + (8 - l)) j); [lia |]. cbn [andb].
      replace j with (8 * Z.of_nat i + j mod 8) at 1 by lia.
      rewrite lsb_bit_byte by lia.
      rewrite byte_at_insert.
      destruct (decide (i = i /\ (i < length cb)%nat)) as [_ | Hn];
        [| exfalso; apply Hn; split; [reflexivity | lia]].
      subst nb b1.
      rewrite (patch_byte_bits (byte_at cb i) l dl val (j mod 8))
        by lia.
      destruct (Z.ltb_spec j 256); [| lia]. rewrite andb_true_r.
      replace (j - ds) with (j mod 8 - l) by lia.
      destruct (Z.leb_spec l (j mod 8)); destruct (Z.leb_spec ds j);
        try lia; cbn [andb].
      * destruct (Z.ltb_spec (j mod 8 - l) dl);
          destruct (Z.ltb_spec j (ds + dl)); try lia; try reflexivity.
        replace j with (8 * Z.of_nat i + j mod 8) at 2 by lia.
        now rewrite lsb_bit_byte by lia.
      * replace j with (8 * Z.of_nat i + j mod 8) at 2 by lia.
        now rewrite lsb_bit_byte by lia.
    + (* another byte *)
      assert (Hkeep : lsb_bit (<[i := nb]> cb) j = lsb_bit cb j).
      { unfold lsb_bit. rewrite byte_at_insert.
        destruct (decide (Z.to_nat (j / 8) = i /\ (i < length cb)%nat))
          as [[? _] | _]; [contradiction | reflexivity]. }
      rewrite Hkeep.
      destruct (Z.lt_ge_cases j ds) as [Hbefore | Hafter].
      * destruct (Z.leb_spec (ds + (8 - l)) j); [lia |].
        destruct (Z.leb_spec ds j); [lia |]. reflexivity.
      * assert (ds + (8 - l) <= j) by lia.
        destruct (Z.leb_spec (ds + (8 - l)) j); [| lia].
        destruct (Z.leb_spec ds j); [| lia]. cbn [andb].
        rewrite Z.shiftr_spec by lia.
        subst dl'.
        destruct (Z.leb_spec (8 - l) dl) as [Hle | Hgt].
        -- replace (ds + (8 - l) + (dl - (8 - l))) with (ds + dl) by lia.
           replace (j - (ds + (8 - l)) + (8 - l)) with (j - ds) by lia.
           reflexivity.
        -- destruct (Z.ltb_spec j (ds + (8 - l) + 0)); [lia |].
           destruct (Z.ltb_spec j (ds + dl)); [lia |]. reflexivity.
Qed.

(** ** Unknown codes *)

(** C10, as the code has it: the two kinds of unknown code, at any point of
    a stream.  A patch instruction whose selector lies between [S_CONST] and
    [S_VFP] without being one of the eight [case] labels leaves the message
    "Unknown scmd", clears the bits of the field in the staging buffer (the
    value 0 is patched) and keeps every other bit, consumes its three
    operands, and the pass ends with [continue]: the loop goes on with the
    next instruction.  An opcode that no test of the loop accepts, when it
    is not the last byte of the stream, leaves the message
    "Unknown DCS command" and ends the loop at once with [-EINVAL], whatever
    follows in the stream and whatever the result was so far.  The last
    byte of a stream is never decoded: whatever it is, the loop ends
    without a message and the result is the one recorded so far. *)
Theorem unknown_codes (E : bus) (C : opcodes) (type : Z) (r : regs)
        (s : panel_simple) :
  let b := byte_at (r_cmd r) 0 in
  (classify C b = KPatch -> Z.land b 127 <> S_CONST C ->
   is_selector C (Z.land b 127) = false ->
   5 <= r_length r < 2 ^ 32 -> bytes (r_cmd r) ->
   length (r_cmd_buf r) = 32%nat -> byte_at (r_cmd r) 3 < 32 ->
   let dest_start := byte_at (r_cmd r) 1 in
   let dest_len := byte_at (r_cmd r) 2 in
   let cmd_buf :=
     patch (r_cmd_buf r) dest_start dest_len (byte_at (r_cmd r) 3) 0 in
   let next := {| r_cmd := drop 4 (r_cmd r); r_length := r_length r - 4;
                  r_cmd_buf := cmd_buf; r_skip := false;
                  r_match := r_match r |} in
   let s' := emit (EvDevErr "Unknown scmd") s in
   body E C type r s = Continue next s' /\
   (forall fuel,
       loop E C (S fuel) type r s = loop E C fuel type next s') /\
   length cmd_buf = 32%nat /\
   (forall j, 0 <= j ->
      lsb_bit cmd_buf j
      = if (dest_start <=? j) && (j <? dest_start + dest_len) && (j <? 256)
        then false else lsb_bit (r_cmd_buf r) j)) /\
  (classify C b = KUnknown -> 2 <= r_length r < 2 ^ 32 ->
   let s' := emit (EvDevErr "Unknown DCS command") s in
   body E C type r s = Break (poison (advance 1 r)) s' /\
   (forall fuel,
       option_map (epilogue E type) (loop E C (S fuel) type r s)
       = Some (- EINVAL, s')) /\
   (forall s0 cmd L cb,
       r = entry cmd L cb -> s = set_mode_lpm true (set_spi_bits 0 s0) ->
       send_cmd_list E C s0 {| cmds_ptr := Some cmd; cmds_length := L |}
                     type cb
       = Some (- EINVAL, s'))) /\
  (r_length r = 1 ->
   body E C type r s = Break (advance 1 r) s /\
   (forall fuel,
       option_map (epilogue E type) (loop E C (S fuel) type r s)
       = Some (if (r_match r =? 0) && (type =? TYPE_SPI)
               then spi_send E s false else (r_match r, s)))).
Proof.
  cbv zeta. split; [| split].
  - intros Hk Hconst Hsel HL Hb Hlen Hss.
    assert (Hbody :
              body E C type r s
              = Continue
                  {| r_cmd := drop 4 (r_cmd r); r_length := r_length r - 4;
                     r_cmd_buf := patch (r_cmd_buf r) (byte_at (r_cmd r) 1)
                                        (byte_at (r_cmd r) 2)
                                        (byte_at (r_cmd r) 3) 0;
                     r_skip := false; r_match := r_match r |}
                  (emit (EvDevErr "Unknown scmd") s)).
    { rewrite body_dispatch; try lia.
      2:{ apply classify_not_lane. congruence. }
      rewrite (dispatch_patch E C type _ _ _ Hk).
      unfold do_patch. cbv zeta.
      destruct (Z.eqb_spec (Z.land (byte_at (r_cmd r) 0) 127) (S_CONST C))
        as [? | _]; [contradiction |].
      rewrite computed_field_unknown by assumption.
      unfold finish, set_cmd_buf, advance, set_skip.
      cbn [r_cmd r_length r_cmd_buf r_skip r_match].
      change (0 <? 0) with false. cbv iota.
      rewrite (u32_small (r_length r - 1)) by lia.
      destruct (Z.ltb_spec (r_length r - 1) 3); [lia |].
      rewrite u32_small by lia.
      destruct (Z.eqb_spec (r_length r - 1 - 3) 0); [lia |].
      change (Z.to_nat 1) with 1%nat. change (Z.to_nat 3) with 3%nat.
      rewrite !byte_at_drop, drop_drop.
      replace (r_length r - 1 - 3) with (r_length r - 4) by lia.
      reflexivity. }
    split; [exact Hbody |]. split.
    { intros fuel. now rewrite loop_step, Hbody. }
    pose proof (byte_at_range (r_cmd r) 1 Hb) as Hds.
    pose proof (byte_at_range (r_cmd r) 2 Hb) as Hdl.
    unfold patch. rewrite Z.shiftr_0_l. split.
    { now rewrite patch_loop_length. }
    intros j Hj.
    rewrite patch_loop_bits
      by first [lia | split; [lia | apply Z.pow_pos_nonneg; lia]].
    now rewrite Z.bits_0.
  - intros Hk HL.
    assert (Hbody :
              body E C type r s
              = Break (poison (advance 1 r))
                      (emit (EvDevErr "Unknown DCS command") s)).
    { rewrite body_dispatch; try lia.
      2:{ apply classify_not_lane. congruence. }
      now rewrite (dispatch_unknown E C type _ _ _ Hk). }
    split; [exact Hbody |]. split.
    + intros fuel. now rewrite loop_step, Hbody.
    + intros s0 cmd L cb Hr Hs.
      assert (HrL : r_length r = L) by (now rewrite Hr).
      rewrite send_cmd_list_unfold by lia.
      rewrite <- Hr, <- Hs.
      replace (Z.to_nat L) with (S (Z.to_nat L - 1)) by lia.
      now rewrite loop_step, Hbody.
  - intros HL.
    assert (Hbody : body E C type r s = Break (advance 1 r) s)
      by now apply body_last.
    split; [exact Hbody |].
    intros fuel. now rewrite loop_step, Hbody.
Qed.

Lemma unknown_codes_witness :
  body quiet_bus sample_codes TYPE_MIPI
       {| r_cmd := [0x75; 8; 8; 0; 0x29; 0x00]; r_length := 6;
          r_cmd_buf := replicate 32 255; r_skip := false; r_match := 0 |}
       panel0
  = Continue {| r_cmd := [0x29; 0x00]; r_length := 2;
                r_cmd_buf := 255 :: 0 :: replicate 30 255;
                r_skip := false; r_match := 0 |}
             (emit (EvDevErr "Unknown scmd") panel0) /\
  send_cmd_list quiet_bus sample_codes panel0
                {| cmds_ptr := Some [0x6c; 0x29; 0x00]; cmds_length := 3 |}
                TYPE_MIPI (replicate 32 0)
  = Some (- EINVAL,
          emit (EvDevErr "Unknown DCS command") (set_spi_bits 0 panel0)).
Proof.
  split.
  - destruct (unknown_codes
                quiet_bus sample_codes TYPE_MIPI
                {| r_cmd := [0x75; 8; 8; 0; 0x29; 0x00]; r_length := 6;
                   r_cmd_buf := replicate 32 255; r_skip := false;
                   r_match := 0 |} panel0) as (Hpatch & _ & _).
    destruct Hpatch as (Hbody & _).
    + reflexivity.
    + vm_compute. discriminate.
    + reflexivity.
    + cbn [r_length]. lia.
    + unfold bytes. repeat constructor; lia.
    + reflexivity.
    + reflexivity.
    + exact Hbody.
  - destruct (unknown_codes
                quiet_bus sample_codes TYPE_MIPI
                (entry [0x6c; 0x29; 0x00] 3 (replicate 32 0))
                (set_mode_lpm true (set_spi_bits 0 panel0)))
      as (_ & Hfatal & _).
    destruct Hfatal as (_ & _ & Hsend).
    + reflexivity.
    + cbn [entry r_length]. lia.
    + exact (Hsend panel0 [0x6c; 0x29; 0x00] 3 (replicate 32 0)
                   eq_refl eq_refl).
Defined.

(** The byte 0x6c, which no test of the loop accepts, as the last byte of a
    stream after a write of 0x11: the write is sent, the byte is fetched
    and dropped, nothing is logged and the stream returns 0. *)
Lemma unknown_last_byte_is_silent :
  classify sample_codes 0x6c = KUnknown /\
  send_cmd_list quiet_bus sample_codes panel0
                {| cmds_ptr := Some [0x01; 0x11; 0x6c]; cmds_length := 3 |}
                TYPE_MIPI (replicate 32 0)
  = Some (0, emit (EvDcsWriteBuffer [0x11]) panel0).
Proof. split; reflexivity. Qed.

(** X4: the field patcher writes exactly the field.  For a destination of
    [dest_len] bits at bit [dest_start] of the 32-byte staging buffer (bits
    counted from the least significant bit of each byte) and a value that,
    once shifted right by [src_start] (less than 32, the width of the
    value), fits in [dest_len] bits, bit
    [dest_start + t] of the buffer becomes bit [src_start + t] of the value,
    every other bit keeps its content, and nothing is written at or past
    bit 256, so the buffer keeps its length. *)
Theorem patch_writes_field (cmd_buf : list Z)
        (dest_start dest_len src_start val : Z) :
  length cmd_buf = 32%nat ->
  0 <= dest_start -> 0 <= dest_len -> 0 <= src_start < 32 ->
  0 <= val < 2 ^ 32 -> Z.shiftr val src_start < 2 ^ dest_len ->
  length (patch cmd_buf dest_start dest_len src_start val) = 32%nat /\
  forall j, 0 <= j ->
    lsb_bit (patch cmd_buf dest_start dest_len src_start val) j
    = if (dest_start <=? j) && (j <? dest_start + dest_len) && (j <? 256)
      then Z.testbit val (src_start + (j - dest_start))
      else lsb_bit cmd_buf j.
Proof.
  intros Hlen Hds Hdl Hsrc Hval Hfit. unfold patch. split.
  - now rewrite patch_loop_length.
  - intros j Hj.
    rewrite patch_loop_bits; try assumption; try lia.
    + destruct ((dest_start <=? j) && _ && _) eqn:Hc; [| reflexivity].
      apply andb_prop in Hc. destruct Hc as [Hc _].
      apply andb_prop in Hc. destruct Hc as [Hc _].
      apply Z.leb_le in Hc.
      rewrite Z.shiftr_spec by lia. f_equal. lia.
    + split; [| assumption]. apply Z.shiftr_nonneg. lia.
Qed.

Lemma patch_writes_field_witness :
  length (patch (replicate 32 0xFF) 13 10 4 0x2A50) = 32%nat /\
  lsb_bit (patch (replicate 32 0xFF) 13 10 4 0x2A50) 14
  = Z.testbit 0x2A50 (4 + (14 - 13)) /\
  lsb_bit (patch (replicate 32 0xFF) 13 10 4 0x2A50) 23
  = lsb_bit (replicate 32 0xFF) 23.
Proof.
  destruct (patch_writes_field (replicate 32 0xFF) 13 10 4 0x2A50)
    as [Hlen Hbits]; try reflexivity; try lia.
  split; [exact Hlen |]. split.
  - exact (Hbits 14 ltac:(lia)).
  - exact (Hbits 23 ltac:(lia)).
Defined.

(** ** What a whole run keeps *)

Lemma extends_refl (f : event -> bool) (t : trace) : extends f t t.
Proof. exists []. split; [reflexivity | constructor]. Qed.

Lemma extends_cons (f : event -> bool) (e : event) (old new : trace) :
  extends f old new -> f e = true -> extends f old (e :: new).
Proof.
  intros (d & -> & Hd) He. exists (e :: d). split; [reflexivity |].
  now constructor.
Qed.

Lemma extends_trans (f : event -> bool) (t1 t2 t3 : trace) :
  extends f t1 t2 -> extends f t2 t3 -> extends f t1 t3.
Proof.
  intros (d1 & -> & H1) (d2 & -> & H2). exists (d2 ++ d1).
  split; [now rewrite app_assoc | now apply Forall_app].
Qed.

Lemma keeps_refl (type : Z) (s : panel_simple) : keeps type s s.
Proof. split; [repeat split | apply extends_refl]. Qed.

Lemma keeps_trans (type : Z) (s1 s2 s3 : panel_simple) :
  keeps type s1 s2 -> keeps type s2 s3 -> keeps type s1 s3.
Proof.
  intros [(a1 & a2 & a3 & a4 & a5) He1] [(b1 & b2 & b3 & b4 & b5) He2].
  split; [| eapply extends_trans; eassumption].
  repeat split; congruence.
Qed.

Lemma keeps_emit (type : Z) (e : event) (s s' : panel_simple) :
  keeps type s s' -> on_bus type e = true -> keeps type s (emit e s').
Proof.
  intros [Hc He] Hb. split; [exact Hc |].
  cbn [log emit]. now apply extends_cons.
Qed.

Lemma keeps_set_spi_bits (type v : Z) (s s' : panel_simple) :
  keeps type s s' -> keeps type s (set_spi_bits v s').
Proof. intros H. exact H. Qed.

Lemma keeps_set_tx_buf (type : Z) (b : list Z) (s s' : panel_simple) :
  keeps type s s' -> keeps type s (set_tx_buf b s').
Proof. intros H. exact H. Qed.

Lemma keeps_set_rx_buf (type : Z) (b : list Z) (s s' : panel_simple) :
  keeps type s s' -> keeps type s (set_rx_buf b s').
Proof. intros H. exact H. Qed.

Ltac on_bus_tac :=
  cbn [on_bus];
  repeat match goal with
         | H : (_ =? _) = _ |- _ => rewrite H
         end;
  reflexivity.

Ltac keeps_tac :=
  repeat first
         [ assumption
         | apply keeps_refl
         | apply keeps_emit; [| on_bus_tac]
         | apply keeps_set_spi_bits
         | apply keeps_set_tx_buf
         | apply keeps_set_rx_buf ].

Section Keeps.

Variable E : bus.
Variable C : opcodes.
Variable type : Z.

Lemma spi_send_keeps (s0 s : panel_simple) (rx : bool) :
  (type =? TYPE_SPI) = true -> keeps type s0 s ->
  keeps type s0 (snd (spi_send E s rx)).
Proof.
  intros Ht Hk. unfold spi_send.
  destruct (negb (spi s) || (spi_bits s =? 0)); [exact Hk |].
  cbv zeta. destruct (spi_sync E _ _ _) as [ret rxd].
  destruct rx; destruct (ret =? 0); cbn [snd]; keeps_tac.
Qed.

Lemma store_9bit_at_keeps (s0 s : panel_simple) (i bits : Z) (p : list Z)
      (ret : Z) :
  keeps type s0 s -> keeps type s0 (snd (store_9bit_at s i bits p ret)).
Proof.
  intros Hk. unfold store_9bit_at. cbv zeta.
  destruct (if Z.land i 7 =? 0 then _ else _) as [b v].
  destruct p; cbn [snd]; keeps_tac.
Qed.

Lemma store_9bit_keeps (s0 s : panel_simple) (p : list Z) :
  (type =? TYPE_SPI) = true -> keeps type s0 s ->
  keeps type s0 (snd (store_9bit E s p)).
Proof.
  intros Ht Hk. unfold store_9bit. cbv zeta.
  destruct (_ <? _).
  - pose proof (spi_send_keeps s0 s false Ht Hk) as H1.
    destruct (spi_send E s false) as [ret s1]. cbn [snd] in H1.
    destruct (_ <? _).
    + cbn [snd]. keeps_tac.
    + now apply store_9bit_at_keeps.
  - now apply store_9bit_at_keeps.
Qed.

Lemma store_high_keeps (s0 s : panel_simple) (bits : Z) :
  keeps type s0 s -> keeps type s0 (snd (store_high s bits)).
Proof.
  intros Hk. unfold store_high. cbv zeta.
  destruct (_ <? _); [cbn [snd]; keeps_tac |].
  destruct (if Z.land _ 7 =? 0 then _ else _) as [b v].
  cbn [snd]. keeps_tac.
Qed.

Lemma simple_i2c_write_keeps (s0 s : panel_simple) (tx : list Z) :
  (type =? TYPE_I2C) = true -> keeps type s0 s ->
  keeps type s0 (snd (simple_i2c_write E s tx)).
Proof.
  intros Ht Hk. unfold simple_i2c_write. cbv zeta.
  destruct (_ <? _); [exact Hk |].
  destruct (fst (i2c_transfer E _ _) <? 0); cbn [snd]; keeps_tac.
Qed.

Lemma simple_i2c_read_keeps (s0 s : panel_simple) (tx rx : list Z)
      (rx_len : Z) :
  (type =? TYPE_I2C) = true -> keeps type s0 s ->
  keeps type s0 (snd (simple_i2c_read E s tx rx rx_len)).
Proof.
  intros Ht Hk. unfold simple_i2c_read. cbv zeta.
  destruct (_ <? _); [exact Hk |].
  destruct (_ <? _); [exact Hk |].
  destruct (i2c_transfer E _ _) as [ret rxd]. cbn [snd]. keeps_tac.
Qed.

Lemma dsi_read_keeps (s0 s : panel_simple) (generic : bool)
      (cmd data : list Z) (len : Z) :
  (type =? TYPE_I2C) = false -> (type =? TYPE_SPI) = false ->
  keeps type s0 s ->
  keeps type s0 (snd (dsi_read E generic cmd data len s)).
Proof.
  intros Hi Hs Hk. unfold dsi_read. destruct generic.
  - destruct (mipi_dsi_generic_read E _ _ _) as [ret rxd].
    cbn [snd]. keeps_tac.
  - destruct (mipi_dsi_dcs_read E _ _ _) as [ret rxd].
    cbn [snd]. keeps_tac.
Qed.

Lemma fetch_keeps (s : panel_simple) (generic len match_index : Z)
      (cmd : list Z) :
  keeps type s (snd (fetch E type generic len match_index cmd s)).
Proof.
  unfold fetch. cbv zeta.
  destruct (type =? TYPE_I2C) eqn:Hi.
  { apply simple_i2c_read_keeps; [assumption | apply keeps_refl]. }
  destruct (type =? TYPE_SPI) eqn:Hs.
  { set (s1 := if negb (spi_9bit s =? 0) then _ else _).
    assert (H1 : keeps type s s1).
    { subst s1. destruct (negb (spi_9bit s =? 0)).
      - apply store_9bit_keeps; [assumption |].
        apply spi_send_keeps; [assumption | apply keeps_refl].
      - keeps_tac. }
    pose proof (spi_send_keeps s (snd (store_high s1 (s32 (len * 8)))) true
                  Hs (store_high_keeps s s1 _ H1)) as H2.
    destruct (spi_send E _ true) as [ret s2]. exact H2. }
  destruct (negb (generic =? 0)).
  - pose proof (dsi_read_keeps s s true cmd (replicate 8 0) len Hi Hs
                  (keeps_refl _ _)) as H1.
    destruct (dsi_read E true cmd _ len s) as [[ret data] s1].
    cbn [snd] in H1.
    destruct (ret =? - EPROTO).
    + pose proof (dsi_read_keeps s s1 true cmd data len Hi Hs H1) as H2.
      destruct (dsi_read E true cmd data len s1) as [[ret2 data2] s2].
      exact H2.
    + exact H1.
  - pose proof (dsi_read_keeps s s false cmd (replicate 8 0) len Hi Hs
                  (keeps_refl _ _)) as H1.
    destruct (dsi_read E false cmd _ len s) as [[ret data] s1].
    cbn [snd] in H1.
    destruct (ret =? - EPROTO).
    + now apply dsi_read_keeps.
    + exact H1.
Qed.

Lemma match_ok_advance (n : Z) (r : regs) : match_ok r -> match_ok (advance n r).
Proof. intros H. exact H. Qed.

Lemma dispatch_keeps (b : Z) (r : regs) (s : panel_simple) :
  match_ok r -> flow_keeps type s (dispatch E C type b r s).
Proof.
  intros Hm. unfold dispatch. cbv zeta.
  destruct (is_write C _).
  { unfold do_write.
    destruct (_ =? S_DCS_LENGTH C); [| destruct (_ =? S_DCS_BUF C)];
      (match goal with |- context [?a <? ?b] => destruct (a <? b) end;
       [cbn [flow_keeps]; split; [exact Hm | keeps_tac] |]);
      (destruct (r_skip _);
       [cbn [flow_keeps]; split; [exact Hm | keeps_tac] |]);
      cbv zeta;
      (destruct (type =? TYPE_I2C) eqn:Hi;
       [match goal with
        | |- context [simple_i2c_write E s ?p] =>
            pose proof (simple_i2c_write_keeps s s p Hi (keeps_refl _ _)) as Hk;
            destruct (simple_i2c_write E s p) as [ret s1]
        end; cbn [flow_keeps]; split; [exact Hm | exact Hk] |]);
      (destruct (type =? TYPE_SPI) eqn:Hs;
       [destruct (negb (spi_9bit s =? 0));
        [match goal with
         | |- context [store_9bit E s ?p] =>
             pose proof (store_9bit_keeps s s p Hs (keeps_refl _ _)) as Hk;
             destruct (store_9bit E s p) as [ret s1]
         end; cbn [flow_keeps]; split; [exact Hm | exact Hk]
        | match goal with |- context [?a <? TX_BUF_SIZE] =>
            destruct (a <? TX_BUF_SIZE) end;
          [match goal with
           | |- context [spi_send E ?x false] =>
               pose proof (spi_send_keeps s x false Hs
                             ltac:(keeps_tac)) as Hk;
               destruct (spi_send E x false) as [ret s1]
           end; cbn [flow_keeps]; split; [exact Hm | exact Hk]
          | cbn [flow_keeps]; split; [exact Hm | keeps_tac]]] |]);
      destruct (negb (_ =? 0)); cbn [flow_keeps];
      (split; [exact Hm | keeps_tac]). }
  destruct (_ =? S_MRPS C).
  { unfold do_mrps. cbv zeta.
    destruct (type =? TYPE_MIPI) eqn:Hmipi; cbn [flow_keeps];
      (split; [exact Hm | keeps_tac]). }
  destruct (is_read C _).
  { unfold do_read. cbv zeta. destruct (r_skip r).
    - cbn [flow_keeps]. split; [exact Hm | keeps_tac].
    - match goal with
      | |- context [fetch E type ?g ?l ?mi ?c s] =>
          pose proof (fetch_keeps s g l mi c) as Hk;
          destruct (fetch E type g l mi c s) as [[ret data] s1]
      end.
      cbn [snd] in Hk.
      destruct (_ =? _); cbn [flow_keeps];
        (split; [| exact Hk]); [exact Hm | right; reflexivity]. }
  destruct (_ =? S_DELAY C).
  { unfold do_delay. cbv zeta.
    assert (Hk : keeps type s
                   (if r_skip r then s
                    else emit (EvMsleep (byte_at (r_cmd r) 0))
                              (if type =? TYPE_SPI
                               then snd (spi_send E s false) else s))).
    { destruct (r_skip r); [keeps_tac |].
      destruct (type =? TYPE_SPI) eqn:Hs; [| keeps_tac].
      apply keeps_emit; [| reflexivity].
      apply spi_send_keeps; [assumption | apply keeps_refl]. }
    destruct (_ <=? _); cbn [flow_keeps]; (split; [exact Hm | exact Hk]). }
  destruct (is_patch C _).
  { unfold do_patch. cbv zeta.
    destruct (_ =? S_CONST C).
    - cbn [flow_keeps]. split; [exact Hm | keeps_tac].
    - destruct (computed_field C _ _) as [val [|]]; cbn [flow_keeps];
        (split; [exact Hm | keeps_tac]). }
  cbn [flow_keeps]. split; [right; reflexivity | keeps_tac].
Qed.

Lemma finish_keeps (s0 : panel_simple) (r : regs) (len ret : Z)
      (s : panel_simple) :
  match_ok r -> keeps type s0 s ->
  flow_keeps type s0 (finish r len ret s).
Proof.
  intros Hm Hk. unfold finish.
  destruct (Z.ltb_spec ret 0).
  { cbn [flow_keeps]. split; [assumption | keeps_tac]. }
  destruct (_ <? _).
  { cbn [flow_keeps]. split; [assumption | keeps_tac]. }
  cbv zeta. destruct (_ =? 0); cbn [flow_keeps]; (split; [exact Hm | exact Hk]).
Qed.

Lemma body_keeps (r : regs) (s : panel_simple) :
  match_ok r -> flow_keeps type s (body E C type r s).
Proof.
  intros Hm. unfold body. cbv zeta.
  destruct (_ =? 0).
  { cbn [flow_keeps]. split; [exact Hm | keeps_tac]. }
  destruct (is_lane_gate C _).
  { destruct (_ =? lanes s); cbn [flow_keeps];
      (split; [exact Hm | keeps_tac]). }
  pose proof (dispatch_keeps (byte_at (r_cmd r) 0) (advance 1 r) s Hm) as Hd.
  destruct (dispatch E C type _ _ s) as [r' len ret s' | | |];
    try exact Hd.
  destruct Hd as [Hm' Hk']. now apply finish_keeps.
Qed.

Lemma flow_keeps_trans (s0 s : panel_simple) (f : flow) :
  keeps type s0 s -> flow_keeps type s f -> flow_keeps type s0 f.
Proof.
  intros Hk. destruct f; cbn [flow_keeps]; intros [H1 H2];
    (split; [exact H1 | eapply keeps_trans; eassumption]).
Qed.

Lemma loop_keeps (fuel : nat) :
  forall (r : regs) (s : panel_simple) (x : loop_exit),
    match_ok r -> loop E C fuel type r s = Some x -> exit_keeps type s x.
Proof.
  induction fuel as [| fuel IH]; intros r s x Hm Hx; [discriminate |].
  rewrite loop_step in Hx.
  pose proof (body_keeps r s Hm) as Hb.
  destruct (body E C type r s) as [r' len ret s' | r' s' | r' s' | ret s'];
    cbn [flow_keeps] in Hb.
  - injection Hx as <-. exact Hb.
  - injection Hx as <-. exact Hb.
  - destruct Hb as [Hm' Hk'].
    pose proof (IH r' s' x Hm' Hx) as Hx'.
    destruct x; cbn [exit_keeps] in *; destruct Hx' as [H1 H2];
      (split; [exact H1 | eapply keeps_trans; eassumption]).
  - injection Hx as <-. exact Hb.
Qed.

(** The result of [spi_send] is 0 or what the bus reported. *)
Lemma spi_send_result (s : panel_simple) (rx : bool) :
  fst (spi_send E s rx) = 0 \/
  exists t len tx, fst (spi_send E s rx) = fst (spi_sync E t len tx).
Proof.
  unfold spi_send.
  destruct (negb (spi s) || (spi_bits s =? 0)); [now left |].
  right. cbv zeta. exists (log s), (xfer_len s), (xfer_tx s).
  destruct (spi_sync E _ _ _) as [ret rxd]. reflexivity.
Qed.

Lemma spi_send_spi_bits (s : panel_simple) (rx : bool) :
  spi s = true -> spi_bits (snd (spi_send E s rx)) = 0.
Proof.
  intros Hs. unfold spi_send. rewrite Hs. cbn [negb orb].
  destruct (Z.eqb_spec (spi_bits s) 0) as [H0 | H0]; [exact H0 |].
  cbv zeta. destruct (spi_sync E _ _ _) as [ret rxd].
  destruct rx; destruct (ret =? 0); reflexivity.
Qed.

(** All that is shown on a whole run, in one statement. *)
Lemma send_cmd_list_run (s : panel_simple) (mc : cmds) (cb : list Z) :
  0 <= cmds_length mc < 2 ^ 32 ->
  (forall cmd, cmds_ptr mc = Some cmd -> bytes cmd) ->
  exists ret s',
    send_cmd_list E C s mc type cb = Some (ret, s') /\
    keeps type s s' /\
    (ret <= 0 \/
     type = TYPE_SPI /\ exists t len tx, ret = fst (spi_sync E t len tx)) /\
    (type = TYPE_SPI -> spi s = true -> ret = 0 ->
     (cmds_ptr mc = None \/ cmds_length mc = 0) \/ spi_bits s' = 0).
Proof.
  intros HL Hb.
  unfold send_cmd_list, send_cmd_list_fuel.
  destruct (cmds_ptr mc) as [cmd |].
  2:{ exists 0, s. split; [reflexivity |]. split; [apply keeps_refl |].
      split; [left; lia |]. intros _ _ _. left. now left. }
  destruct (Z.eqb_spec (cmds_length mc) 0) as [H0 | H0].
  { exists 0, s. split; [reflexivity |]. split; [apply keeps_refl |].
    split; [left; lia |]. intros _ _ _. left. now right. }
  destruct (loop_total E C (Z.to_nat (cmds_length mc)) type
                       (entry cmd (cmds_length mc) cb) (set_mode_lpm true (set_spi_bits 0 s)))
    as [x Hx]; cbn [entry r_length r_cmd]; try lia.
  { now apply Hb. }
  rewrite Hx.
  assert (Hm0 : match_ok (entry cmd (cmds_length mc) cb))
    by (left; reflexivity).
  pose proof (loop_keeps _ _ _ x Hm0 Hx) as Hk.
  destruct x as [r s1 | ret s1]; cbn [exit_keeps epilogue] in *.
  - destruct Hk as [Hm Hk].
    destruct (Z.eqb_spec (r_match r) 0) as [Hz | Hnz]; cbn [andb].
    + destruct (Z.eqb_spec type TYPE_SPI) as [Ht | Ht].
      * pose proof (spi_send_keeps (set_mode_lpm true (set_spi_bits 0 s)) s1 false
                      ltac:(now apply Z.eqb_eq) Hk) as Hk2.
        pose proof (spi_send_result s1 false) as Hr.
        pose proof (spi_send_spi_bits s1 false) as Hbits.
        destruct (spi_send E s1 false) as [ret s2]. cbn [fst snd] in *.
        exists ret, s2. split; [reflexivity |]. split; [exact Hk2 |].
        split.
        -- destruct Hr as [-> | Hr]; [left; lia | right; now split].
        -- intros _ Hspi _. right. apply Hbits.
           destruct Hk as [(Hc & _) _]. cbn [spi set_spi_bits set_mode_lpm] in Hc.
           congruence.
      * exists (r_match r), s1. split; [reflexivity |].
        split; [exact Hk |]. split; [left; lia |].
        intros Hc. contradiction.
    + exists (r_match r), s1. split; [reflexivity |].
      split; [exact Hk |]. split.
      * left. destruct Hm as [-> | ->]; [lia | unfold EINVAL; lia].
      * intros _ _ Hz. contradiction.
  - destruct Hk as [Hneg Hk].
    exists ret, s1. split; [reflexivity |]. split; [exact Hk |].
    split; [left; lia |]. intros _ _ Hz. lia.
Qed.

End Keeps.

(** X5: [send_cmd_list] always returns, and never a positive value.  For any
    stream of bytes, any opcode table and any answers of the buses the loop
    ends within [length] passes; the value returned is 0, [-EINVAL] or the
    negative status of a transport call (for the serial bus possibly the
    status of the last flush, which is not positive when [spi_sync] never
    reports a positive value). *)
Theorem send_cmd_list_returns (E : bus) (C : opcodes) (s : panel_simple)
        (mc : cmds) (type : Z) (cmd_buf : list Z) :
  0 <= cmds_length mc < 2 ^ 32 ->
  (forall cmd, cmds_ptr mc = Some cmd -> bytes cmd) ->
  (type = TYPE_SPI -> forall t len tx, fst (spi_sync E t len tx) <= 0) ->
  exists ret s',
    send_cmd_list E C s mc type cmd_buf = Some (ret, s') /\ ret <= 0.
Proof.
  intros HL Hb Hbus.
  destruct (send_cmd_list_run E C type s mc cmd_buf HL Hb)
    as (ret & s' & Hrun & _ & Hret & _).
  exists ret, s'. split; [exact Hrun |].
  destruct Hret as [Hle | [Ht (t & len & tx & ->)]]; [exact Hle |].
  now apply Hbus.
Qed.

Lemma send_cmd_list_returns_witness :
  exists ret s',
    send_cmd_list quiet_bus sample_codes panel0
                  {| cmds_ptr := Some [0x02; 0x11; 0x22; 0x60; 0x05; 0xff];
                     cmds_length := 6 |}
                  TYPE_SPI (replicate 32 0)
    = Some (ret, s') /\ ret <= 0.
Proof.
  apply (send_cmd_list_returns quiet_bus sample_codes panel0).
  - cbn. lia.
  - intros cmd Hc. injection Hc as <-. repeat constructor; lia.
  - intros _ t len tx. cbn. lia.
Defined.

(** X6: a command list talks to its own bus only, and leaves the description
    of the hardware alone.  Whatever the stream, every event a run of
    [send_cmd_list] adds to the trace is a sleep, a message or a call on the
    bus of the list's type (no two-wire or serial transfer from a list of the
    command interface, and so on); earlier events stay, and the fields
    [spi], [i2c_address], [spi_9bit], [lanes] and [dt_mode] are not
    changed. *)
Theorem send_cmd_list_own_bus (E : bus) (C : opcodes) (s : panel_simple)
        (mc : cmds) (type : Z) (cmd_buf : list Z) :
  0 <= cmds_length mc < 2 ^ 32 ->
  (forall cmd, cmds_ptr mc = Some cmd -> bytes cmd) ->
  exists ret s' d,
    send_cmd_list E C s mc type cmd_buf = Some (ret, s') /\
    log s' = d ++ log s /\
    Forall (fun e => on_bus type e = true) d /\
    spi s' = spi s /\ i2c_address s' = i2c_address s /\
    spi_9bit s' = spi_9bit s /\ lanes s' = lanes s /\ dt_mode s' = dt_mode s.
Proof.
  intros HL Hb.
  destruct (send_cmd_list_run E C type s mc cmd_buf HL Hb)
    as (ret & s' & Hrun & [Hc (d & Hd & Hall)] & _).
  exists ret, s', d. split; [exact Hrun |]. split; [exact Hd |].
  split; [exact Hall | exact Hc].
Qed.

Lemma send_cmd_list_own_bus_witness :
  exists ret s' d,
    send_cmd_list flaky_i2c_bus sample_codes panel0
                  {| cmds_ptr := Some [0x02; 0x11; 0x22; 0x60; 0x05; 0xff];
                     cmds_length := 6 |}
                  TYPE_I2C (replicate 32 0)
    = Some (ret, s') /\
    log s' = d ++ log panel0 /\
    Forall (fun e => on_bus TYPE_I2C e = true) d /\
    spi s' = spi panel0 /\ i2c_address s' = i2c_address panel0 /\
    spi_9bit s' = spi_9bit panel0 /\ lanes s' = lanes panel0 /\
    dt_mode s' = dt_mode panel0.
Proof.
  apply (send_cmd_list_own_bus flaky_i2c_bus sample_codes panel0).
  - cbn. lia.
  - intros cmd Hc. injection Hc as <-. repeat constructor; lia.
Defined.



(** ** Lane gates and the skip flag *)

Section Gates.

Variable E : bus.
Variable C : opcodes.

Lemma dispatch_falls_or_breaks (type b : Z) (r : regs) (s : panel_simple) :
  match dispatch E C type b r s with
  | Continue _ _ | Return _ _ => False
  | _ => True
  end.
Proof.
  unfold dispatch. cbv zeta.
  destruct (is_write C _).
  { unfold do_write.
    destruct (_ =? S_DCS_LENGTH C); [| destruct (_ =? S_DCS_BUF C)];
      (match goal with |- context [?a <? ?b] => destruct (a <? b) end;
       [exact I |]);
      (destruct (r_skip _); [exact I |]);
      match goal with
      | |- context [let '(_, _) := ?e in _] => destruct e
      end; exact I. }
  destruct (_ =? S_MRPS C).
  { unfold do_mrps. cbv zeta. destruct (type =? TYPE_MIPI); exact I. }
  destruct (is_read C _).
  { unfold do_read. cbv zeta. destruct (r_skip r); [exact I |].
    destruct (fetch E type _ _ _ _ s) as [[ret data] s1]. exact I. }
  destruct (_ =? S_DELAY C).
  { unfold do_delay. cbv zeta. destruct (_ <=? _); exact I. }
  destruct (is_patch C _).
  { unfold do_patch. cbv zeta. destruct (_ =? S_CONST C); [exact I |].
    destruct (computed_field C _ _) as [val known]. exact I. }
  exact I.
Qed.

End Gates.

(** X8: lane gates add up.  A run of lane gates in front of an instruction
    costs one pass each, touches neither the panel nor the trace, and leaves
    the skip flag set as soon as one of them asks for another number of
    lanes than [dsi->lanes]: a gate that matches never clears a flag that an
    earlier gate has set. *)
Theorem lane_gates_accumulate (E : bus) (C : opcodes) (type : Z)
        (gs rest : list Z) (L : Z) (cb : list Z) (sk : bool) (m : Z)
        (s : panel_simple) (fuel : nat) :
  Forall (fun b => is_lane_gate C b = true) gs ->
  Z.of_nat (length gs) + 1 <= L < 2 ^ 32 ->
  loop E C (length gs + fuel) type
       {| r_cmd := gs ++ rest; r_length := L; r_cmd_buf := cb;
          r_skip := sk; r_match := m |} s
  = loop E C fuel type
         {| r_cmd := rest; r_length := L - Z.of_nat (length gs);
            r_cmd_buf := cb;
            r_skip := sk || negb (gates_match C (lanes s) gs);
            r_match := m |} s.
Proof.
  revert L sk. induction gs as [| b gs IH]; intros L sk Hg HL.
  - cbn [length app Nat.add gates_match forallb negb].
    rewrite orb_false_r. do 2 f_equal. cbn. lia.
  - apply Forall_cons in Hg. destruct Hg as [Hb Hg].
    cbn [length app Nat.add] in *. rewrite loop_step.
    rewrite body_lane_gate by (try assumption; lia).
    rewrite IH by (try assumption; lia).
    f_equal. f_equal; [lia |].
    cbn [gates_match forallb].
    destruct (1 + b - S_IF_1_LANE C =? lanes s); cbn [andb negb].
    + reflexivity.
    + now rewrite orb_true_r.
Qed.

Lemma lane_gates_accumulate_witness :
  loop quiet_bus sample_codes (length [0x7d; 0x7f] + 2) TYPE_MIPI
       {| r_cmd := [0x7d; 0x7f] ++ [0x01; 0x29; 0xff]; r_length := 5;
          r_cmd_buf := replicate 32 0; r_skip := false; r_match := 0 |}
       panel0
  = loop quiet_bus sample_codes 2 TYPE_MIPI
         {| r_cmd := [0x01; 0x29; 0xff];
            r_length := 5 - Z.of_nat (length [0x7d; 0x7f]);
            r_cmd_buf := replicate 32 0;
            r_skip := false
                      || negb (gates_match sample_codes (lanes panel0)
                                           [0x7d; 0x7f]);
            r_match := 0 |}
         panel0.
Proof.
  apply (lane_gates_accumulate quiet_bus sample_codes TYPE_MIPI
                               [0x7d; 0x7f] [0x01; 0x29; 0xff]).
  - repeat constructor.
  - cbn. lia.
Defined.

(** X9: the skip flag covers one instruction.  Whatever the instruction
    after the gates is, if the pass that handles it goes on with the loop,
    the skip flag is clear for the next pass. *)
Theorem skip_covers_one_instruction (E : bus) (C : opcodes) (type : Z)
        (r r' : regs) (s s' : panel_simple) :
  is_lane_gate C (byte_at (r_cmd r) 0) = false ->
  body E C type r s = Continue r' s' ->
  r_skip r' = false.
Proof.
  intros Hg. unfold body. cbv zeta. rewrite Hg.
  destruct (_ =? 0); [discriminate |].
  pose proof (dispatch_falls_or_breaks E C type (byte_at (r_cmd r) 0)
                                       (advance 1 r) s) as Hd.
  destruct (dispatch E C type _ _ s) as [r1 len ret s1 | | |];
    try discriminate; try contradiction.
  unfold finish.
  destruct (ret <? 0); [discriminate |].
  destruct (_ <? _); [discriminate |].
  cbv zeta. destruct (_ =? 0); [discriminate |].
  intros H. injection H as <- _. reflexivity.
Qed.

Lemma skip_covers_one_instruction_witness :
  body quiet_bus sample_codes TYPE_MIPI
       {| r_cmd := [0x01; 0x29; 0x05; 0xff]; r_length := 4;
          r_cmd_buf := replicate 32 0; r_skip := true; r_match := 0 |}
       panel0
  = Continue {| r_cmd := [0x05; 0xff]; r_length := 2;
                r_cmd_buf := replicate 32 0; r_skip := false;
                r_match := 0 |} panel0 /\
  r_skip {| r_cmd := [0x05; 0xff]; r_length := 2;
            r_cmd_buf := replicate 32 0; r_skip := false; r_match := 0 |}
  = false.
Proof.
  split; [reflexivity |].
  apply (skip_covers_one_instruction
           quiet_bus sample_codes TYPE_MIPI
           {| r_cmd := [0x01; 0x29; 0x05; 0xff]; r_length := 4;
              r_cmd_buf := replicate 32 0; r_skip := true; r_match := 0 |}
           _ panel0 panel0).
  - reflexivity.
  - reflexivity.
Defined.

Lemma finish_zero_panel (r : regs) (len : Z) (msgs : list string)
      (s : panel_simple) :
  exists msgs', flow_panel (finish r len 0 (complain msgs s)) = complain msgs' s.
Proof.
  unfold finish. change (0 <? 0) with false. cbv iota.
  destruct (_ <? _);
    [exists ("Unexpected end of data"%string :: msgs); reflexivity |].
  cbv zeta. destruct (_ =? 0); exists msgs; reflexivity.
Qed.

(** X10: a skipped instruction leaves the panel alone.  With the skip flag
    set, a pass changes nothing in the panel but the trace (no buffer or bit
    count is written), and all it adds to the trace are [dev_err] messages:
    no transfer and no sleep, whatever the instruction.  The one exception
    is [S_MRPS] on the command interface, which is sent all the same. *)
Theorem skipped_pass_keeps_panel (E : bus) (C : opcodes) (type : Z)
        (r : regs) (s : panel_simple) :
  r_skip r = true ->
  (classify C (byte_at (r_cmd r) 0) = KMrps -> type <> TYPE_MIPI) ->
  exists msgs, flow_panel (body E C type r s) = complain msgs s.
Proof.
  intros Hskip Hm. unfold body.
  change (r_skip r) with (r_skip (advance 1 r)) in Hskip.
  set (b := byte_at (r_cmd r) 0) in *.
  set (r1 := advance 1 r) in *.
  destruct (r_length r1 =? 0); [exists []; reflexivity |].
  unfold classify in Hm.
  destruct (is_lane_gate C b).
  { destruct (_ =? lanes s); exists []; reflexivity. }
  cbv zeta in Hm. unfold dispatch.
  destruct (is_write C (Z.land b 127)).
  { unfold do_write.
    destruct (_ =? S_DCS_LENGTH C); [| destruct (_ =? S_DCS_BUF C)];
      (match goal with |- context [?a <? ?b] => destruct (a <? b) end;
       [exists ["Unexpected end of data"%string]; reflexivity |]);
      cbn [r_skip advance] in *; rewrite Hskip;
      apply (finish_zero_panel _ _ []). }
  destruct (Z.land b 127 =? S_MRPS C).
  { unfold do_mrps.
    destruct (Z.eqb_spec type TYPE_MIPI) as [-> | _];
      [exfalso; now apply Hm |].
    apply (finish_zero_panel _ _ []). }
  destruct (is_read C (Z.land b 127)).
  { unfold do_read. rewrite Hskip. apply (finish_zero_panel _ _ []). }
  destruct (Z.land b 127 =? S_DELAY C).
  { unfold do_delay. rewrite Hskip.
    destruct (r_length r1 <=? 1); [exists []; reflexivity |].
    apply (finish_zero_panel _ _ []). }
  destruct (is_patch C (Z.land b 127)).
  { unfold do_patch.
    destruct (_ =? S_CONST C); [apply (finish_zero_panel _ _ []) |].
    destruct (computed_field C _ _) as [val [|]];
      [apply (finish_zero_panel _ _ []) |].
    apply (finish_zero_panel _ _ ["Unknown scmd"%string]). }
  exists ["Unknown DCS command"%string]. reflexivity.
Qed.

Lemma skipped_pass_keeps_panel_witness :
  exists msgs,
    flow_panel
      (body flaky_i2c_bus sample_codes TYPE_I2C
            {| r_cmd := [0x02; 0x11; 0x22; 0x60; 0x05; 0xff]; r_length := 6;
               r_cmd_buf := replicate 32 0; r_skip := true; r_match := 0 |}
            panel0)
    = complain msgs panel0.
Proof.
  apply (skipped_pass_keeps_panel flaky_i2c_bus sample_codes TYPE_I2C).
  - reflexivity.
  - intros H. vm_compute in H. discriminate H.
Defined.

(** ** Writes on the serial bus without the ninth bit *)

Lemma bytes_at_length (p : list Z) (n : nat) : length (bytes_at p n) = n.
Proof. unfold bytes_at. now rewrite length_map, length_seq. Qed.

Lemma take_memcpy (dst src : list Z) :
  (length src <= length dst)%nat -> take (length src) (memcpy dst src) = src.
Proof.
  intros H. unfold memcpy. rewrite memcpy_at_spec by (simpl; lia).
  rewrite take_0. cbn [app Nat.add]. now rewrite take_app_length.
Qed.

Lemma xfer_len_bytes (s : panel_simple) (n : Z) :
  0 <= n < 2 ^ 28 -> spi_bits s = 8 * n -> xfer_len s = n.
Proof.
  intros Hn Hb. unfold xfer_len. rewrite Hb, u32_small by lia.
  rewrite shiftr3. symmetry. apply (Z.div_unique_pos _ _ n 7); lia.
Qed.

(** X11: a plain write on a serial bus without the ninth bit is one transfer
    of the payload.  For a write of [len] bytes that the stream holds, not
    skipped: with [0 < len < 63] the bytes go out at once, in one
    half-duplex transfer of exactly these bytes, and the status of the
    transfer is the result; with [len = 0] nothing is transferred; with
    [len >= 63] nothing is transferred and the result is [-EINVAL]. *)
Theorem spi_8bit_write (E : bus) (C : opcodes) (b : Z) (r : regs)
        (s : panel_simple) :
  classify C b = KWrite -> r_skip r = false ->
  spi s = true -> spi_9bit s = 0 -> length (tx_buf s) = 63%nat ->
  Z.land b 127 <= r_length r ->
  let len := Z.land b 127 in
  let payload := bytes_at (r_cmd r) (Z.to_nat len) in
  let ret := fst (spi_sync E (log s) len payload) in
  (0 < len < 63 ->
   exists s',
     dispatch E C TYPE_SPI b r s = Fall r len ret s' /\
     log s' = (if ret =? 0 then [] else [EvDevErr "spi"])
                ++ EvSpiSync len payload false :: log s /\
     spi_bits s' = 0) /\
  (len = 0 ->
   exists s',
     dispatch E C TYPE_SPI b r s = Fall r 0 0 s' /\ log s' = log s) /\
  (63 <= len -> dispatch E C TYPE_SPI b r s = Fall r len (- EINVAL) s).
Proof.
  intros Hk Hskip Hspi H9 Hlen Hfit. cbv zeta.
  rewrite (dispatch_write E C TYPE_SPI b r s Hk). cbv zeta.
  pose proof (land127_nonneg b) as Hn.
  set (len := Z.land b 127) in *.
  destruct (Z.ltb_spec (r_length r) len); [lia |].
  rewrite Hskip, H9.
  change (TYPE_SPI =? TYPE_I2C) with false.
  change (TYPE_SPI =? TYPE_SPI) with true.
  change (negb (0 =? 0)) with false. cbv iota.
  change TX_BUF_SIZE with 63.
  set (payload := bytes_at (r_cmd r) (Z.to_nat len)).
  assert (Hpl : length payload = Z.to_nat len) by apply bytes_at_length.
  set (s2 := set_spi_bits (u32 (len * 8))
                          (set_tx_buf (memcpy (tx_buf s) payload) s)).
  split; [| split].
  - intros Hr. destruct (Z.ltb_spec len 63); [| lia].
    assert (Hbits : spi_bits s2 = 8 * len).
    { subst s2. cbn [spi_bits set_spi_bits]. rewrite u32_small; lia. }
    assert (Hx : xfer_len s2 = len) by (apply xfer_len_bytes; lia).
    assert (Htx : xfer_tx s2 = payload).
    { unfold xfer_tx. rewrite Hx. subst s2. cbn [tx_buf set_spi_bits set_tx_buf].
      rewrite <- Hpl. apply take_memcpy. lia. }
    pose proof (spi_send_live E s2 Hspi ltac:(lia)) as Hlive.
    cbv zeta in Hlive. rewrite Hx, Htx in Hlive.
    change (log s2) with (log s) in Hlive.
    rewrite Hlive.
    eexists. split; [reflexivity |].
    destruct (_ =? 0); split; reflexivity.
  - intros Hz. rewrite Hz. change (0 <? 63) with true. cbv iota.
    rewrite spi_send_idle.
    + eexists. split; [reflexivity |]. reflexivity.
    + right. subst s2. cbn [spi_bits set_spi_bits]. rewrite Hz. reflexivity.
  - intros Hbig. destruct (Z.ltb_spec len 63); [lia |]. reflexivity.
Qed.

Lemma spi_8bit_write_witness :
  (exists s',
     dispatch quiet_bus sample_codes TYPE_SPI 0x02
              {| r_cmd := [0x11; 0x22; 0xff]; r_length := 3;
                 r_cmd_buf := replicate 32 0; r_skip := false; r_match := 0 |}
              {| spi := true; i2c_address := 0x2c; spi_9bit := 0;
                 spi_bits := 0; tx_buf := replicate 63 0;
                 rx_buf := replicate 63 0; lanes := 4; mode_lpm := false; dt_mode := mode0;
                 log := [] |}
     = Fall {| r_cmd := [0x11; 0x22; 0xff]; r_length := 3;
               r_cmd_buf := replicate 32 0; r_skip := false; r_match := 0 |}
            (Z.land 0x02 127) 0 s' /\
     log s' = [EvSpiSync 2 [0x11; 0x22] false] /\
     spi_bits s' = 0).
Proof.
  refine (proj1 (spi_8bit_write
                   quiet_bus sample_codes 0x02
                   {| r_cmd := [0x11; 0x22; 0xff]; r_length := 3;
                      r_cmd_buf := replicate 32 0; r_skip := false;
                      r_match := 0 |}
                   {| spi := true; i2c_address := 0x2c; spi_9bit := 0;
                      spi_bits := 0; tx_buf := replicate 63 0;
                      rx_buf := replicate 63 0; lanes := 4; mode_lpm := false; dt_mode := mode0;
                      log := [] |} _ _ _ _ _ _) _).
  - reflexivity.
  - reflexivity.
  - reflexivity.
  - reflexivity.
  - reflexivity.
  - vm_compute. discriminate.
  - vm_compute. split; reflexivity.
Defined.

(** ** Writes from the staging buffer, delays, short streams *)

Ltac classify_cases H :=
  unfold classify in H; cbv zeta in H;
  repeat match type of H with
         | context [if ?c then _ else _] =>
             let e := fresh "Ht" in destruct c eqn:e
         end;
  try discriminate H.

Lemma dispatch_dcs_buf (E : bus) (C : opcodes) (type b : Z) (r : regs)
      (s : panel_simple) :
  classify C b = KWriteBuf -> r_skip r = false ->
  (type =? TYPE_I2C) = false -> (type =? TYPE_SPI) = false ->
  let n := byte_at (r_cmd r) 0 in
  let payload := bytes_at (r_cmd_buf r) (Z.to_nat (Z.min n 32)) in
  dispatch E C type b r s
  = if negb (Z.land b 128 =? 0)
    then Fall (advance 1 r) 0 (mipi_dsi_generic_write E (log s) payload)
              (emit (EvGenericWrite payload) s)
    else Fall (advance 1 r) 0 (mipi_dsi_dcs_write_buffer E (log s) payload)
              (emit (EvDcsWriteBuffer payload) s).
Proof.
  intros Hk Hskip Hi Hs. cbv zeta. classify_cases Hk.
  unfold dispatch, do_write. cbv zeta. rewrite Ht0, Ht1, Ht2.
  cbn [r_skip r_cmd_buf advance]. rewrite Hskip, Hi, Hs.
  destruct (Z.ltb_spec (r_length (advance 1 r)) 0) as [Hneg | _].
  { pose proof (u32_nonneg (r_length r - 1)). unfold advance in Hneg.
    cbn [r_length] in Hneg. lia. }
  replace (if 32 <? byte_at (r_cmd r) 0 then 32 else byte_at (r_cmd r) 0)
    with (Z.min (byte_at (r_cmd r) 0) 32)
    by (destruct (Z.ltb_spec 32 (byte_at (r_cmd r) 0)); lia).
  destruct (negb (Z.land b 128 =? 0)); reflexivity.
Qed.

(** X12: [S_DCS_BUF] sends the staging buffer, 32 bytes at most.  On the
    command interface the instruction takes one operand byte [n] from the
    stream and writes the first [min n 32] bytes of [cmd_buf] (a generic
    write when bit 7 of the opcode is set, a DCS write otherwise); nothing
    else of the stream is consumed by the write itself. *)
Theorem dcs_buf_sends_staged (E : bus) (C : opcodes) (type b : Z) (r : regs)
        (s : panel_simple) :
  classify C b = KWriteBuf -> r_skip r = false ->
  (type =? TYPE_I2C) = false -> (type =? TYPE_SPI) = false ->
  let n := byte_at (r_cmd r) 0 in
  let payload := bytes_at (r_cmd_buf r) (Z.to_nat (Z.min n 32)) in
  dispatch E C type b r s
  = if negb (Z.land b 128 =? 0)
    then Fall (advance 1 r) 0 (mipi_dsi_generic_write E (log s) payload)
              (emit (EvGenericWrite payload) s)
    else Fall (advance 1 r) 0 (mipi_dsi_dcs_write_buffer E (log s) payload)
              (emit (EvDcsWriteBuffer payload) s).
Proof. apply dispatch_dcs_buf. Qed.

Lemma dcs_buf_sends_staged_witness :
  dispatch quiet_bus sample_codes TYPE_MIPI 0x62
           {| r_cmd := [40; 0xff]; r_length := 2;
              r_cmd_buf := replicate 32 0x5a; r_skip := false; r_match := 0 |}
           panel0
  = Fall {| r_cmd := [0xff]; r_length := 1;
            r_cmd_buf := replicate 32 0x5a; r_skip := false; r_match := 0 |}
         0 0 (emit (EvDcsWriteBuffer (replicate 32 0x5a)) panel0).
Proof.
  exact (dcs_buf_sends_staged
           quiet_bus sample_codes TYPE_MIPI 0x62
           {| r_cmd := [40; 0xff]; r_length := 2;
              r_cmd_buf := replicate 32 0x5a; r_skip := false; r_match := 0 |}
           panel0 eq_refl eq_refl eq_refl eq_refl).
Defined.

(** X13: streams too short to hold an instruction send nothing and
    succeed.  Without a stream ([cmds] null) or with [length] 0 the panel is
    not touched at all; with [length] 1 the single byte is read as an opcode
    and dropped, whatever it is (a code no branch knows as well): the result
    is 0, no event is logged, and of the panel only [spi_bits] is cleared
    and the low-power flag of the DSI device set, as on every call that has
    a stream. *)
Theorem short_streams_do_nothing (E : bus) (C : opcodes) (s : panel_simple)
        (type : Z) (cmd_buf : list Z) :
  (forall len,
     send_cmd_list E C s {| cmds_ptr := None; cmds_length := len |}
                   type cmd_buf = Some (0, s)) /\
  (forall p,
     send_cmd_list E C s {| cmds_ptr := p; cmds_length := 0 |}
                   type cmd_buf = Some (0, s)) /\
  (forall cmd,
     send_cmd_list E C s {| cmds_ptr := Some cmd; cmds_length := 1 |}
                   type cmd_buf = Some (0, set_mode_lpm true (set_spi_bits 0 s))).
Proof.
  split; [| split].
  - intros len. reflexivity.
  - intros p. unfold send_cmd_list, send_cmd_list_fuel.
    cbn [cmds_ptr cmds_length]. destruct p; reflexivity.
  - intros cmd. rewrite send_cmd_list_unfold by lia.
    change (Z.to_nat 1) with 1%nat. rewrite loop_step.
    unfold body, entry, advance. cbn [r_cmd r_length r_cmd_buf r_skip r_match].
    change (u32 (1 - 1) =? 0) with true. cbv iota.
    cbn [epilogue r_match]. change (0 =? 0) with true. cbn [andb].
    destruct (type =? TYPE_SPI); [| reflexivity].
    rewrite spi_send_idle; [reflexivity |]. right. reflexivity.
Qed.

(** X14: the two-wire transport refuses what does not fit its buffer and
    never reports a positive value.  A write of more than 63 bytes, a read
    whose request has more than 63 bytes or that asks for more than 63 bytes
    gives [-EINVAL] with no transfer and the panel as it was; in every case
    the result is 0 or negative, whatever the adapter reports. *)
Theorem two_wire_bounds (E : bus) (s : panel_simple) (tx rx : list Z)
        (rx_len : Z) :
  Z.of_nat (length tx) < 2 ^ 32 ->
  (63 < Z.of_nat (length tx) ->
   simple_i2c_write E s tx = (- EINVAL, s) /\
   simple_i2c_read E s tx rx rx_len = (- EINVAL, rx, s)) /\
  (63 < rx_len -> simple_i2c_read E s tx rx rx_len = (- EINVAL, rx, s)) /\
  fst (simple_i2c_write E s tx) <= 0 /\
  fst (fst (simple_i2c_read E s tx rx rx_len)) <= 0.
Proof.
  intros Hlen.
  unfold simple_i2c_write, simple_i2c_read. cbv zeta.
  rewrite u32_small by lia. change TX_BUF_SIZE with 63.
  split; [| split; [| split]].
  - intros Hbig. destruct (Z.ltb_spec 63 (Z.of_nat (length tx))); [| lia].
    split; reflexivity.
  - intros Hbig. destruct (63 <? Z.of_nat (length tx)); [reflexivity |].
    destruct (Z.ltb_spec 63 rx_len); [reflexivity | lia].
  - destruct (63 <? Z.of_nat (length tx)); [cbn; unfold EINVAL; lia |].
    destruct (fst (i2c_transfer E _ _) <? 0); cbn [fst];
      match goal with
      | |- (if ?a <? 0 then _ else _) <= 0 =>
          destruct (Z.ltb_spec a 0); lia
      end.
  - destruct (63 <? Z.of_nat (length tx)); [cbn; unfold EINVAL; lia |].
    destruct (63 <? rx_len); [cbn; unfold EINVAL; lia |].
    destruct (i2c_transfer E _ _) as [ret rxd]. cbn [fst].
    destruct (Z.ltb_spec ret 0); lia.
Qed.

Lemma two_wire_bounds_witness :
  (simple_i2c_write flaky_i2c_bus panel0 (replicate 64 0x11)
   = (- EINVAL, panel0) /\
   simple_i2c_read flaky_i2c_bus panel0 (replicate 64 0x11)
                   (replicate 8 0) 1
   = (- EINVAL, replicate 8 0, panel0)) /\
  fst (simple_i2c_write flaky_i2c_bus panel0 (replicate 64 0x11)) <= 0.
Proof.
  destruct (two_wire_bounds flaky_i2c_bus panel0 (replicate 64 0x11)
                            (replicate 8 0) 1)
    as (Hlong & _ & Hw & _).
  - vm_compute. reflexivity.
  - split; [| exact Hw]. apply Hlong. vm_compute. reflexivity.
Defined.

(** X15: a delay on the serial bus first sends what is pending.  When a
    delay that is not skipped meets pending bits, they are transferred
    before the sleep; the status of that transfer is not looked at, so the
    instruction never fails, and the sleep lasts the number of milliseconds
    of its operand byte. *)
Theorem delay_flushes_first (E : bus) (C : opcodes) (b : Z) (r : regs)
        (s : panel_simple) :
  classify C b = KDelay -> r_skip r = false ->
  spi s = true -> spi_bits s <> 0 -> 1 < r_length r ->
  let st := fst (spi_sync E (log s) (xfer_len s) (xfer_tx s)) in
  exists s',
    dispatch E C TYPE_SPI b r s = Fall (advance 1 r) 0 0 s' /\
    log s' = EvMsleep (byte_at (r_cmd r) 0)
               :: (if st =? 0 then [] else [EvDevErr "spi"])
               ++ EvSpiSync (xfer_len s) (xfer_tx s) false :: log s /\
    spi_bits s' = 0 /\ tx_buf s' = tx_buf s.
Proof.
  intros Hk Hskip Hspi Hbits HL. cbv zeta.
  rewrite (dispatch_delay E C TYPE_SPI b r s Hk).
  unfold do_delay. cbv zeta. rewrite Hskip.
  change (TYPE_SPI =? TYPE_SPI) with true. cbv iota.
  destruct (Z.leb_spec (r_length r) 1); [lia |].
  pose proof (spi_send_live E s Hspi Hbits) as Hlive. cbv zeta in Hlive.
  rewrite Hlive. cbn [snd].
  eexists. split; [reflexivity |].
  destruct (_ =? 0); repeat split; reflexivity.
Qed.

Lemma delay_flushes_first_witness :
  exists s',
    dispatch quiet_bus sample_codes TYPE_SPI 0x60
             {| r_cmd := [0x05; 0xff]; r_length := 2;
                r_cmd_buf := replicate 32 0; r_skip := false; r_match := 0 |}
             (snd (store_9bit quiet_bus panel0 [0x29]))
    = Fall (advance 1 {| r_cmd := [0x05; 0xff]; r_length := 2;
                         r_cmd_buf := replicate 32 0; r_skip := false;
                         r_match := 0 |}) 0 0 s' /\
    log s' = [EvMsleep 5; EvSpiSync 2 [0x14; 0x80] false] /\
    spi_bits s' = 0 /\
    tx_buf s' = tx_buf (snd (store_9bit quiet_bus panel0 [0x29])).
Proof.
  apply (delay_flushes_first
           quiet_bus sample_codes 0x60
           {| r_cmd := [0x05; 0xff]; r_length := 2;
              r_cmd_buf := replicate 32 0; r_skip := false; r_match := 0 |}
           (snd (store_9bit quiet_bus panel0 [0x29]))).
  - reflexivity.
  - reflexivity.
  - reflexivity.
  - vm_compute. discriminate.
  - vm_compute. reflexivity.
Defined.

(** ** Reads on the serial bus *)

Lemma bytes_at_bytes (p : list Z) (n : nat) : bytes p -> bytes (bytes_at p n).
Proof.
  intros Hp. unfold bytes_at, bytes. apply Forall_map.
  apply Forall_forall. intros k _. now apply byte_at_range.
Qed.

Lemma spi_send_rx (E : bus) (s : panel_simple) :
  spi s = true -> spi_bits s <> 0 ->
  let ans := spi_sync E (log s) (xfer_len s) (xfer_tx s) in
  spi_send E s true =
  (fst ans,
   let s1 := set_rx_buf
               (memcpy (rx_buf s)
                       (map u8 (take (Z.to_nat (xfer_len s)) (snd ans))))
               (emit (EvSpiSync (xfer_len s) (xfer_tx s) true)
                     (set_spi_bits 0 s)) in
   if fst ans =? 0 then s1 else emit (EvDevErr "spi") s1).
Proof.
  intros Hs Hb. cbv zeta. unfold spi_send. rewrite Hs. cbn [negb orb].
  destruct (Z.eqb_spec (spi_bits s) 0); [contradiction |].
  cbv zeta. destruct (spi_sync E _ _ _) as [ret rxd]. cbn [fst snd].
  destruct (ret =? 0); reflexivity.
Qed.

Lemma store_high_loop_length (fuel : nat) :
  forall buf idx val bits vb,
    length (store_high_loop fuel buf idx val bits vb) = length buf.
Proof.
  induction fuel as [| fuel IH]; intros buf idx val bits vb; [reflexivity |].
  cbn [store_high_loop]. destruct (0 <? bits); [| reflexivity].
  destruct (vb <? 8); rewrite IH; now rewrite length_insert.
Qed.

Lemma store_high_length (s : panel_simple) (bits : Z) :
  length (tx_buf (snd (store_high s bits))) = length (tx_buf s).
Proof.
  unfold store_high. cbv zeta. destruct (_ <? _); [reflexivity |].
  destruct (if Z.land _ 7 =? 0 then _ else _) as [bb vv].
  cbn [snd tx_buf set_tx_buf set_spi_bits]. apply store_high_loop_length.
Qed.

Lemma xfer_len_bits (s : panel_simple) :
  0 <= spi_bits s < 2 ^ 31 -> xfer_len s = (spi_bits s + 7) / 8.
Proof.
  intros H. unfold xfer_len. rewrite u32_small by lia. apply shiftr3.
Qed.

(** X16: a read on the 9-bit serial bus is one full-duplex transfer.  What
    is pending is sent first.  Then the [match_index] command bytes are
    framed with nine bits each from bit 0 of the buffer, [8 len] one-bits
    follow, and one transfer of [(9 match_index + 8 len + 7) / 8] bytes
    carries them while the answer is clocked into [rx_buf]; its status is
    the result, and the data are the [len] bytes found in the answer from
    bit [9 match_index] on. *)
Theorem spi_9bit_read (E : bus) (generic len match_index : Z)
        (cmd : list Z) (s : panel_simple) :
  spi s = true -> spi_9bit s <> 0 -> length (tx_buf s) = 63%nat ->
  bytes cmd -> 1 <= match_index -> 0 <= len ->
  9 * match_index + 8 * len <= 504 ->
  let s1 := snd (spi_send E s false) in
  let B := bytes_at cmd (Z.to_nat match_index) in
  let L := (9 * match_index + 8 * len + 7) / 8 in
  exists tx s',
    fetch E TYPE_SPI generic len match_index cmd s
    = (fst (spi_sync E (log s1) L tx),
       memcpy (replicate 8 0)
              (extract_data (Z.to_nat len) (rx_buf s') (9 * match_index)),
       s') /\
    log s' = (if fst (spi_sync E (log s1) L tx) =? 0
              then [] else [EvDevErr "spi"])
               ++ EvSpiSync L tx true :: log s1 /\
    rx_buf s' = memcpy (rx_buf s)
                       (map u8 (take (Z.to_nat L)
                                     (snd (spi_sync E (log s1) L tx)))) /\
    spi_bits s' = 0 /\
    length tx = Z.to_nat L /\
    (forall j, 0 <= j < 9 * match_index -> stream_bit tx j = frame_bit B j) /\
    (forall j, 9 * match_index <= j < 9 * match_index + 8 * len ->
               stream_bit tx j = true).
Proof.
  intros Hspi H9 Hlen Hcmd Hmi Hn Hcap. cbv zeta.
  set (B := bytes_at cmd (Z.to_nat match_index)).
  assert (HB : bytes B) by now apply bytes_at_bytes.
  assert (HlB : Z.of_nat (length B) = match_index).
  { subst B. rewrite bytes_at_length. lia. }
  unfold fetch. cbv zeta.
  change (TYPE_SPI =? TYPE_I2C) with false.
  change (TYPE_SPI =? TYPE_SPI) with true. cbv iota.
  destruct (Z.eqb_spec (spi_9bit s) 0) as [| _]; [contradiction |].
  cbn [negb]. fold B.
  (* the flush of what is pending *)
  pose proof (spi_send_fields E s) as F1. cbv zeta in F1.
  set (s1 := snd (spi_send E s false)) in *.
  destruct F1 as (Htx1 & Hspi1 & Hrx1 & _ & Hb1 & _).
  specialize (Hb1 Hspi).
  (* the command bytes *)
  rewrite (store_9bit_fits E s1 B) by (rewrite Hb1; lia).
  rewrite Hb1.
  pose proof (store_9bit_at_fields s1 0 (9 * Z.of_nat (length B)) B 0) as F2.
  pose proof (store_9bit_at_length s1 0 (9 * Z.of_nat (length B)) B 0) as F2l.
  pose proof (store_9bit_at_stream s1 0 B 0 ltac:(lia) ltac:(lia)
                ltac:(congruence) HB) as F2s.
  cbv zeta in F2.
  set (s2 := snd (store_9bit_at s1 0 (9 * Z.of_nat (length B)) B 0)) in *.
  destruct F2 as (_ & Hb2 & Hlog2 & Hrx2 & Hspi2).
  rewrite Z.add_0_l, u32_small, HlB in Hb2 by lia.
  (* the one-bits *)
  rewrite s32_small by lia.
  destruct (store_high_stream s2 (len * 8)) as [F3 F3s]; try lia.
  { congruence. }
  set (s3 := snd (store_high s2 (len * 8))) in *.
  assert (Hs3 : s3 = set_tx_buf (tx_buf s3)
                               (set_spi_bits (spi_bits s2 + len * 8) s2)).
  { subst s3. now rewrite F3 at 1. }
  assert (Hb3 : spi_bits s3 = 9 * match_index + 8 * len)
    by (rewrite Hs3; cbn [spi_bits set_tx_buf set_spi_bits]; lia).
  assert (Hspi3 : spi s3 = true)
    by (rewrite Hs3; cbn [spi set_tx_buf set_spi_bits]; congruence).
  assert (Hlog3 : log s3 = log s1)
    by (rewrite Hs3; cbn [log set_tx_buf set_spi_bits]; congruence).
  assert (Hrx3 : rx_buf s3 = rx_buf s)
    by (rewrite Hs3; cbn [rx_buf set_tx_buf set_spi_bits]; congruence).
  (* the transfer *)
  pose proof (spi_send_rx E s3 Hspi3 ltac:(lia)) as F4. cbv zeta in F4.
  assert (Hx : xfer_len s3 = (9 * match_index + 8 * len + 7) / 8)
    by (rewrite xfer_len_bits by lia; now rewrite Hb3).
  rewrite Hx, Hlog3, Hrx3 in F4. rewrite F4, Hb2.
  set (L := (9 * match_index + 8 * len + 7) / 8) in *.
  set (tx := xfer_tx s3) in *.
  assert (HL : 8 * L >= 9 * match_index + 8 * len /\ 0 <= L <= 63).
  { subst L.
    pose proof (Z.div_mod (9 * match_index + 8 * len + 7) 8 ltac:(lia)).
    pose proof (Z.mod_pos_bound (9 * match_index + 8 * len + 7) 8 ltac:(lia)).
    lia. }
  exists tx.
  eexists. split; [reflexivity |].
  assert (Hlast :
    forall j, 0 <= j < 9 * match_index + 8 * len ->
              stream_bit tx j
              = ones_after (tx_buf s2) (9 * match_index) j).
  { intros j Hj. subst tx. unfold xfer_tx. rewrite Hx.
    rewrite stream_bit_take by lia.
    rewrite F3s by lia. now rewrite Hb2. }
  rewrite HlB in F2s.
  repeat split.
  - destruct (_ =? 0);
      cbn [log emit set_rx_buf set_spi_bits app]; now rewrite Hlog3.
  - destruct (_ =? 0); reflexivity.
  - destruct (_ =? 0); reflexivity.
  - subst tx. unfold xfer_tx. rewrite Hx, length_take.
    assert (length (tx_buf s3) = 63%nat); [| lia].
    subst s3. rewrite store_high_length. congruence.
  - intros j Hj. rewrite Hlast by lia. unfold ones_after.
    destruct (Z.ltb_spec j (9 * match_index)); [| lia].
    rewrite F2s by lia. unfold target.
    destruct (Z.ltb_spec j 0); [lia |]. f_equal. lia.
  - intros j Hj. rewrite Hlast by lia. unfold ones_after.
    destruct (Z.ltb_spec j (9 * match_index)); [lia | reflexivity].
Qed.

Lemma spi_9bit_read_witness :
  exists tx s',
    fetch (answer_bus 0x9c) TYPE_SPI 0 1 1 [0x0a; 0x9c] panel0
    = (fst (spi_sync (answer_bus 0x9c)
                     (log (snd (spi_send (answer_bus 0x9c) panel0 false)))
                     ((9 * 1 + 8 * 1 + 7) / 8) tx),
       memcpy (replicate 8 0)
              (extract_data (Z.to_nat 1) (rx_buf s') (9 * 1)),
       s') /\
    log s' = (if fst (spi_sync (answer_bus 0x9c)
                               (log (snd (spi_send (answer_bus 0x9c)
                                                   panel0 false)))
                               ((9 * 1 + 8 * 1 + 7) / 8) tx) =? 0
              then [] else [EvDevErr "spi"])
               ++ EvSpiSync ((9 * 1 + 8 * 1 + 7) / 8) tx true
               :: log (snd (spi_send (answer_bus 0x9c) panel0 false)) /\
    rx_buf s'
    = memcpy (rx_buf panel0)
             (map u8 (take (Z.to_nat ((9 * 1 + 8 * 1 + 7) / 8))
                           (snd (spi_sync
                                   (answer_bus 0x9c)
                                   (log (snd (spi_send (answer_bus 0x9c)
                                                       panel0 false)))
                                   ((9 * 1 + 8 * 1 + 7) / 8) tx)))) /\
    spi_bits s' = 0 /\
    length tx = Z.to_nat ((9 * 1 + 8 * 1 + 7) / 8) /\
    (forall j, 0 <= j < 9 * 1 ->
               stream_bit tx j
               = frame_bit (bytes_at [0x0a; 0x9c] (Z.to_nat 1)) j) /\
    (forall j, 9 * 1 <= j < 9 * 1 + 8 * 1 -> stream_bit tx j = true).
Proof.
  apply (spi_9bit_read (answer_bus 0x9c) 0 1 1 [0x0a; 0x9c] panel0).
  - reflexivity.
  - vm_compute. discriminate.
  - reflexivity.
  - repeat constructor; lia.
  - lia.
  - lia.
  - lia.
Defined.

(** ** Reads on the serial bus without the ninth bit *)

Lemma memcpy_bytes (dst src : list Z) :
  (length src <= length dst)%nat -> bytes dst -> bytes src ->
  bytes (memcpy dst src).
Proof.
  intros Hl Hd Hs. unfold memcpy, bytes.
  rewrite memcpy_at_spec by (simpl; lia). rewrite take_0. cbn [app].
  apply Forall_app. split; [exact Hs | now apply Forall_drop].
Qed.

Lemma store_high_loop_bytes (fuel : nat) :
  forall buf idx val bits vb,
    bytes buf -> bytes (store_high_loop fuel buf idx val bits vb).
Proof.
  induction fuel as [| fuel IH]; intros buf idx val bits vb Hb; [exact Hb |].
  cbn [store_high_loop]. destruct (0 <? bits); [| exact Hb].
  destruct (vb <? 8); apply IH; apply Forall_insert; try assumption;
    apply u8_range.
Qed.

Lemma store_high_bytes (s : panel_simple) (bits : Z) :
  bytes (tx_buf s) -> bytes (tx_buf (snd (store_high s bits))).
Proof.
  intros Hb. unfold store_high. cbv zeta. destruct (_ <? _); [exact Hb |].
  destruct (if Z.land _ 7 =? 0 then _ else _) as [bb vv].
  cbn [snd tx_buf set_tx_buf set_spi_bits]. now apply store_high_loop_bytes.
Qed.

(** Two lists of bytes with the same bit stream are equal. *)
Lemma stream_eq_bytes (a b : list Z) :
  bytes a -> bytes b -> length a = length b ->
  (forall j, 0 <= j < 8 * Z.of_nat (length a) ->
             stream_bit a j = stream_bit b j) ->
  a = b.
Proof.
  intros Ha Hb Hl Hbits. apply list_eq. intros k.
  destruct (Nat.lt_ge_cases k (length a)) as [Hk | Hk].
  2:{ rewrite (proj2 (lookup_ge_None a k)) by lia.
      now rewrite (proj2 (lookup_ge_None b k)) by lia. }
  destruct (lookup_lt_is_Some_2 a k Hk) as [x Hx].
  destruct (lookup_lt_is_Some_2 b k ltac:(lia)) as [y Hy].
  rewrite Hx, Hy. f_equal.
  apply byte_eq_bits.
  - exact (Forall_lookup_1 _ _ _ _ Ha Hx).
  - exact (Forall_lookup_1 _ _ _ _ Hb Hy).
  - intros u Hu.
    assert (Hxa : byte_at a k = x) by (unfold byte_at; now rewrite Hx).
    assert (Hyb : byte_at b k = y) by (unfold byte_at; now rewrite Hy).
    rewrite <- Hxa, <- Hyb.
    rewrite !byte_bit_stream by lia. apply Hbits. lia.
Qed.

Lemma byte_at_app_l (a b : list Z) (k : nat) :
  (k < length a)%nat -> byte_at (a ++ b) k = byte_at a k.
Proof. intros H. unfold byte_at. now rewrite lookup_app_l. Qed.

Lemma byte_at_app_r (a b : list Z) (k : nat) :
  (length a <= k)%nat -> byte_at (a ++ b) k = byte_at b (k - length a).
Proof. intros H. unfold byte_at. now rewrite lookup_app_r. Qed.

Lemma stream_bit_app_l (a b : list Z) (j : Z) :
  0 <= j < 8 * Z.of_nat (length a) ->
  stream_bit (a ++ b) j = stream_bit a j.
Proof.
  intros Hj. unfold stream_bit. rewrite byte_at_app_l; [reflexivity |].
  assert (0 <= j / 8 < Z.of_nat (length a)); [| lia].
  split; [apply Z.div_pos; lia | apply Z.div_lt_upper_bound; lia].
Qed.

Lemma stream_bit_ones (a : list Z) (n : nat) (j : Z) :
  8 * Z.of_nat (length a) <= j < 8 * Z.of_nat (length a + n) ->
  stream_bit (a ++ replicate n 255) j = true.
Proof.
  intros Hj. unfold stream_bit.
  assert (Hq : Z.of_nat (length a) <= j / 8 < Z.of_nat (length a + n)).
  { split; [apply Z.div_le_lower_bound; lia
           | apply Z.div_lt_upper_bound; lia]. }
  rewrite byte_at_app_r by lia.
  unfold byte_at. rewrite lookup_replicate_2 by lia. cbn [default].
  pose proof (Z.mod_pos_bound j 8 ltac:(lia)).
  change 255 with (Z.ones 8). apply Z.ones_spec_low. lia.
Qed.

(** X17: a read on a serial bus without the ninth bit.  The [match_index]
    command bytes are copied to the start of the buffer (what was pending is
    dropped), [len] bytes [0xFF] follow, and one full-duplex transfer of
    [match_index + len] bytes carries them; its status is the result and
    the data are the [len] bytes received after the first [match_index]
    ones. *)
Theorem spi_8bit_read (E : bus) (generic len match_index : Z)
        (cmd : list Z) (s : panel_simple) :
  spi s = true -> spi_9bit s = 0 ->
  length (tx_buf s) = 63%nat -> bytes (tx_buf s) ->
  length (rx_buf s) = 63%nat -> bytes (rx_buf s) ->
  bytes cmd -> 1 <= match_index -> 0 <= len -> match_index + len <= 63 ->
  let tx := bytes_at cmd (Z.to_nat match_index)
              ++ replicate (Z.to_nat len) 255 in
  let ans := spi_sync E (log s) (match_index + len) tx in
  let rx := memcpy (rx_buf s)
                   (map u8 (take (Z.to_nat (match_index + len)) (snd ans))) in
  exists s',
    fetch E TYPE_SPI generic len match_index cmd s
    = (fst ans,
       memcpy (replicate 8 0)
              (take (Z.to_nat len) (drop (Z.to_nat match_index) rx)),
       s') /\
    log s' = (if fst ans =? 0 then [] else [EvDevErr "spi"])
               ++ EvSpiSync (match_index + len) tx true :: log s /\
    rx_buf s' = rx /\ spi_bits s' = 0.
Proof.
  intros Hspi H9 Hlt Hbt Hlr Hbr Hcmd Hmi Hn Hcap. cbv zeta.
  set (B := bytes_at cmd (Z.to_nat match_index)).
  assert (HB : bytes B) by now apply bytes_at_bytes.
  assert (HlB : length B = Z.to_nat match_index) by apply bytes_at_length.
  unfold fetch. cbv zeta.
  change (TYPE_SPI =? TYPE_I2C) with false.
  change (TYPE_SPI =? TYPE_SPI) with true. cbv iota.
  rewrite H9. change (negb (0 =? 0)) with false. cbv iota. fold B.
  set (s2 := set_spi_bits (u32 (match_index * 8))
                          (set_tx_buf (memcpy (tx_buf s) B) s)).
  assert (Hb2 : spi_bits s2 = 8 * match_index).
  { subst s2. cbn [spi_bits set_spi_bits]. rewrite u32_small; lia. }
  assert (Htx2 : tx_buf s2 = B ++ drop (length B) (tx_buf s)).
  { subst s2. cbn [tx_buf set_spi_bits set_tx_buf]. unfold memcpy.
    rewrite memcpy_at_spec by (simpl; lia). now rewrite take_0. }
  assert (Hl2 : length (tx_buf s2) = 63%nat).
  { subst s2. cbn [tx_buf set_spi_bits set_tx_buf].
    rewrite memcpy_length; lia. }
  assert (Hby2 : bytes (tx_buf s2)).
  { subst s2. cbn [tx_buf set_spi_bits set_tx_buf].
    apply memcpy_bytes; try assumption; lia. }
  rewrite s32_small by lia.
  destruct (store_high_stream s2 (len * 8)) as [F3 F3s]; try lia.
  pose proof (store_high_length s2 (len * 8)) as F3l.
  pose proof (store_high_bytes s2 (len * 8) Hby2) as F3b.
  set (s3 := snd (store_high s2 (len * 8))) in *.
  assert (Hs3 : s3 = set_tx_buf (tx_buf s3)
                               (set_spi_bits (spi_bits s2 + len * 8) s2)).
  { subst s3. now rewrite F3 at 1. }
  assert (Hb3 : spi_bits s3 = 8 * (match_index + len))
    by (rewrite Hs3; cbn [spi_bits set_tx_buf set_spi_bits]; lia).
  assert (Hspi3 : spi s3 = true) by (rewrite Hs3; exact Hspi).
  assert (Hlog3 : log s3 = log s) by (rewrite Hs3; reflexivity).
  assert (Hrx3 : rx_buf s3 = rx_buf s) by (rewrite Hs3; reflexivity).
  assert (Hx : xfer_len s3 = match_index + len)
    by (apply xfer_len_bytes; [lia | exact Hb3]).
  assert (Htx : xfer_tx s3 = B ++ replicate (Z.to_nat len) 255).
  { unfold xfer_tx. rewrite Hx. apply stream_eq_bytes.
    - now apply Forall_take.
    - apply Forall_app. split; [exact HB |].
      apply Forall_replicate. lia.
    - rewrite length_take, length_app, length_replicate. lia.
    - rewrite length_take.
      replace (Z.to_nat (match_index + len) `min` length (tx_buf s3))%nat
        with (Z.to_nat (match_index + len)) by lia.
      intros j Hj. rewrite stream_bit_take by lia.
      rewrite F3s by lia. unfold ones_after. rewrite Hb2.
      destruct (Z.ltb_spec j (8 * match_index)).
      + rewrite Htx2. rewrite !stream_bit_app_l by lia. reflexivity.
      + symmetry. apply stream_bit_ones. lia. }
  pose proof (spi_send_rx E s3 Hspi3 ltac:(lia)) as F4. cbv zeta in F4.
  rewrite Hx, Htx, Hlog3, Hrx3 in F4. rewrite F4, Hb2.
  set (ans := spi_sync E (log s) (match_index + len)
                       (B ++ replicate (Z.to_nat len) 255)) in *.
  set (rx := memcpy (rx_buf s)
                    (map u8 (take (Z.to_nat (match_index + len)) (snd ans)))).
  assert (Hrxl : (length (map u8 (take (Z.to_nat (match_index + len))
                                      (snd ans))) <= 63)%nat).
  { rewrite length_map, length_take. lia. }
  assert (Hrxb : bytes rx).
  { subst rx. apply memcpy_bytes; try assumption; [lia |].
    apply Forall_map. apply Forall_forall. intros x _. apply u8_range. }
  assert (Hrxlen : length rx = 63%nat).
  { subst rx. rewrite memcpy_length; lia. }
  assert (Hext : forall s',
             rx_buf s' = rx ->
             extract_data (Z.to_nat len) (rx_buf s') (8 * match_index)
             = take (Z.to_nat len) (drop (Z.to_nat match_index) rx)).
  { intros s' ->.
    destruct (extract_data_bits (Z.to_nat len) rx (8 * match_index) Hrxb
                ltac:(lia)) as (Hel & Heb & Hebits).
    apply stream_eq_bytes.
    - exact Heb.
    - apply Forall_take. now apply Forall_drop.
    - rewrite Hel, length_take, length_drop. lia.
    - rewrite Hel. intros j Hj.
      assert (Hjd := Z.div_mod j 8 ltac:(lia)).
      assert (Hjm := Z.mod_pos_bound j 8 ltac:(lia)).
      assert (Hj8 : 0 <= j / 8 < len)
        by (split; [apply Z.div_pos; lia | apply Z.div_lt_upper_bound; lia]).
      unfold stream_bit at 1.
      rewrite (Hebits (Z.to_nat (j / 8)) (7 - j mod 8)) by lia.
      rewrite stream_bit_take by lia.
      unfold stream_bit. unfold byte_at at 2. rewrite lookup_drop.
      fold (byte_at rx (Z.to_nat match_index + Z.to_nat (j / 8))).
      replace (8 * match_index + 8 * Z.of_nat (Z.to_nat (j / 8)) + 7
               - (7 - j mod 8))
        with (8 * (match_index + j / 8) + j mod 8) by lia.
      destruct (divmod_lin 8 (match_index + j / 8) (j mod 8)) as [-> ->];
        [lia |].
      f_equal. f_equal. lia. }
  eexists. split; [| split; [| split]].
  - f_equal. f_equal. f_equal. apply Hext.
    destruct (fst ans =? 0); reflexivity.
  - destruct (fst ans =? 0); cbn [log emit set_rx_buf set_spi_bits app];
      now rewrite Hlog3.
  - destruct (fst ans =? 0); reflexivity.
  - destruct (fst ans =? 0); reflexivity.
Qed.

Lemma spi_8bit_read_witness :
  exists s',
    fetch (answer_bus 0x9c) TYPE_SPI 0 1 1 [0x0a; 0x9c]
          {| spi := true; i2c_address := 0x2c; spi_9bit := 0;
             spi_bits := 0; tx_buf := replicate 63 0;
             rx_buf := replicate 63 0; lanes := 4; mode_lpm := false; dt_mode := mode0;
             log := [] |}
    = (0, memcpy (replicate 8 0) [0], s') /\
    log s' = [EvSpiSync 2 [0x0a; 0xff] true] /\
    rx_buf s' = memcpy (replicate 63 0) [] /\
    spi_bits s' = 0.
Proof.
  apply (spi_8bit_read
           (answer_bus 0x9c) 0 1 1 [0x0a; 0x9c]
           {| spi := true; i2c_address := 0x2c; spi_9bit := 0;
              spi_bits := 0; tx_buf := replicate 63 0;
              rx_buf := replicate 63 0; lanes := 4; mode_lpm := false; dt_mode := mode0;
              log := [] |}).
  - reflexivity.
  - reflexivity.
  - reflexivity.
  - apply Forall_replicate. lia.
  - reflexivity.
  - apply Forall_replicate. lia.
  - repeat constructor; lia.
  - lia.
  - lia.
  - lia.
Defined.

(** ** [send_all_cmd_lists] and the panel functions *)

Section LifecycleFacts.

Variable E : bus.
Variable C : opcodes.
Variable K : fb_consts.
Variable regulator_enable : trace -> Z.
Variable stack : Z -> list Z.

(** One list, or none when its bus is absent or an earlier list failed. *)
Lemma optional_list_run (go : bool) (ret0 : Z) (s : panel_simple)
      (mc : cmds) (type : Z) :
  valid_cmds mc ->
  exists ret s' d,
    (if go then send_cmd_list E C s mc type (stack type)
     else Some (ret0, s)) = Some (ret, s') /\
    log s' = d ++ log s /\
    Forall (fun e => on_bus type e = true) d /\
    same_config s s' /\
    (go = false -> d = [] /\ ret = ret0 /\ s' = s).
Proof.
  intros [HL Hb]. destruct go.
  - destruct (send_cmd_list_run E C type s mc (stack type) HL Hb)
      as (ret & s' & Hrun & [Hc (d & Hd & Hall)] & _).
    exists ret, s', d. split; [exact Hrun |]. split; [exact Hd |].
    split; [exact Hall |]. split; [exact Hc |]. discriminate.
  - exists ret0, s, []. split; [reflexivity |]. split; [reflexivity |].
    split; [constructor |]. split; [repeat split |].
    intros _. repeat split.
Qed.

Lemma send_all_cmd_lists_run (p : panel_state) (msc : interface_cmds) :
  valid_interface msc ->
  exists ret s' d_spi d_mipi d_i2c,
    send_all_cmd_lists E C stack p msc = Some (ret, set_cl s' p) /\
    log s' = d_spi ++ d_mipi ++ d_i2c ++ log (cl p) /\
    Forall (fun e => on_bus TYPE_SPI e = true) d_spi /\
    Forall (fun e => on_bus TYPE_MIPI e = true) d_mipi /\
    Forall (fun e => on_bus TYPE_I2C e = true) d_i2c /\
    (i2c p = false -> d_i2c = []) /\
    (spi (cl p) = false -> d_spi = []) /\
    same_config (cl p) s'.
Proof.
  intros (Hi & Hm & Hs). unfold send_all_cmd_lists.
  destruct (optional_list_run (i2c p) 0 (cl p) (if_i2c msc) TYPE_I2C Hi)
    as (r1 & s1 & d1 & -> & Hl1 & Hf1 & Hc1 & Hn1).
  destruct (optional_list_run (r1 =? 0) r1 s1 (if_mipi msc) TYPE_MIPI Hm)
    as (r2 & s2 & d2 & -> & Hl2 & Hf2 & Hc2 & Hn2).
  destruct (optional_list_run ((r2 =? 0) && spi s2) r2 s2 (if_spi msc)
                              TYPE_SPI Hs)
    as (r3 & s3 & d3 & -> & Hl3 & Hf3 & Hc3 & Hn3).
  exists r3, s3, d3, d2, d1.
  split; [reflexivity |].
  split; [now rewrite Hl3, Hl2, Hl1 |].
  split; [exact Hf3 |]. split; [exact Hf2 |]. split; [exact Hf1 |].
  split; [intros H0; now apply Hn1 |].
  split.
  - intros H0. apply Hn3.
    destruct Hc1 as (a1 & _). destruct Hc2 as (a2 & _).
    rewrite a2, a1, H0. apply andb_false_r.
  - destruct Hc1 as (a1 & a2 & a3 & a4 & a5).
    destruct Hc2 as (b1 & b2 & b3 & b4 & b5).
    destruct Hc3 as (c1 & c2 & c3 & c4 & c5).
    repeat split; congruence.
Qed.

(** What the statements below need of it. *)
Lemma send_all_cmd_lists_total (p : panel_state) (msc : interface_cmds) :
  valid_interface msc ->
  exists ret s', send_all_cmd_lists E C stack p msc = Some (ret, set_cl s' p).
Proof.
  intros Hv.
  destruct (send_all_cmd_lists_run p msc Hv) as (ret & s' & _ & _ & _ & H & _).
  now exists ret, s'.
Qed.

Lemma msleep_if_fields (ms : Z) (p : panel_state) :
  exists s, msleep_if ms p = set_cl s p.
Proof.
  unfold msleep_if. destruct (ms =? 0).
  - exists (cl p). now destruct p.
  - eexists. reflexivity.
Qed.

End LifecycleFacts.

Ltac valid_by_computation :=
  repeat split; cbn; try lia;
  intros cmd Hc; try discriminate Hc;
  injection Hc as <-; repeat constructor; lia.

(** X18: the lists of an interface set run in a fixed order, each on its own
    bus.  [send_all_cmd_lists] always returns; in the trace everything the
    two-wire list caused comes first, then what the list of the command
    interface caused, then what the serial list caused; a panel without
    two-wire adapter makes no two-wire transfer and a panel without serial
    device no serial transfer; nothing but the part of the panel used by the
    lists is changed, and the description of the hardware in it is kept. *)
Theorem send_all_cmd_lists_order (E : bus) (C : opcodes)
        (stack : Z -> list Z) (p : panel_state) (msc : interface_cmds) :
  valid_interface msc ->
  exists ret s' d_spi d_mipi d_i2c,
    send_all_cmd_lists E C stack p msc = Some (ret, set_cl s' p) /\
    log s' = d_spi ++ d_mipi ++ d_i2c ++ log (cl p) /\
    Forall (fun e => on_bus TYPE_SPI e = true) d_spi /\
    Forall (fun e => on_bus TYPE_MIPI e = true) d_mipi /\
    Forall (fun e => on_bus TYPE_I2C e = true) d_i2c /\
    (i2c p = false -> d_i2c = []) /\
    (spi (cl p) = false -> d_spi = []) /\
    same_config (cl p) s'.
Proof. apply send_all_cmd_lists_run. Qed.

Lemma send_all_cmd_lists_order_witness :
  exists ret s' d_spi d_mipi d_i2c,
    send_all_cmd_lists quiet_bus sample_codes stack0 device0 lists0
    = Some (ret, set_cl s' device0) /\
    log s' = d_spi ++ d_mipi ++ d_i2c ++ log (cl device0) /\
    Forall (fun e => on_bus TYPE_SPI e = true) d_spi /\
    Forall (fun e => on_bus TYPE_MIPI e = true) d_mipi /\
    Forall (fun e => on_bus TYPE_I2C e = true) d_i2c /\
    (i2c device0 = false -> d_i2c = []) /\
    (spi (cl device0) = false -> d_spi = []) /\
    same_config (cl device0) s'.
Proof.
  apply (send_all_cmd_lists_order quiet_bus sample_codes stack0 device0
                                  lists0).
  valid_by_computation.
Defined.

Lemma panel_state_ext (p q : panel_state) :
  cl p = cl q -> prepared p = prepared q -> enabled p = enabled q ->
  backlight p = backlight q -> supply p = supply q ->
  gpd_power_enable p = gpd_power_enable q ->
  gpd_prepare_enable p = gpd_prepare_enable q -> reset p = reset q ->
  i2c p = i2c q -> delay p = delay q -> cmds_init p = cmds_init q ->
  cmds_enable p = cmds_enable q -> cmds_disable p = cmds_disable q ->
  p = q.
Proof. destruct p, q. cbn. intros. congruence. Qed.

Ltac ps_fields :=
  cbn [cl prepared enabled backlight supply gpd_power_enable
       gpd_prepare_enable reset i2c delay cmds_init cmds_enable cmds_disable
       set_cl set_prepared set_enabled set_backlight set_supply
       set_gpd_power_enable set_gpd_prepare_enable set_reset].

Ltac ps_eq := apply panel_state_ext; ps_fields; try reflexivity; try lia.

Section Calls.

Variable E : bus.
Variable C : opcodes.
Variable K : fb_consts.
Variable regulator_enable : trace -> Z.
Variable stack : Z -> list Z.

Lemma prepare_steps (p : panel_state) :
  valid_panel p -> prepared p = false ->
  let err := regulator_enable (log (cl p)) in
  (err < 0 ->
   panel_simple_prepare E C regulator_enable stack p
   = Some (err,
           set_cl (emit (EvDevErr "failed to enable supply") (cl p)) p)) /\
  (0 <= err ->
   exists ret s',
     let p1 := set_reset (gpiod_set_value_cansleep (reset p) 0)
                 (set_gpd_prepare_enable
                    (gpiod_set_value_cansleep (gpd_prepare_enable p) 1) p) in
     panel_simple_prepare E C regulator_enable stack p
     = Some (ret,
             if ret =? 0
             then set_prepared true (set_supply (supply p + 1) (set_cl s' p1))
             else set_cl s' p1)).
Proof.
  intros (Hi & He & Hd) Hp. cbv zeta. unfold panel_simple_prepare. rewrite Hp.
  split.
  - intros Herr. destruct (Z.ltb_spec (regulator_enable (log (cl p))) 0);
      [reflexivity | lia].
  - intros Herr. destruct (Z.ltb_spec (regulator_enable (log (cl p))) 0);
      [lia |].
    cbv zeta. unfold msleep_if.
    cbn [delay set_reset set_gpd_prepare_enable set_supply].
    destruct (delay_prepare (delay p) =? 0).
    + match goal with |- context [send_all_cmd_lists E C stack ?q ?m] =>
        destruct (send_all_cmd_lists_total E C stack q m Hi)
          as (ret & s' & Hrun); rewrite Hrun
      end.
      exists ret, s'. destruct (Z.eqb_spec ret 0) as [-> | Hne]; cbn [negb];
        f_equal; f_equal; ps_eq.
    + match goal with |- context [send_all_cmd_lists E C stack ?q ?m] =>
        destruct (send_all_cmd_lists_total E C stack q m Hi)
          as (ret & s' & Hrun); rewrite Hrun
      end.
      exists ret, s'. destruct (Z.eqb_spec ret 0) as [-> | Hne]; cbn [negb];
        f_equal; f_equal; ps_eq.
Qed.

Lemma enable_steps (p : panel_state) :
  valid_panel p -> enabled p = false ->
  exists ret s',
    panel_simple_enable E C K stack p
    = Some (if ret <? 0 then ret else 0,
            if ret <? 0
            then set_gpd_prepare_enable
                   (gpiod_set_value_cansleep (gpd_prepare_enable p) 0)
                   (set_reset (gpiod_set_value_cansleep (reset p) 1)
                              (set_cl s' p))
            else set_enabled true
                   (set_backlight
                      (match backlight p with
                       | Some bl =>
                           Some {| props_power := FB_BLANK_UNBLANK K;
                                   props_state :=
                                     u32 (Z.land (props_state bl)
                                                 (Z.lnot (BL_CORE_FBBLANK K)));
                                   updates := S (updates bl) |}
                       | None => None
                       end)
                      (set_cl s' p))).
Proof.
  intros (Hi & He & Hd) Hen. unfold panel_simple_enable. rewrite Hen.
  destruct (send_all_cmd_lists_total E C stack p (cmds_enable p) He)
    as (ret & s1 & Hrun).
  rewrite Hrun. destruct (ret <? 0) eqn:Hneg.
  - exists ret, s1. rewrite Hneg. cbv zeta. f_equal; f_equal; ps_eq.
  - cbv zeta. unfold msleep_if. ps_fields.
    destruct (backlight p) as [bl |] eqn:Hbl;
      (destruct (delay_enable (delay p) =? 0);
       [exists ret, s1
       | exists ret, (emit (EvMsleep (delay_enable (delay p))) s1)]);
      rewrite Hneg; ps_fields; rewrite ?Hbl; f_equal; f_equal; ps_eq;
      exact Hbl.
Qed.

Lemma disable_steps (p : panel_state) :
  valid_panel p -> enabled p = true ->
  exists s',
    panel_simple_disable E C K stack p
    = Some (0,
            set_enabled false
              (set_backlight
                 (match backlight p with
                  | Some bl =>
                      Some {| props_power := FB_BLANK_POWERDOWN K;
                              props_state :=
                                u32 (Z.lor (props_state bl)
                                           (BL_CORE_FBBLANK K));
                              updates := S (updates bl) |}
                  | None => None
                  end)
                 (set_cl s' p))).
Proof.
  intros (Hi & He & Hd) Hen. unfold panel_simple_disable. rewrite Hen.
  cbn [negb]. cbv zeta. unfold msleep_if.
  destruct (backlight p) as [bl |] eqn:Hbl; ps_fields;
    destruct (delay_disable (delay p) =? 0); ps_fields;
    match goal with |- context [send_all_cmd_lists E C stack ?q ?m] =>
      destruct (send_all_cmd_lists_total E C stack q m Hd)
        as (ret & s' & Hrun); rewrite Hrun
    end;
    exists s'; f_equal; f_equal; ps_eq; now rewrite ?Hbl.
Qed.

Lemma unprepare_steps (p : panel_state) :
  prepared p = true ->
  exists s',
    panel_simple_unprepare p
    = (0, set_prepared false
            (set_supply (supply p - 1)
               (set_gpd_prepare_enable
                  (gpiod_set_value_cansleep (gpd_prepare_enable p) 0)
                  (set_reset (gpiod_set_value_cansleep (reset p) 1)
                             (set_cl s' p))))).
Proof.
  intros Hp. unfold panel_simple_unprepare. rewrite Hp. cbn [negb].
  cbv zeta. unfold msleep_if.
  destruct (delay_unprepare (delay p) =? 0); eexists; f_equal; ps_eq.
Qed.

(** Every call returns, and keeps the lists valid and the supply
    balanced. *)
Lemma do_call_balanced (c : panel_call) (p : panel_state) :
  valid_panel p -> supply_balanced p ->
  exists p',
    do_call E C K regulator_enable stack c p = Some p' /\
    valid_panel p' /\ supply_balanced p'.
Proof.
  intros Hv Hb. unfold supply_balanced in *.
  assert (Hshut : forall q, valid_panel q ->
            supply q = (if prepared q then 1 else 0) ->
            exists q', Some (snd (panel_simple_unprepare q)) = Some q' /\
                       valid_panel q' /\
                       supply q' = (if prepared q' then 1 else 0)).
  { intros q Hvq Hbq. eexists. split; [reflexivity |].
    destruct (prepared q) eqn:Hp.
    - destruct (unprepare_steps q Hp) as (s' & ->). cbn [snd].
      split; [exact Hvq |]. ps_fields. lia.
    - unfold panel_simple_unprepare. rewrite Hp. cbn [negb snd].
      split; [exact Hvq |]. now rewrite Hp. }
  destruct c; cbn [do_call].
  - (* prepare *)
    destruct (prepared p) eqn:Hp.
    + unfold panel_simple_prepare. rewrite Hp. cbn [option_map snd].
      exists p. split; [reflexivity |]. split; [exact Hv |]. now rewrite Hp.
    + destruct (prepare_steps p Hv Hp) as [Hfail Hok]. cbv zeta in *.
      destruct (Z.lt_ge_cases (regulator_enable (log (cl p))) 0) as [Hn | Hn].
      * rewrite (Hfail Hn). cbn [option_map snd]. eexists.
        split; [reflexivity |]. split; [exact Hv |]. ps_fields.
        now rewrite Hp.
      * destruct (Hok Hn) as (ret & s' & ->). cbn [option_map snd].
        eexists. split; [reflexivity |].
        destruct (ret =? 0); (split; [exact Hv |]); ps_fields;
          rewrite ?Hp; lia.
  - apply Hshut; assumption.
  - (* enable *)
    destruct (enabled p) eqn:Hen.
    + unfold panel_simple_enable. rewrite Hen. cbn [option_map snd].
      exists p. split; [reflexivity |]. split; assumption.
    + destruct (enable_steps p Hv Hen) as (ret & s' & ->).
      cbn [option_map snd]. eexists. split; [reflexivity |].
      destruct (ret <? 0); (split; [exact Hv |]); ps_fields; exact Hb.
  - (* disable *)
    destruct (enabled p) eqn:Hen.
    + destruct (disable_steps p Hv Hen) as (s' & ->).
      cbn [option_map snd]. eexists. split; [reflexivity |].
      split; [exact Hv |]. ps_fields. exact Hb.
    + unfold panel_simple_disable. rewrite Hen. cbn [negb option_map snd].
      exists p. split; [reflexivity |]. split; assumption.
  - (* power up *)
    unfold panel_simple_power_up. cbv zeta. unfold msleep_if. ps_fields.
    destruct (delay_power_up (delay p) =? 0); cbn [snd]; eexists;
      (split; [reflexivity |]); (split; [exact Hv |]); ps_fields; exact Hb.
  - (* power down *)
    unfold panel_simple_power_down. cbv zeta. unfold msleep_if.
    destruct (delay_power_down (delay p) =? 0); cbn [snd]; eexists;
      (split; [reflexivity |]); (split; [exact Hv |]); ps_fields; exact Hb.
  - (* shutdown *)
    unfold panel_simple_shutdown.
    destruct (enabled p) eqn:Hen.
    + destruct (disable_steps p Hv Hen) as (s' & ->).
      apply Hshut; [exact Hv | ps_fields; exact Hb].
    + unfold panel_simple_disable. rewrite Hen. cbn [negb].
      apply Hshut; assumption.
Qed.

Lemma do_calls_balanced (cs : list panel_call) :
  forall p, valid_panel p -> supply_balanced p ->
  exists p',
    do_calls E C K regulator_enable stack cs p = Some p' /\
    valid_panel p' /\ supply_balanced p'.
Proof.
  induction cs as [| c cs IH]; intros p Hv Hb.
  - exists p. now split.
  - cbn [do_calls].
    destruct (do_call_balanced c p Hv Hb) as (p1 & -> & Hv1 & Hb1).
    now apply IH.
Qed.

Lemma disable_fields (p : panel_state) :
  valid_panel p ->
  exists p',
    panel_simple_disable E C K stack p = Some (0, p') /\
    enabled p' = false /\ prepared p' = prepared p /\
    supply p' = supply p /\ reset p' = reset p /\
    gpd_prepare_enable p' = gpd_prepare_enable p /\
    gpd_power_enable p' = gpd_power_enable p /\
    (enabled p = true ->
     forall bl, backlight p = Some bl ->
       backlight p'
       = Some {| props_power := FB_BLANK_POWERDOWN K;
                 props_state :=
                   u32 (Z.lor (props_state bl) (BL_CORE_FBBLANK K));
                 updates := S (updates bl) |}).
Proof.
  intros Hv. destruct (enabled p) eqn:Hen.
  - destruct (disable_steps p Hv Hen) as (s' & Heq).
    eexists. split; [exact Heq |]. ps_fields.
    repeat split. intros _ bl Hbl. now rewrite Hbl.
  - exists p. unfold panel_simple_disable. rewrite Hen. cbn [negb].
    split; [reflexivity |]. repeat split; try assumption. discriminate.
Qed.

End Calls.

(** X19: what [panel_simple_prepare] leaves behind.  On a panel that is not
    prepared the call always returns; the panel is prepared exactly when the
    result is 0, and the supply is held exactly then (a supply enabled
    before a failing initialisation list is disabled again); [enabled] is
    not touched.  When the regulator fails nothing else is done: the lines
    keep their values and one message is logged.  When the regulator
    succeeds the reset line is lowered and the prepare-enable line raised,
    and they stay so even if the initialisation lists fail. *)
Theorem prepare_outcomes (E : bus) (C : opcodes)
        (regulator_enable : trace -> Z) (stack : Z -> list Z)
        (p : panel_state) :
  valid_panel p -> prepared p = false ->
  exists ret p',
    panel_simple_prepare E C regulator_enable stack p = Some (ret, p') /\
    (ret = 0 <-> prepared p' = true) /\
    supply p' = supply p + (if prepared p' then 1 else 0) /\
    enabled p' = enabled p /\
    (regulator_enable (log (cl p)) < 0 ->
     ret = regulator_enable (log (cl p)) /\
     reset p' = reset p /\ gpd_prepare_enable p' = gpd_prepare_enable p /\
     log (cl p') = EvDevErr "failed to enable supply" :: log (cl p)) /\
    (0 <= regulator_enable (log (cl p)) ->
     reset p' = gpiod_set_value_cansleep (reset p) 0 /\
     gpd_prepare_enable p'
     = gpiod_set_value_cansleep (gpd_prepare_enable p) 1).
Proof.
  intros Hv Hp.
  destruct (prepare_steps E C regulator_enable stack p Hv Hp) as [Hfail Hok].
  cbv zeta in *.
  destruct (Z.lt_ge_cases (regulator_enable (log (cl p))) 0) as [Hn | Hn].
  - eexists _, _. split; [exact (Hfail Hn) |]. ps_fields. rewrite Hp.
    split; [split; [lia | discriminate] |].
    split; [lia |]. split; [reflexivity |].
    split; [intros _; repeat split | lia].
  - destruct (Hok Hn) as (ret & s' & Heq).
    eexists _, _. split; [exact Heq |].
    destruct (Z.eqb_spec ret 0) as [-> | Hne]; ps_fields; rewrite ?Hp.
    + split; [split; reflexivity |]. split; [lia |].
      split; [reflexivity |]. split; [lia |]. intros _. split; reflexivity.
    + split; [split; [contradiction | discriminate] |]. split; [lia |].
      split; [reflexivity |]. split; [lia |]. intros _. split; reflexivity.
Qed.

Lemma prepare_outcomes_witness :
  exists ret p',
    panel_simple_prepare quiet_bus sample_codes supply_fails stack0 device0
    = Some (ret, p') /\
    (ret = 0 <-> prepared p' = true) /\
    supply p' = supply device0 + (if prepared p' then 1 else 0) /\
    enabled p' = enabled device0 /\
    (supply_fails (log (cl device0)) < 0 ->
     ret = supply_fails (log (cl device0)) /\
     reset p' = reset device0 /\
     gpd_prepare_enable p' = gpd_prepare_enable device0 /\
     log (cl p')
     = EvDevErr "failed to enable supply" :: log (cl device0)) /\
    (0 <= supply_fails (log (cl device0)) ->
     reset p' = gpiod_set_value_cansleep (reset device0) 0 /\
     gpd_prepare_enable p'
     = gpiod_set_value_cansleep (gpd_prepare_enable device0) 1).
Proof.
  apply (prepare_outcomes quiet_bus sample_codes supply_fails stack0 device0).
  - valid_by_computation.
  - reflexivity.
Defined.

(** X20: what [panel_simple_enable] leaves behind.  On a panel that is not
    enabled the call always returns, never a positive value; the panel is
    enabled exactly when the result is 0.  When the enable lists fail the
    reset line is raised and the prepare-enable line lowered, while
    [prepared] and the supply stay as they were: the panel is held in reset
    but still counts as prepared.  When they succeed the lines are not
    touched. *)
Theorem enable_outcomes (E : bus) (C : opcodes) (K : fb_consts)
        (stack : Z -> list Z) (p : panel_state) :
  valid_panel p -> enabled p = false ->
  exists ret p',
    panel_simple_enable E C K stack p = Some (ret, p') /\
    ret <= 0 /\ (ret = 0 <-> enabled p' = true) /\
    prepared p' = prepared p /\ supply p' = supply p /\
    (ret < 0 ->
     reset p' = gpiod_set_value_cansleep (reset p) 1 /\
     gpd_prepare_enable p'
     = gpiod_set_value_cansleep (gpd_prepare_enable p) 0 /\
     backlight p' = backlight p) /\
    (ret = 0 ->
     reset p' = reset p /\ gpd_prepare_enable p' = gpd_prepare_enable p).
Proof.
  intros Hv Hen.
  destruct (enable_steps E C K stack p Hv Hen) as (ret & s' & Heq).
  eexists _, _. split; [exact Heq |].
  destruct (Z.ltb_spec ret 0); ps_fields; rewrite ?Hen.
  - split; [lia |]. split; [split; [lia | discriminate] |].
    split; [reflexivity |]. split; [reflexivity |].
    split; [intros _; repeat split | lia].
  - split; [lia |]. split; [split; reflexivity |].
    split; [reflexivity |]. split; [reflexivity |].
    split; [lia | intros _; split; reflexivity].
Qed.

Lemma enable_outcomes_witness :
  exists ret p',
    panel_simple_enable quiet_bus sample_codes fb0 stack0 device0
    = Some (ret, p') /\
    ret <= 0 /\ (ret = 0 <-> enabled p' = true) /\
    prepared p' = prepared device0 /\ supply p' = supply device0 /\
    (ret < 0 ->
     reset p' = gpiod_set_value_cansleep (reset device0) 1 /\
     gpd_prepare_enable p'
     = gpiod_set_value_cansleep (gpd_prepare_enable device0) 0 /\
     backlight p' = backlight device0) /\
    (ret = 0 ->
     reset p' = reset device0 /\
     gpd_prepare_enable p' = gpd_prepare_enable device0).
Proof.
  apply (enable_outcomes quiet_bus sample_codes fb0 stack0 device0).
  - valid_by_computation.
  - reflexivity.
Defined.

(** X21: [panel_simple_disable] cannot fail.  It always returns 0 and
    leaves the panel not enabled, whatever the disable lists return, and
    touches neither [prepared], nor the supply, nor a GPIO line; on an
    enabled panel with a backlight it powers the backlight down with one
    status update. *)
Theorem disable_never_fails (E : bus) (C : opcodes) (K : fb_consts)
        (stack : Z -> list Z) (p : panel_state) :
  valid_panel p ->
  exists p',
    panel_simple_disable E C K stack p = Some (0, p') /\
    enabled p' = false /\ prepared p' = prepared p /\
    supply p' = supply p /\ reset p' = reset p /\
    gpd_prepare_enable p' = gpd_prepare_enable p /\
    gpd_power_enable p' = gpd_power_enable p /\
    (enabled p = true ->
     forall bl, backlight p = Some bl ->
       backlight p'
       = Some {| props_power := FB_BLANK_POWERDOWN K;
                 props_state :=
                   u32 (Z.lor (props_state bl) (BL_CORE_FBBLANK K));
                 updates := S (updates bl) |}).
Proof.
  apply disable_fields.
Qed.

Lemma disable_never_fails_witness :
  exists p',
    panel_simple_disable quiet_bus sample_codes fb0 stack0
                         (set_enabled true device0) = Some (0, p') /\
    enabled p' = false /\
    prepared p' = prepared (set_enabled true device0) /\
    supply p' = supply (set_enabled true device0) /\
    reset p' = reset (set_enabled true device0) /\
    gpd_prepare_enable p' = gpd_prepare_enable (set_enabled true device0) /\
    gpd_power_enable p' = gpd_power_enable (set_enabled true device0) /\
    (enabled (set_enabled true device0) = true ->
     forall bl, backlight (set_enabled true device0) = Some bl ->
       backlight p'
       = Some {| props_power := FB_BLANK_POWERDOWN fb0;
                 props_state :=
                   u32 (Z.lor (props_state bl) (BL_CORE_FBBLANK fb0));
                 updates := S (updates bl) |}).
Proof.
  apply (disable_never_fails quiet_bus sample_codes fb0 stack0
                             (set_enabled true device0)).
  valid_by_computation.
Defined.

(** X22: the supply is held exactly while the panel is prepared.  Whatever
    sequence of prepare, unprepare, enable, disable, power up, power down
    and shutdown calls is made, whatever the regulator and the buses answer,
    every call returns, and if the number of enables of the supply less the
    number of disables was 1 for a prepared panel and 0 otherwise before,
    it is so afterwards: no call leaks the supply or disables it twice. *)
Theorem supply_stays_balanced (E : bus) (C : opcodes) (K : fb_consts)
        (regulator_enable : trace -> Z) (stack : Z -> list Z)
        (cs : list panel_call) (p : panel_state) :
  valid_panel p -> supply_balanced p ->
  exists p',
    do_calls E C K regulator_enable stack cs p = Some p' /\
    supply p' = (if prepared p' then 1 else 0).
Proof.
  intros Hv Hb.
  destruct (do_calls_balanced E C K regulator_enable stack cs p Hv Hb)
    as (p' & Hrun & _ & Hb').
  exists p'. split; [exact Hrun | exact Hb'].
Qed.

Lemma supply_stays_balanced_witness :
  exists p',
    do_calls quiet_bus sample_codes fb0 supply_ok stack0
             [CallPowerUp; CallPrepare; CallEnable; CallDisable;
              CallPrepare; CallUnprepare; CallUnprepare; CallShutdown]
             device0 = Some p' /\
    supply p' = (if prepared p' then 1 else 0).
Proof.
  apply (supply_stays_balanced quiet_bus sample_codes fb0 supply_ok stack0).
  - valid_by_computation.
  - reflexivity.
Defined.

(** X23: [panel_simple_shutdown] leaves the panel off.  From any state in
    which the supply is balanced the call returns, and afterwards the panel
    is neither enabled nor prepared and the supply is released; if the panel
    was prepared, the reset line is high and the prepare-enable line low. *)
Theorem shutdown_releases (E : bus) (C : opcodes) (K : fb_consts)
        (stack : Z -> list Z) (p : panel_state) :
  valid_panel p -> supply_balanced p ->
  exists p',
    panel_simple_shutdown E C K stack p = Some p' /\
    enabled p' = false /\ prepared p' = false /\ supply p' = 0 /\
    (prepared p = true ->
     reset p' = gpiod_set_value_cansleep (reset p) 1 /\
     gpd_prepare_enable p'
     = gpiod_set_value_cansleep (gpd_prepare_enable p) 0).
Proof.
  intros Hv Hb. unfold supply_balanced in Hb. unfold panel_simple_shutdown.
  destruct (disable_fields E C K stack p Hv)
    as (p1 & -> & Hen1 & Hp1 & Hs1 & Hr1 & Hg1 & _).
  destruct (prepared p) eqn:Hp.
  - destruct (unprepare_steps p1 ltac:(congruence)) as (s' & ->).
    eexists. split; [reflexivity |]. cbn [snd]. ps_fields.
    split; [exact Hen1 |]. split; [reflexivity |]. split; [lia |].
    intros _. now rewrite Hr1, Hg1.
  - unfold panel_simple_unprepare. rewrite Hp1. cbn [negb snd].
    exists p1. split; [reflexivity |].
    split; [exact Hen1 |]. split; [exact Hp1 |]. split; [lia |].
    discriminate.
Qed.

Lemma shutdown_releases_witness :
  exists p',
    panel_simple_shutdown quiet_bus sample_codes fb0 stack0
                          (set_enabled true
                             (set_prepared true (set_supply 1 device0)))
    = Some p' /\
    enabled p' = false /\ prepared p' = false /\ supply p' = 0 /\
    (prepared (set_enabled true (set_prepared true (set_supply 1 device0)))
     = true ->
     reset p'
     = gpiod_set_value_cansleep
         (reset (set_enabled true
                   (set_prepared true (set_supply 1 device0)))) 1 /\
     gpd_prepare_enable p'
     = gpiod_set_value_cansleep
         (gpd_prepare_enable
            (set_enabled true
               (set_prepared true (set_supply 1 device0)))) 0).
Proof.
  apply (shutdown_releases quiet_bus sample_codes fb0 stack0
           (set_enabled true (set_prepared true (set_supply 1 device0)))).
  - valid_by_computation.
  - reflexivity.
Defined.

(** ** Patch, then send *)

(** X24: what [S_DCS_BUF] sends is the buffer as the patcher left it.  A
    stream made of a constant patch ([S_CONST], destination start and
    length, four bytes of value, least significant first) and of a DCS write
    from the staging buffer sends, in one DCS write on the command
    interface, the first [min n 32] bytes of the buffer patched with that
    value; the result is 0, or the status of the write when it is negative
    (with the message of the failure). *)
Theorem patched_buffer_is_sent (E : bus) (C : opcodes) (s : panel_simple)
        (c1 ds dl v0 v1 v2 v3 c2 n : Z) (cmd_buf : list Z) :
  bytes [c1; ds; dl; v0; v1; v2; v3; c2; n] ->
  classify C c1 = KPatch -> Z.land c1 127 = S_CONST C ->
  classify C c2 = KWriteBuf -> Z.land c2 128 = 0 ->
  let val := u32 (Z.lor (Z.lor (Z.lor v0 (Z.shiftl v1 8)) (Z.shiftl v2 16))
                        (Z.shiftl v3 24)) in
  let payload := bytes_at (patch cmd_buf ds dl 0 val)
                          (Z.to_nat (Z.min n 32)) in
  let s0 := set_mode_lpm true (set_spi_bits 0 s) in
  let ret := mipi_dsi_dcs_write_buffer E (log s) payload in
  send_cmd_list E C s
                {| cmds_ptr := Some [c1; ds; dl; v0; v1; v2; v3; c2; n];
                   cmds_length := 9 |}
                TYPE_MIPI cmd_buf
  = Some (if ret <? 0
          then (ret, emit (EvDevErr "Failed to send")
                          (emit (EvDcsWriteBuffer payload) s0))
          else (0, emit (EvDcsWriteBuffer payload) s0)).
Proof.
  intros _ Hk1 Hc1 Hk2 Hg2. cbv zeta.
  rewrite send_cmd_list_unfold by lia.
  change (Z.to_nat 9) with 9%nat. unfold entry.
  rewrite loop_step.
  rewrite body_decode
    by (try lia; apply classify_not_lane; rewrite Hk1; discriminate).
  rewrite (dispatch_patch E C TYPE_MIPI c1 _ _ Hk1).
  unfold do_patch. rewrite Hc1, Z.eqb_refl. cbv zeta.
  cbn [r_cmd r_cmd_buf r_length r_skip r_match set_cmd_buf].
  change (byte_at (ds :: _) 0) with ds.
  change (byte_at (ds :: dl :: _) 1) with dl.
  change (byte_at (ds :: dl :: v0 :: _) 2) with v0.
  change (byte_at (ds :: dl :: v0 :: v1 :: _) 3) with v1.
  change (byte_at (ds :: dl :: v0 :: v1 :: v2 :: _) 4) with v2.
  change (byte_at (ds :: dl :: v0 :: v1 :: v2 :: v3 :: _) 5) with v3.
  set (cb := patch cmd_buf ds dl 0 _).
  unfold finish, set_cmd_buf, advance, set_skip.
  cbn [r_cmd r_length r_cmd_buf r_skip r_match].
  change (0 <? 0) with false. change (9 - 1 <? 6) with false.
  change (u32 (9 - 1 - 6)) with 2. change (2 =? 0) with false. cbv iota.
  change (drop (Z.to_nat 6) [ds; dl; v0; v1; v2; v3; c2; n]) with [c2; n].
  rewrite loop_step.
  rewrite body_decode
    by (try lia; apply classify_not_lane; rewrite Hk2; discriminate).
  rewrite (dispatch_dcs_buf E C TYPE_MIPI c2)
    by first [exact Hk2 | reflexivity].
  cbv zeta. rewrite Hg2. change (negb (0 =? 0)) with false. cbv iota.
  cbn [r_cmd r_cmd_buf]. change (byte_at [n] 0) with n.
  cbn [log set_spi_bits set_mode_lpm].
  set (payload := bytes_at cb (Z.to_nat (Z.min n 32))).
  unfold finish.
  destruct (mipi_dsi_dcs_write_buffer E (log s) payload <? 0);
    [reflexivity |].
  unfold advance. cbn [r_cmd r_length r_cmd_buf r_skip r_match].
  change (u32 (2 - 1 - 1) <? 0) with false.
  change (u32 (u32 (2 - 1 - 1) - 0) =? 0) with true. cbv iota.
  reflexivity.
Qed.

Lemma patched_buffer_is_sent_witness :
  send_cmd_list quiet_bus sample_codes panel0
                {| cmds_ptr := Some [0x70; 4; 12; 0xbc; 0x0a; 0; 0; 0x62; 2];
                   cmds_length := 9 |}
                TYPE_MIPI (replicate 32 0xff)
  = Some (0, emit (EvDcsWriteBuffer [0xcf; 0xab]) (set_spi_bits 0 panel0)).
Proof.
  apply (patched_buffer_is_sent quiet_bus sample_codes panel0
           0x70 4 12 0xbc 0x0a 0 0 0x62 2 (replicate 32 0xff)).
  - repeat constructor; lia.
  - reflexivity.
  - reflexivity.
  - reflexivity.
  - reflexivity.
Defined.

(** ** The last byte of a packed stream *)

(** The bytes [store_9bit_at] has written, up to the one that holds the last
    bit. *)
Lemma store_9bit_at_written (s : panel_simple) (i : Z) (B : list Z)
      (ret : Z) :
  0 <= i -> i + 9 * Z.of_nat (length B) <= 504 ->
  length (tx_buf s) = 63%nat -> bytes B ->
  exists idx' : nat,
    written (tx_buf s) i B
            (tx_buf (snd (store_9bit_at s i (9 * Z.of_nat (length B)) B ret)))
            idx' /\
    i + 9 * Z.of_nat (length B) <= 8 * Z.of_nat idx'.
Proof.
  intros Hi Hcap Hlen HB.
  assert (Hd := Z.div_mod i 8 ltac:(lia)).
  assert (Hm := Z.mod_pos_bound i 8 ltac:(lia)).
  assert (H8 : 0 <= i / 8) by (apply Z.div_pos; lia).
  unfold store_9bit_at. cbn [tx_buf set_spi_bits].
  rewrite shiftr3, land7.
  set (buf0 := tx_buf s) in *.
  pose proof (pending_init buf0 i B Hi) as Hp0.
  pose proof (written_init buf0 i B Hi) as Hw0.
  set (val0 := if i mod 8 =? 0 then 0
               else Z.shiftr (byte_at buf0 (Z.to_nat (i / 8))) (8 - i mod 8))
    in *.
  assert (Hsplit :
    (if i mod 8 =? 0 then (9 * Z.of_nat (length B), 0)
     else (9 * Z.of_nat (length B) + i mod 8,
           Z.shiftr (byte_at buf0 (Z.to_nat (i / 8))) (8 - i mod 8)))
    = (9 * Z.of_nat (length B) + i mod 8, val0)).
  { subst val0. destruct (Z.eqb_spec (i mod 8) 0) as [-> |]; [| reflexivity].
    now rewrite Z.add_0_r. }
  rewrite Hsplit. clear Hsplit.
  assert (Hload : forall mk b, b = byte_at B 0 -> mk = false ->
            pending buf0 i B
              (Z.lor (Z.lor (u32 (Z.shiftl val0 9)) (if mk then 256 else 0)) b)
              1 (i mod 8 + 9)).
  { intros mk b Hb Hmk. apply pending_load; try lia; assumption. }
  destruct B as [| b B'] eqn:HBeq.
  - cbn [snd tx_buf set_tx_buf].
    specialize (Hload false 0 eq_refl eq_refl). cbv iota in Hload.
    rewrite !Z.lor_0_r in Hload.
    apply (store_9bit_loop_written buf0 i [] HB
             (Z.to_nat (9 * Z.of_nat (length (@nil Z)) + i mod 8))
             buf0 (Z.to_nat (i / 8)) (u32 (Z.shiftl val0 9))
             (9 * Z.of_nat (length (@nil Z)) + i mod 8) (i mod 8 + 9) []
             1%nat); try assumption; try lia.
    reflexivity.
  - cbn [snd tx_buf set_tx_buf].
    specialize (Hload false b eq_refl eq_refl). cbv iota in Hload.
    rewrite Z.lor_0_r in Hload.
    apply (store_9bit_loop_written buf0 i (b :: B') HB
             (Z.to_nat (9 * Z.of_nat (length (b :: B')) + i mod 8))
             buf0 (Z.to_nat (i / 8)) (Z.lor (u32 (Z.shiftl val0 9)) b)
             (9 * Z.of_nat (length (b :: B')) + i mod 8) (i mod 8 + 9) B'
             1%nat); try assumption; try lia.
    reflexivity.
Qed.

Lemma frame_bit_past_end (B : list Z) (q : Z) :
  9 * Z.of_nat (length B) <= q -> frame_bit B q = false.
Proof.
  intros Hq. unfold frame_bit.
  assert (Hd : Z.of_nat (length B) <= q / 9)
    by (apply Z.div_le_lower_bound; lia).
  destruct (q mod 9 =? 0).
  - destruct (Z.ltb_spec (q / 9) (Z.of_nat (length B))); [lia |].
    apply andb_false_r.
  - rewrite byte_at_ge by lia. apply Z.testbit_0_l.
Qed.

(** X25: the packer clears the rest of the last byte.  When a call of
    [store_9bit] fits behind the pending bits, the bits between the end of
    the last group and the next byte boundary are 0 in [tx_buf]: the
    transfer that sends the groups never carries stale bits behind
    them. *)
Theorem store_9bit_pads_with_zeros (E : bus) (s : panel_simple)
        (B : list Z) :
  0 <= spi_bits s -> spi_bits s + 9 * Z.of_nat (length B) <= 504 ->
  length (tx_buf s) = 63%nat -> bytes B ->
  forall j,
    spi_bits s + 9 * Z.of_nat (length B) <= j
    < 8 * ((spi_bits s + 9 * Z.of_nat (length B) + 7) / 8) ->
    stream_bit (tx_buf (snd (store_9bit E s B))) j = false.
Proof.
  intros Hi Hcap Hlen HB j Hj.
  rewrite store_9bit_fits by assumption.
  destruct (store_9bit_at_written s (spi_bits s) B 0 Hi Hcap Hlen HB)
    as (idx' & Hw & Hidx).
  set (e := spi_bits s + 9 * Z.of_nat (length B)) in *.
  assert (He := Z.div_mod (e + 7) 8 ltac:(lia)).
  assert (Hem := Z.mod_pos_bound (e + 7) 8 ltac:(lia)).
  rewrite (written_stream _ _ _ _ idx' j Hw) by lia.
  unfold target. destruct (Z.ltb_spec j (spi_bits s)); [lia |].
  apply frame_bit_past_end. lia.
Qed.

Lemma store_9bit_pads_with_zeros_witness :
  stream_bit
    (tx_buf (snd (store_9bit quiet_bus
                             {| spi := true; i2c_address := 0x2c;
                                spi_9bit := 1; spi_bits := 0;
                                tx_buf := replicate 63 0xff;
                                rx_buf := replicate 63 0; lanes := 4;
                                mode_lpm := false; dt_mode := mode0; log := [] |}
                             [0x29])))
    12
  = false.
Proof.
  apply (store_9bit_pads_with_zeros
           quiet_bus
           {| spi := true; i2c_address := 0x2c; spi_9bit := 1; spi_bits := 0;
              tx_buf := replicate 63 0xff; rx_buf := replicate 63 0;
              lanes := 4; mode_lpm := false; dt_mode := mode0; log := [] |}
           [0x29]).
  - cbn. lia.
  - cbn. lia.
  - reflexivity.
  - repeat constructor; lia.
  - split; [apply Z.leb_le | apply Z.ltb_lt]; reflexivity.
Defined.

(** ** [panel_simple_get_timings] *)

Lemma copy_timings_length {T : Type} (fuel : nat) :
  forall (i : nat) (src out : list T),
    length (copy_timings fuel i src out) = length out.
Proof.
  induction fuel as [| fuel IH]; intros i src out; [reflexivity |].
  cbn [copy_timings]. destruct (src !! i); rewrite IH;
    [apply length_insert | reflexivity].
Qed.

Lemma copy_timings_lookup {T : Type} (fuel : nat) :
  forall (i : nat) (src out : list T) (k : nat),
    (i + fuel <= length src)%nat -> (i + fuel <= length out)%nat ->
    copy_timings fuel i src out !! k
    = if decide (i <= k < i + fuel)%nat then src !! k else out !! k.
Proof.
  induction fuel as [| fuel IH]; intros i src out k Hs Ho.
  - cbn [copy_timings]. destruct (decide _); [lia | reflexivity].
  - cbn [copy_timings].
    destruct (lookup_lt_is_Some_2 src i ltac:(lia)) as [t Ht]. rewrite Ht.
    rewrite IH by (rewrite ?length_insert; lia).
    destruct (decide (S i <= k < S i + fuel)%nat).
    + destruct (decide (i <= k < i + S fuel)%nat); [reflexivity | lia].
    + destruct (decide (k = i)) as [-> | Hne].
      * rewrite list_lookup_insert_eq by lia.
        destruct (decide (i <= i < i + S fuel)%nat); [now rewrite Ht | lia].
      * rewrite list_lookup_insert_ne by congruence.
        destruct (decide (i <= k < i + S fuel)%nat); [lia | reflexivity].
Qed.

(** X26: [panel_simple_get_timings] copies no more than asked for and no
    more than there is.  The value returned is always the number of timings
    of the panel.  With an array, its first [min n num_timings] entries
    become the first timings of the panel and the others keep their
    content; with a null pointer nothing is copied. *)
Theorem get_timings_copies_prefix (T : Type) (desc : panel_desc T) (n : Z)
        (out : list T) :
  0 <= num_timings desc < 2 ^ 31 -> 0 <= n < 2 ^ 32 ->
  length (timings desc) = Z.to_nat (num_timings desc) ->
  (Z.to_nat n <= length out)%nat ->
  panel_simple_get_timings desc n None = (num_timings desc, None) /\
  exists out',
    panel_simple_get_timings desc n (Some out)
    = (num_timings desc, Some out') /\
    length out' = length out /\
    forall k : nat,
      out' !! k = if decide (Z.of_nat k < Z.min n (num_timings desc))
                  then timings desc !! k else out !! k.
Proof.
  intros Hd Hn Hlen Hout. unfold panel_simple_get_timings. cbv zeta.
  rewrite s32_small by lia. split; [reflexivity |].
  eexists. split; [reflexivity |]. split; [apply copy_timings_length |].
  intros k.
  rewrite copy_timings_lookup
    by (destruct (Z.ltb_spec (num_timings desc) n); lia).
  destruct (Z.ltb_spec (num_timings desc) n);
    destruct (decide (0 <= k < _)%nat);
    destruct (decide (Z.of_nat k < _)); try reflexivity; lia.
Qed.

Lemma get_timings_copies_prefix_witness :
  panel_simple_get_timings
    {| timings := [10; 20; 30]; num_timings := 3 |} 2 None
  = (3, None) /\
  exists out',
    panel_simple_get_timings
      {| timings := [10; 20; 30]; num_timings := 3 |} 2 (Some [1; 2; 3; 4])
    = (3, Some out') /\
    length out' = length [1; 2; 3; 4] /\
    forall k : nat,
      out' !! k = if decide (Z.of_nat k < Z.min 2 3)
                  then [10; 20; 30] !! k else [1; 2; 3; 4] !! k.
Proof.
  apply (get_timings_copies_prefix
           Z {| timings := [10; 20; 30]; num_timings := 3 |} 2 [1; 2; 3; 4]).
  - cbn. lia.
  - lia.
  - reflexivity.
  - cbn. lia.
Defined.
